(** * Survey pipeline: caption length, hashtag count and engagement

    A shallow embedding of the table transformations of
    [src/preprocessing.py], [src/statistics.py] and
    [src/standardization.py], with the properties of the pipeline's
    specification stated and settled against it.

    Conventions of the embedding.
    - A pandas scalar is a [cell]: missing ([NA], which is NaN in a float
      column and [pd.NA] in a nullable one), an integer, a binary64 float
      (the kernel's primitive floats, so arithmetic rounds as numpy's does)
      or a string.
    - A DataFrame is a [frame]: the ordered column index and the ordered
      rows, each row a finite map from column name to cell.  [read_csv]
      never yields two columns of one name, so a map per row loses
      nothing.
    - A Python exception is an [exn] value carrying the class the source
      raises; a script is a state-and-error computation over the files of
      [data/] and the console. *)

From Stdlib Require Import ZArith List Ascii String Floats Uint63 Reals Lra.
From stdpp Require Import gmap strings list sorting pretty.

Set Warnings "-inexact-float".
Local Open Scope Z_scope.
Local Open Scope string_scope.

(** ** Scalars *)

Inductive cell : Type :=
| NA
| IntV (z : Z)
| FloatV (x : float)
| StrV (s : string).

Definition isna (c : cell) : bool :=
  match c with NA => true | _ => false end.

(** int64 -> float64, correctly rounded for |z| < 2^63. *)
Definition float_of_Z (z : Z) : float :=
  match z with
  | Z0 => 0%float
  | Zpos _ => PrimFloat.of_uint63 (Uint63.of_Z z)
  | Zneg p => (- PrimFloat.of_uint63 (Uint63.of_Z (Zpos p)))%float
  end.

(** A float that is NaN is the missing value of its column. *)
Definition cell_of_float (x : float) : cell :=
  if PrimFloat.is_nan x then NA else FloatV x.

(** [value == k] for an integer literal [k], elementwise as pandas does:
    NaN and strings compare unequal to every number. *)
Definition cell_eq_int (c : cell) (k : Z) : bool :=
  match c with
  | NA => false
  | IntV z => Z.eqb z k
  | FloatV x => PrimFloat.eqb x (float_of_Z k)
  | StrV _ => false
  end.

(** [value in ks] of [Series.isin]. *)
Definition cell_isin (c : cell) (ks : list Z) : bool :=
  existsb (cell_eq_int c) ks.

(** [a != b] elementwise; a missing value differs from everything,
    itself included. *)
Definition cell_ne (a b : cell) : bool :=
  match a, b with
  | NA, _ | _, NA => true
  | IntV x, IntV y => negb (Z.eqb x y)
  | IntV x, FloatV y => negb (PrimFloat.eqb (float_of_Z x) y)
  | FloatV x, IntV y => negb (PrimFloat.eqb x (float_of_Z y))
  | FloatV x, FloatV y => negb (PrimFloat.eqb x y)
  | StrV s, StrV t => negb (String.eqb s t)
  | StrV _, _ | _, StrV _ => true
  end.

(** ** Exceptions and results *)

Inductive exn : Type :=
| KeyError (key : string)
| ValueError (msg : string)
| TypeError (msg : string)
| FileNotFoundError (path : string).

Definition exn_class (e : exn) : string :=
  match e with
  | KeyError _ => "KeyError"
  | ValueError _ => "ValueError"
  | TypeError _ => "TypeError"
  | FileNotFoundError _ => "FileNotFoundError"
  end.

Inductive result (A : Type) : Type :=
| Ok (a : A)
| Raise (e : exn).
Arguments Ok {A} a.
Arguments Raise {A} e.

Definition rbind {A B} (m : result A) (k : A -> result B) : result B :=
  match m with
  | Ok a => k a
  | Raise e => Raise e
  end.

(** ** Frames *)

Record frame : Type := Frame {
  columns : list string;
  rows : list (gmap string cell)
}.

Definition get_cell (r : gmap string cell) (c : string) : cell :=
  default NA (r !! c).

Definition has_column (df : frame) (c : string) : bool :=
  bool_decide (c ∈ columns df).

(** [df[c]]: the column as a sequence of cells, [KeyError] when absent. *)
Definition getitem (df : frame) (c : string) : result (list cell) :=
  if has_column df c then Ok (map (fun r => get_cell r c) (rows df))
  else Raise (KeyError c).

(** [df[mask]] for a boolean mask aligned with the rows. *)
Fixpoint select_mask {A} (xs : list A) (mask : list bool) : list A :=
  match xs, mask with
  | x :: xs', b :: mask' =>
      if b then x :: select_mask xs' mask' else select_mask xs' mask'
  | _, _ => []
  end.

Definition boolean_index (df : frame) (mask : list bool) : frame :=
  Frame (columns df) (select_mask (rows df) mask).

(** [df[c] = v] with a scalar: an existing column keeps its place, a new
    one goes last. *)
Definition add_column (cols : list string) (c : string) : list string :=
  if bool_decide (c ∈ cols) then cols else cols ++ [c].

Definition setitem_scalar (df : frame) (c : string) (v : cell) : frame :=
  Frame (add_column (columns df) c) (map (fun r => <[c := v]> r) (rows df)).

(** [df[c] = values], one value per row. *)
Fixpoint assign_rows (rs : list (gmap string cell)) (c : string)
    (vals : list cell) : list (gmap string cell) :=
  match rs, vals with
  | r :: rs', v :: vals' => <[c := v]> r :: assign_rows rs' c vals'
  | _, _ => rs
  end.

Definition setitem (df : frame) (c : string) (vals : list cell) : frame :=
  Frame (add_column (columns df) c) (assign_rows (rows df) c vals).

(** [df.loc[mask, c] = values]: the values go, in order, to the rows the
    mask selects. *)
Fixpoint loc_assign_rows (rs : list (gmap string cell)) (mask : list bool)
    (c : string) (vals : list cell) : list (gmap string cell) :=
  match rs, mask with
  | r :: rs', true :: mask' =>
      match vals with
      | v :: vals' => <[c := v]> r :: loc_assign_rows rs' mask' c vals'
      | [] => r :: loc_assign_rows rs' mask' c []
      end
  | r :: rs', false :: mask' => r :: loc_assign_rows rs' mask' c vals
  | _, _ => rs
  end.

Definition loc_assign (df : frame) (mask : list bool) (c : string)
    (vals : list cell) : frame :=
  Frame (columns df) (loc_assign_rows (rows df) mask c vals).

(** [df.drop(columns=cs, errors=...)]: with ['raise'], the default, a
    listed column that is absent is a [KeyError]; with ['ignore'] it is
    skipped. *)
Inductive errors_mode : Type := ErrorsRaise | ErrorsIgnore.

Definition drop_columns (df : frame) (cs : list string) : frame :=
  Frame (List.filter (fun c => negb (bool_decide (c ∈ cs))) (columns df))
        (map (fun r => foldr delete r cs) (rows df)).

Definition drop (df : frame) (cs : list string) (errors : errors_mode)
    : result frame :=
  match errors, List.find (fun c => negb (has_column df c)) cs with
  | ErrorsRaise, Some c => Raise (KeyError c)
  | _, _ => Ok (drop_columns df cs)
  end.

(** [df[[c1, ..., cn]]]: the listed columns in the listed order;
    [KeyError] on the first one that is absent. *)
Definition restrict_row (cs : list string) (r : gmap string cell)
    : gmap string cell :=
  list_to_map (map (fun c => (c, get_cell r c)) cs).

Definition select_columns (df : frame) (cs : list string) : result frame :=
  match List.find (fun c => negb (has_column df c)) cs with
  | Some c => Raise (KeyError c)
  | None => Ok (Frame cs (map (restrict_row cs) (rows df)))
  end.

(** ** Scripts: files, console, exceptions *)

Record world : Type := World {
  files : gmap string frame;
  stdout : list string
}.

Definition script (A : Type) : Type := world -> result A * world.

Definition ret {A} (a : A) : script A := fun w => (Ok a, w).

Definition bind {A B} (m : script A) (k : A -> script B) : script B :=
  fun w => match m w with
           | (Ok a, w') => k a w'
           | (Raise e, w') => (Raise e, w')
           end.

Definition raise {A} (e : exn) : script A := fun w => (Raise e, w).

Definition lift {A} (r : result A) : script A := fun w => (r, w).

Infix ">>=" := bind (at level 50, left associativity).

Definition read_csv (path : string) : script frame :=
  fun w => match files w !! path with
           | Some df => (Ok df, w)
           | None => (Raise (FileNotFoundError path), w)
           end.

Definition to_csv (df : frame) (path : string) : script unit :=
  fun w => (Ok tt, World (<[path := df]> (files w)) (stdout w)).

Definition print (line : string) : script unit :=
  fun w => (Ok tt, World (files w) (stdout w ++ [line])).

(** ** Numeric helpers *)

Module Float64.

Definition two52 : float := 4503599627370496%float.

(** [numpy.rint]: round to the nearest integral value, ties to even.
    Below 2^52 in magnitude, adding and removing 2^52 makes the
    hardware rounding do it; from 2^52 on every float is integral. *)
Definition rint (x : float) : float :=
  if PrimFloat.ltb (PrimFloat.abs x) two52 then
    let r := (PrimFloat.abs x + two52 - two52)%float in
    if PrimFloat.get_sign x then (- r)%float else r
  else x.

(** [numpy.round(x, decimals)] for [decimals] >= 0, as numpy computes
    it: scale, [rint], unscale. *)
Definition round_decimals (x : float) (scale : float) : float :=
  (rint (x * scale) / scale)%float.

Definition round2 (x : float) : float := round_decimals x 100%float.
Definition round1 (x : float) : float := round_decimals x 10%float.

(** The integer a float denotes, when it denotes one. *)
Definition to_Z_exact (x : float) : option Z :=
  match Prim2SF x with
  | S754_zero _ => Some 0
  | S754_finite s m e =>
      let mag :=
        if Z.leb 0 e then Some (Zpos m * 2 ^ e)
        else if Z.eqb (Zpos m mod 2 ^ (- e)) 0
             then Some (Zpos m / 2 ^ (- e)) else None in
      (fun v => if s then - v else v) <$> mag
  | _ => None
  end.

End Float64.

(** [len(df)] and friends, as the f-strings print them. *)
Definition fmt_nat (n : nat) : string := pretty n.

Definition newline : string := String (ascii_of_nat 10) EmptyString.

(** [f"{n:,}"]: decimal digits in groups of three. *)
Fixpoint group3 (digits_rev : list ascii) (k : nat) : list ascii :=
  match digits_rev with
  | [] => []
  | d :: rest =>
      match k, rest with
      | 2%nat, _ :: _ => d :: ","%char :: group3 rest 0
      | _, _ => d :: group3 rest (S k)
      end
  end.

Definition fmt_nat_grouped (n : nat) : string :=
  string_of_list_ascii
    (rev (group3 (rev (list_ascii_of_string (pretty n))) 0)).

(** ** preprocessing.py *)

(** Steps 3, 5, 8, 9: [df[df[c] == k]] and [df[df[c].isin(ks)]]. *)
Definition filter_eq (df : frame) (c : string) (k : Z) : result frame :=
  rbind (getitem df c) (fun s =>
  Ok (boolean_index df (map (fun v => cell_eq_int v k) s))).

Definition filter_isin (df : frame) (c : string) (ks : list Z)
    : result frame :=
  rbind (getitem df c) (fun s =>
  Ok (boolean_index df (map (fun v => cell_isin v ks) s))).

(** Step 3. *)
Definition filter_instagram (df : frame) : result frame :=
  filter_eq df "P101" 1.

(** Steps 6 and 7. *)
Definition columns_to_remove_q2 : list string :=
  ["P301_CP"; "P301"; "P306"; "P302"; "P303"; "P304"; "P305"].


(** Step 8: P206 == 3, then P202 in [3, 4, 5]. *)
Definition clean_q2 (df_q2 : frame) : result frame :=
  rbind (filter_eq df_q2 "P206" 3) (fun df => filter_isin df "P202" [3; 4; 5]).

(** Step 9: P306 == 1, then P302 in [3, 4, 5]. *)
Definition clean_q3 (df_q3 : frame) : result frame :=
  rbind (filter_eq df_q3 "P306" 1) (fun df => filter_isin df "P302" [3; 4; 5]).

(** The predicates the inclusion filters use, and the filter each one
    denotes; a conjunction is two filters in sequence, as in steps 8 and
    9. *)
Inductive predicate : Type :=
| PEq (c : string) (k : Z)
| PIsin (c : string) (ks : list Z)
| PAnd (p q : predicate).

Fixpoint holds (p : predicate) (r : gmap string cell) : bool :=
  match p with
  | PEq c k => cell_eq_int (get_cell r c) k
  | PIsin c ks => cell_isin (get_cell r c) ks
  | PAnd p q => holds p r && holds q r
  end.

Fixpoint fields (p : predicate) : list string :=
  match p with
  | PEq c _ | PIsin c _ => [c]
  | PAnd p q => fields p ++ fields q
  end.

Fixpoint apply_filter (p : predicate) (df : frame) : result frame :=
  match p with
  | PEq c k => filter_eq df c k
  | PIsin c ks => filter_isin df c ks
  | PAnd p q => rbind (apply_filter p df) (apply_filter q)
  end.

(** Step 10: the coding scheme, post code -> (caption length, hashtags). *)
Definition coding_scheme_items : list (Z * (Z * Z)) :=
  [ (1, (5, 5));  (2, (70, 5));   (3, (140, 5));   (4, (200, 5));
    (5, (5, 11)); (6, (70, 11));  (7, (140, 11));  (8, (200, 11));
    (9, (5, 15)); (10, (70, 15)); (11, (140, 15)); (12, (200, 15)) ].

Definition coding_scheme : gmap Z (Z * Z) := list_to_map coding_scheme_items.

Definition coding_scheme_keys : list Z := map fst coding_scheme_items.

(** [coding_scheme[x]] for a cell: a float key finds the integer it
    equals, as Python's dict does; a miss is a [KeyError]. *)
Definition coding_scheme_get (x : cell) : result (Z * Z) :=
  match List.find (fun kv => cell_eq_int x (fst kv)) coding_scheme_items with
  | Some kv => Ok (snd kv)
  | None => Raise (KeyError "coding_scheme")
  end.

(** [Series.map(f)] for an [f] that may raise. *)
Fixpoint series_map {A B} (f : A -> result B) (xs : list A)
    : result (list B) :=
  match xs with
  | [] => Ok []
  | x :: xs' =>
      rbind (f x) (fun y => rbind (series_map f xs') (fun ys => Ok (y :: ys)))
  end.

(** [.astype('Int64')] on one value of an object column. *)
Definition as_Int64 (c : cell) : result cell :=
  match c with
  | NA => Ok NA
  | IntV z => Ok (IntV z)
  | FloatV x =>
      match Float64.to_Z_exact x with
      | Some z => Ok (IntV z)
      | None => Raise (TypeError "cannot safely cast non-equivalent object to int64")
      end
  | StrV _ => Raise (TypeError "object cannot be converted to an IntegerDtype")
  end.

Definition astype_Int64 (df : frame) (c : string) : result frame :=
  rbind (getitem df c) (fun s =>
  rbind (series_map as_Int64 s) (fun s' =>
  Ok (setitem df c s'))).

Definition count_true (mask : list bool) : nat :=
  length (List.filter (fun b => b) mask).

(** Step 11. *)
Definition add_post_info (df : frame) (post_col output_file : string)
    : script frame :=
  let df := setitem_scalar df "Caption_Length" NA in
  let df := setitem_scalar df "Hashtags" NA in
  lift (getitem df post_col) >>= fun posts =>
  let mask := map (fun v => cell_isin v coding_scheme_keys) posts in
  let valid_posts := select_mask posts mask in
  lift (series_map (fun x => rbind (coding_scheme_get x)
                                   (fun p => Ok (IntV (fst p)))) valid_posts)
    >>= fun caption_lengths =>
  lift (series_map (fun x => rbind (coding_scheme_get x)
                                   (fun p => Ok (IntV (snd p)))) valid_posts)
    >>= fun hashtags =>
  let df := loc_assign df mask "Caption_Length" caption_lengths in
  let df := loc_assign df mask "Hashtags" hashtags in
  lift (astype_Int64 df "Caption_Length") >>= fun df =>
  lift (astype_Int64 df "Hashtags") >>= fun df =>
  to_csv df ("data/" ++ output_file) >>= fun _ =>
  print (output_file ++ " created with " ++ fmt_nat (length (rows df))
         ++ " rows.") >>= fun _ =>
  print (" - Added: 'Caption_Length', 'Hashtags' based on '" ++ post_col
         ++ "'") >>= fun _ =>
  print (" - Valid mappings: " ++ fmt_nat (count_true mask) ++ " / "
         ++ fmt_nat (length (rows df)) ++ newline) >>= fun _ =>
  ret df.

(** Steps 12 and 13. *)
Definition enhance_q2 : script frame :=
  print "Processing Cleaned_Q2.csv..." >>= fun _ =>
  read_csv "data/Cleaned_Q2.csv" >>= fun df_q2 =>
  add_post_info df_q2 "P201" "Cleaned_Q2_withPostInfo.csv".

Definition enhance_q3 : script frame :=
  print "Processing Cleaned_Q3.csv..." >>= fun _ =>
  read_csv "data/Cleaned_Q3.csv" >>= fun df_q3 =>
  add_post_info df_q3 "P301" "Cleaned_Q3_withPostInfo.csv".

(** Steps 14 and 15: select, rename, tag with the post number, key the
    rows, reorder. *)
Definition rename_column (mapping : list (string * string)) (c : string)
    : string :=
  match List.find (fun kv => String.eqb (fst kv) c) mapping with
  | Some kv => snd kv
  | None => c
  end.

Definition rename (df : frame) (mapping : list (string * string)) : frame :=
  Frame (map (rename_column mapping) (columns df))
        (map (fun r => list_to_map
                (map (fun c => (rename_column mapping c, get_cell r c))
                     (columns df)))
             (rows df)).

(** [df.index.to_series().apply(lambda x: f"{prefix}{x}")] over the
    default index 0 .. n-1. *)
Definition row_ids (prefix : string) (n : nat) : list cell :=
  map (fun i => StrV (prefix ++ pretty i)) (seq 0 n).

Definition final_columns : list string :=
  ["RowID"; "Gender"; "Age"; "Occupation"; "Post"; "Image Drawn";
   "Post Interest"; "Like Possibility"; "Comment Possibility";
   "Share Possibility"; "Caption_Length"; "Hashtags"].

Definition post1_selection : list string :=
  ["SD01"; "SD02_01"; "SD10"; "P201"; "P202"; "P203"; "P204"; "P205";
   "P206"; "Caption_Length"; "Hashtags"].

Definition post1_renaming : list (string * string) :=
  [("SD01", "Gender"); ("SD02_01", "Age"); ("SD10", "Occupation");
   ("P201", "Image Drawn"); ("P206", "Selection Criteria");
   ("P202", "Post Interest"); ("P203", "Like Possibility");
   ("P204", "Comment Possibility"); ("P205", "Share Possibility")].

Definition post2_selection : list string :=
  ["SD01"; "SD02_01"; "SD10"; "P301"; "P302"; "P303"; "P304"; "P305";
   "P306"; "Caption_Length"; "Hashtags"].

Definition post2_renaming : list (string * string) :=
  [("SD01", "Gender"); ("SD02_01", "Age"); ("SD10", "Occupation");
   ("P301", "Image Drawn"); ("P306", "Selection Criteria");
   ("P302", "Post Interest"); ("P303", "Like Possibility");
   ("P304", "Comment Possibility"); ("P305", "Share Possibility")].

Definition finalize_post (input_file : string) (selection : list string)
    (renaming : list (string * string)) (post : Z) (prefix : string)
    (output_file : string) : script unit :=
  read_csv input_file >>= fun df =>
  lift (select_columns df selection) >>= fun df_new =>
  let df_new := rename df_new renaming in
  let df_new := setitem_scalar df_new "Post" (IntV post) in
  let df_new := setitem df_new "RowID"
                  (row_ids prefix (length (rows df_new))) in
  lift (select_columns df_new final_columns) >>= fun df_new =>
  to_csv df_new ("data/" ++ output_file) >>= fun _ =>
  print ("New file created successfully: " ++ output_file) >>= fun _ =>
  print ("Total rows: " ++ fmt_nat (length (rows df_new))).

Definition finalize_post1 : script unit :=
  finalize_post "data/Cleaned_Q2_withPostInfo.csv" post1_selection
    post1_renaming 1 "Post1_" "Cleaned_Q2_Final_Post1.csv".

Definition finalize_post2 : script unit :=
  finalize_post "data/Cleaned_Q3_withPostInfo.csv" post2_selection
    post2_renaming 2 "Post2_" "Cleaned_Q3_Final_Post2.csv".

(** Steps 16 and 17: the Engagement Intention Score. *)

(** A cell as the float the column arithmetic sees; a string column
    times a float is a [TypeError]. *)
Definition to_float (c : cell) : result float :=
  match c with
  | NA => Ok nan
  | IntV z => Ok (float_of_Z z)
  | FloatV x => Ok x
  | StrV _ =>
      Raise (TypeError "can't multiply sequence by non-int of type 'float'")
  end.

(** [series * w]. *)
Definition series_mul (s : list cell) (w : float) : result (list float) :=
  series_map (fun c => rbind (to_float c) (fun x => Ok (x * w)%float)) s.

(** [a + b] on aligned float series. *)
Definition series_add (a b : list float) : list float :=
  zip_with PrimFloat.add a b.

Definition weight_like : float := 0.847%float.
Definition weight_comment : float := 0.941%float.
Definition weight_share : float := 0.920%float.

Definition score_column : string := "Engagement Intention Score".

Definition add_engagement_score (df_new : frame) : result frame :=
  rbind (getitem df_new "Like Possibility") (fun like =>
  rbind (series_mul like weight_like) (fun a =>
  rbind (getitem df_new "Comment Possibility") (fun comment =>
  rbind (series_mul comment weight_comment) (fun b =>
  rbind (getitem df_new "Share Possibility") (fun share =>
  rbind (series_mul share weight_share) (fun c =>
  let total := series_add (series_add a b) c in
  let df_new := setitem df_new score_column (map cell_of_float total) in
  let rounded := map Float64.round2 total in
  Ok (setitem df_new score_column (map cell_of_float rounded)))))))).

Definition engagement_stage (input_file output_file : string) : script unit :=
  read_csv input_file >>= fun df_new =>
  lift (add_engagement_score df_new) >>= fun df_new =>
  to_csv df_new ("data/" ++ output_file) >>= fun _ =>
  print ("Done! New file created: " ++ output_file) >>= fun _ =>
  print ("Total rows: " ++ fmt_nat (length (rows df_new))).

(** The score of one row, as the column arithmetic computes it
    elementwise. *)
Definition engagement_score (like comment share : float) : float :=
  Float64.round2
    (like * weight_like + comment * weight_comment + share * weight_share)%float.

(** Step 18: merge Post1 and Post2. *)
Definition file1 : string := "data/Cleaned_Q2_Post1_WithEngagementScore.csv".
Definition file2 : string := "data/Cleaned_Q3_Post2_WithEngagementScore.csv".
Definition merged_file : string := "data/merged_data.csv".

(** [pd.concat([df1, df2], ignore_index=True)]: the rows of [df1], then
    those of [df2], over the union of the columns; a cell a row lacks
    reads as missing. *)
Definition concat (df1 df2 : frame) : frame :=
  Frame (columns df1
           ++ List.filter (fun c => negb (bool_decide (c ∈ columns df1)))
                          (columns df2))
        (rows df1 ++ rows df2).

Definition merge_frames (df1 df2 : frame) : result frame :=
  let df_merged := concat df1 df2 in
  let df_merged := setitem df_merged "RowID"
                     (row_ids "Row_" (length (rows df_merged))) in
  let cols := "RowID" :: List.filter (fun col => negb (String.eqb col "RowID"))
                                     (columns df_merged) in
  select_columns df_merged cols.

Definition merge_stage : script unit :=
  read_csv file1 >>= fun df1 =>
  read_csv file2 >>= fun df2 =>
  print "=== FILE INFO ===" >>= fun _ =>
  print (file1 ++ " → " ++ fmt_nat_grouped (length (rows df1)) ++ " rows, "
         ++ fmt_nat (length (columns df1)) ++ " columns") >>= fun _ =>
  print (file2 ++ " → " ++ fmt_nat_grouped (length (rows df2)) ++ " rows, "
         ++ fmt_nat (length (columns df2)) ++ " columns") >>= fun _ =>
  (if bool_decide (columns df1 = columns df2)
   then print "Columns are IDENTICAL in both files"
   else raise (ValueError "Column mismatch! Fix before merging."))
    >>= fun _ =>
  lift (merge_frames df1 df2) >>= fun df_merged =>
  print (newline ++ "=== MERGING SUCCESSFUL ===") >>= fun _ =>
  print ("Total rows in merged file : "
         ++ fmt_nat_grouped (length (rows df_merged))) >>= fun _ =>
  to_csv df_merged merged_file >>= fun _ =>
  print (newline ++ "Merged file saved as: merged_data.csv").

(** ** statistics.py *)

Module Statistics.

(** Step 2: [len(df[df['FINISHED'] == 1])]. *)
Definition finished_cases (df : frame) : result nat :=
  rbind (filter_eq df "FINISHED" 1) (fun d => Ok (length (rows d))).

(** Step 3: [(df['P201'] != df['P301']).sum()]. *)
Definition different_codes (df : frame) : result nat :=
  rbind (getitem df "P201") (fun p201 =>
  rbind (getitem df "P301") (fun p301 =>
  Ok (count_true (zip_with cell_ne p201 p301)))).

(** [round(different_codes / finished_cases * 100, 1) if
    finished_cases > 0 else 0]; the count is a numpy integer, so the
    quotient is a numpy float and is rounded as numpy rounds. *)
Definition different_codes_pct (different finished : nat) : cell :=
  if (0 <? finished)%nat then
    FloatV (Float64.round1
              (float_of_Z (Z.of_nat different)
               / float_of_Z (Z.of_nat finished) * 100)%float)
  else IntV 0.

Record report : Type := Report {
  total_cases : nat;
  finished : nat;
  different : nat;
  different_pct : cell
}.

Definition describe (df : frame) : result report :=
  rbind (finished_cases df) (fun fin =>
  rbind (different_codes df) (fun diff =>
  Ok (Report (length (rows df)) fin diff (different_codes_pct diff fin)))).


End Statistics.

(** ** standardization.py *)

Definition to_standardize : list string :=
  ["Age"; "Post Interest"; "Like Possibility"; "Comment Possibility";
   "Share Possibility"; "Caption_Length"; "Hashtags";
   "Engagement Intention Score"].

Definition categorical : list string :=
  ["Gender"; "Occupation"; "Post"; "Image Drawn"].

(** Step 4.  [StandardScaler] is scikit-learn's; its documented
    behaviour, over the reals: per column, with missing values left out
    of the fit and left missing by the transform,
    [z = (x - mean) / scale], where [scale] is the square root of the
    variance with denominator n ([numpy.std] with [ddof=0]) and a
    column of zero spread is scaled by 1. *)
Module StandardScaler.
Local Open Scope R_scope.

Definition present (col : list (option R)) : list R :=
  omap (fun o : option R => o) col.

Definition total (xs : list R) : R := fold_right Rplus 0 xs.

Definition mean (xs : list R) : R := total xs / INR (length xs).

Definition sum_sq_dev (xs : list R) : R :=
  total (map (fun x => (x - mean xs) * (x - mean xs)) xs).

(** [var_], denominator n. *)
Definition var (xs : list R) : R := sum_sq_dev xs / INR (length xs).

Definition scale (xs : list R) : R :=
  let s := sqrt (var xs) in
  if Req_dec_T s 0 then 1 else s.

Definition fit_transform (col : list (option R)) : list (option R) :=
  let xs := present col in
  map (fmap (M := option) (fun x => (x - mean xs) / scale xs)) col.

(** The z-score the specification describes: the standard deviation of
    the unbiased variance estimator, denominator n - 1. *)
Definition sample_var (xs : list R) : R :=
  sum_sq_dev xs / (INR (length xs) - 1).

Definition sample_zscore (col : list (option R)) : list (option R) :=
  let xs := present col in
  map (fmap (M := option) (fun x => (x - mean xs) / sqrt (sample_var xs)))
      col.

End StandardScaler.

(** Step 5.  [pd.get_dummies(data, drop_first=True, dtype=int)] without
    a [columns] argument: only the columns of object dtype are encoded,
    the others are carried over as they are, ahead of the indicator
    columns.  A table here is a list of named columns, since indicator
    names are built from data and may repeat. *)
Module Dummies.

Definition table : Type := list (string * list cell).

Definition is_str (c : cell) : bool :=
  match c with StrV _ => true | _ => false end.

(** A column read from CSV has object dtype when it holds a string. *)
Definition object_dtype (s : list cell) : bool := existsb is_str s.

(** The category a cell of an object column holds; missing holds none. *)
Definition label (c : cell) : option string :=
  match c with StrV s => Some s | _ => None end.

(** The observed categories, distinct and sorted. *)
Definition levels (s : list cell) : list string :=
  merge_sort String.le (remove_dups (omap label s)).

Definition indicator (s : list cell) (lv : string) : list cell :=
  map (fun c => IntV (if bool_decide (label c = Some lv) then 1 else 0)) s.

(** The indicator columns of one source column, first level dropped. *)
Definition get_dummies_1d (name : string) (s : list cell) : table :=
  map (fun lv => (name ++ "_" ++ lv, indicator s lv)) (tail (levels s)).

Definition get_dummies (data : table) : table :=
  (List.filter (fun col => negb (object_dtype (snd col))) data
   ++ flat_map (fun col => get_dummies_1d (fst col) (snd col))
        (List.filter (fun col => object_dtype (snd col)) data))%list.

(** [df[cs]] as a table of columns. *)
Definition columns_of (df : frame) (cs : list string) : result table :=
  series_map (fun c => rbind (getitem df c) (fun s => Ok (c, s))) cs.

(** Step 5 on the frame read in step 1. *)
Definition dummy_data (df : frame) : result table :=
  rbind (columns_of df categorical) (fun data => Ok (get_dummies data)).

(** The value of an indicator cell, and the sum of the indicators of
    row [i]. *)
Definition cell_Z (c : cell) : Z :=
  match c with IntV z => z | _ => 0 end.

Definition row_sum (t : table) (i : nat) : Z :=
  foldr Z.add 0 (map (fun col => cell_Z (nth i (snd col) NA)) t).

End Dummies.

(** ** Closed forms of the stages

    What each stage computes, written row by row; the properties below
    show that the stages, run as the scripts run them, compute these. *)

(** The merged table of step 18. *)
Definition merged_columns (df1 : frame) : list string :=
  "RowID" :: List.filter (fun col => negb (String.eqb col "RowID"))
                         (columns df1).

Definition merged_rows (df1 df2 : frame) : list (gmap string cell) :=
  map (restrict_row (merged_columns df1))
      (assign_rows (rows df1 ++ rows df2) "RowID"
         (row_ids "Row_" (length (rows df1 ++ rows df2)))).

(** The derived values of step 11 for one post-code cell. *)
Definition caption_length_of (x : cell) : cell :=
  match coding_scheme_get x with
  | Ok p => IntV (fst p)
  | Raise _ => NA
  end.

Definition hashtags_of (x : cell) : cell :=
  match coding_scheme_get x with
  | Ok p => IntV (snd p)
  | Raise _ => NA
  end.

(** One row through step 11. *)
Definition init_row (r : gmap string cell) : gmap string cell :=
  <["Hashtags" := NA]> (<["Caption_Length" := NA]> r).

Definition post_info_row (post_col : string) (r : gmap string cell)
    : gmap string cell :=
  let r0 := init_row r in
  let x := get_cell r0 post_col in
  if cell_isin x coding_scheme_keys
  then <["Hashtags" := hashtags_of x]>
         (<["Caption_Length" := caption_length_of x]> r0)
  else r0.

Definition post_info_frame (df : frame) (post_col : string) : frame :=
  Frame (add_column (add_column (columns df) "Caption_Length") "Hashtags")
        (map (post_info_row post_col) (rows df)).

(** The three console lines of step 11. *)
Definition post_info_log (df : frame) (post_col output_file : string)
    : list string :=
  [ output_file ++ " created with " ++ fmt_nat (length (rows df)) ++ " rows.";
    " - Added: 'Caption_Length', 'Hashtags' based on '" ++ post_col ++ "'";
    " - Valid mappings: "
      ++ fmt_nat (length (List.filter
                            (fun r => cell_isin (get_cell (init_row r) post_col)
                                                coding_scheme_keys)
                            (rows df)))
      ++ " / " ++ fmt_nat (length (rows df)) ++ newline ].

(** The score of steps 16 and 17 for one row. *)
Definition as_float (c : cell) : float :=
  match c with
  | IntV z => float_of_Z z
  | FloatV x => x
  | _ => nan
  end.

Definition is_number_or_null (c : cell) : bool :=
  match c with StrV _ => false | _ => true end.

Definition row_score (r : gmap string cell) : cell :=
  cell_of_float
    (engagement_score (as_float (get_cell r "Like Possibility"))
                      (as_float (get_cell r "Comment Possibility"))
                      (as_float (get_cell r "Share Possibility"))).

Definition scored_frame (df : frame) : frame :=
  Frame (add_column (columns df) score_column)
        (map (fun r => <[score_column := row_score r]> r) (rows df)).

(** A record set the score stage accepts: the three items are columns
    and hold numbers or nulls. *)
Definition scorable (df : frame) : Prop :=
  "Like Possibility" ∈ columns df
  /\ "Comment Possibility" ∈ columns df
  /\ "Share Possibility" ∈ columns df
  /\ Forall (fun r =>
       is_number_or_null (get_cell r "Like Possibility") = true
       /\ is_number_or_null (get_cell r "Comment Possibility") = true
       /\ is_number_or_null (get_cell r "Share Possibility") = true)
       (rows df).





Definition forallb3 {A} (f : A -> A -> A -> bool) (xs : list A) : bool :=
  forallb (fun a => forallb (fun b => forallb (f a b) xs) xs) xs.



(** ** Example tables *)

Definition mkrow (kvs : list (string * cell)) : gmap string cell :=
  list_to_map kvs.

(** Three respondents of the Q2 subset: one passes both checks with
    post code 3, one fails the city check, one has no post code. *)
Definition example_q2 : frame :=
  Frame ["SD01"; "P201"; "P202"; "P206"]
    [ mkrow [("SD01", IntV 1); ("P201", IntV 3); ("P202", IntV 4);
             ("P206", IntV 3)];
      mkrow [("SD01", IntV 2); ("P201", IntV 13); ("P202", IntV 5);
             ("P206", IntV 1)];
      mkrow [("SD01", IntV 2); ("P201", NA); ("P202", IntV 3);
             ("P206", IntV 3)] ].

Definition example_world_empty : world := World ∅ [].

(** The row of the end-to-end scenario, and one with a missing item. *)
Definition example_final_post1 : frame :=
  Frame ["RowID"; "Like Possibility"; "Comment Possibility";
         "Share Possibility"]
    [ mkrow [("RowID", StrV "Post1_0"); ("Like Possibility", IntV 4);
             ("Comment Possibility", IntV 3); ("Share Possibility", IntV 5)];
      mkrow [("RowID", StrV "Post1_1"); ("Like Possibility", IntV 2);
             ("Comment Possibility", NA); ("Share Possibility", IntV 1)] ].


(** A string-coded column with a missing answer, and the numeric Post
    column the pipeline itself produces in steps 14 and 15. *)
Definition example_gender : list cell := [StrV "f"; NA; StrV "m"; StrV "f"].
Definition example_post : list cell := [IntV 1; IntV 2; IntV 1; IntV 2].

(** A column of two values, 0 and 2. *)
Definition example_column : list (option R) := [Some 0%R; Some 2%R].

(** Two per-post files whose headers differ in order, and two that
    agree. *)
Definition example_post1 : frame :=
  Frame ["RowID"; "Post"; "Hashtags"]
    [ mkrow [("RowID", StrV "Post1_0"); ("Post", IntV 1); ("Hashtags", IntV 5)];
      mkrow [("RowID", StrV "Post1_1"); ("Post", IntV 1); ("Hashtags", NA)] ].

Definition example_post2 : frame :=
  Frame ["RowID"; "Post"; "Hashtags"]
    [ mkrow [("RowID", StrV "Post2_0"); ("Post", IntV 2); ("Hashtags", IntV 11)] ].

Definition example_post2_reordered : frame :=
  Frame ["RowID"; "Hashtags"; "Post"]
    [ mkrow [("RowID", StrV "Post2_0"); ("Post", IntV 2); ("Hashtags", IntV 11)] ].

Definition example_world_match : world :=
  World (<[file1 := example_post1]> (<[file2 := example_post2]> ∅)) [].

Definition example_world_mismatch : world :=
  World (<[file1 := example_post1]> (<[file2 := example_post2_reordered]> ∅))
        [].

(** ** preprocessing.py, step 19: polynomial and interaction terms *)

(** numpy's int64 arithmetic wraps around. *)
Definition int64_wrap (z : Z) : Z := (z + 2 ^ 63) mod 2 ^ 64 - 2 ^ 63.

(** The values of a numeric column as numpy holds them. *)
Inductive numeric_series : Type :=
| IntSeries (zs : list Z)
| FloatSeries (xs : list float).

Definition is_int (c : cell) : bool :=
  match c with IntV _ => true | _ => false end.

Definition cell_int (c : cell) : Z :=
  match c with IntV z => z | _ => 0 end.

(** A column read from CSV is int64 when every cell is an integer,
    float64 (missing cells as NaN) when a cell is missing or a float,
    and has object dtype, with no numeric form, when it holds a
    string. *)
Definition as_numeric (s : list cell) : option numeric_series :=
  if existsb Dummies.is_str s then None
  else if forallb is_int s then Some (IntSeries (map cell_int s))
  else Some (FloatSeries (map as_float s)).

(** The operand of [** 2]: a string column raises. *)
Definition pow_operand (s : list cell) : result numeric_series :=
  match as_numeric s with
  | Some n => Ok n
  | None =>
      Raise (TypeError
               "unsupported operand type(s) for ** or pow(): 'str' and 'int'")
  end.

Definition numeric_pow2 (a : numeric_series) : numeric_series :=
  match a with
  | IntSeries zs => IntSeries (map (fun z => int64_wrap (z * z)) zs)
  | FloatSeries xs => FloatSeries (map (fun x => (x * x)%float) xs)
  end.

Definition numeric_mul (a b : numeric_series) : numeric_series :=
  match a, b with
  | IntSeries x, IntSeries y =>
      IntSeries (zip_with (fun p q => int64_wrap (p * q)) x y)
  | IntSeries x, FloatSeries y =>
      FloatSeries (zip_with PrimFloat.mul (map float_of_Z x) y)
  | FloatSeries x, IntSeries y =>
      FloatSeries (zip_with PrimFloat.mul x (map float_of_Z y))
  | FloatSeries x, FloatSeries y => FloatSeries (zip_with PrimFloat.mul x y)
  end.

Definition numeric_cells (a : numeric_series) : list cell :=
  match a with
  | IntSeries zs => map IntV zs
  | FloatSeries xs => map cell_of_float xs
  end.

(** The four assignments of step 19.  The product is formed after both
    columns went through [** 2], so both are numeric by then; the
    assignments in between touch neither of the two source columns. *)
Definition add_polynomial_terms (df : frame) : result frame :=
  rbind (getitem df "Hashtags") (fun hashtags =>
  rbind (pow_operand hashtags) (fun h =>
  let df := setitem df "Hashtags^2" (numeric_cells (numeric_pow2 h)) in
  rbind (getitem df "Caption_Length") (fun caption =>
  rbind (pow_operand caption) (fun c =>
  let df := setitem df "Caption_Length^2"
              (numeric_cells (numeric_pow2 c)) in
  let df := setitem df "Caption_Length_x_Hashtags"
              (numeric_cells (numeric_mul c h)) in
  Ok (setitem df "(Caption_Length_x_Hashtags)^2"
        (numeric_cells (numeric_pow2 (numeric_mul c h)))))))).

Definition polynomial_file : string := "data/merged_data_with_all_columns.csv".

Definition polynomial_stage : script unit :=
  read_csv merged_file >>= fun df =>
  print ("Original data loaded: " ++ fmt_nat_grouped (length (rows df))
         ++ " rows, " ++ fmt_nat (length (columns df)) ++ " columns")
    >>= fun _ =>
  lift (add_polynomial_terms df) >>= fun df =>
  print (newline ++ "New columns added successfully!") >>= fun _ =>
  print ("Final data: " ++ fmt_nat_grouped (length (rows df)) ++ " rows, "
         ++ fmt_nat (length (columns df)) ++ " columns") >>= fun _ =>
  to_csv df polynomial_file >>= fun _ =>
  print (newline ++ "File saved as: merged_data_with_all_columns.csv").

(** One cell of each derived column, given whether the source columns
    are int64. *)
Definition pow2_cell (int_dtype : bool) (c : cell) : cell :=
  if int_dtype then IntV (int64_wrap (cell_int c * cell_int c))
  else cell_of_float (as_float c * as_float c)%float.

Definition mul_cell (int_dtype : bool) (a b : cell) : cell :=
  if int_dtype then IntV (int64_wrap (cell_int a * cell_int b))
  else cell_of_float (as_float a * as_float b)%float.

Definition mul_pow2_cell (int_dtype : bool) (a b : cell) : cell :=
  if int_dtype
  then IntV (int64_wrap (int64_wrap (cell_int a * cell_int b)
                         * int64_wrap (cell_int a * cell_int b)))
  else cell_of_float ((as_float a * as_float b) * (as_float a * as_float b))%float.

Definition column_cells (df : frame) (c : string) : list cell :=
  map (fun r => get_cell r c) (rows df).

Definition int_column (df : frame) (c : string) : bool :=
  forallb is_int (column_cells df c).

Definition polynomial_row (df : frame) (r : gmap string cell)
    : gmap string cell :=
  let h := get_cell r "Hashtags" in
  let c := get_cell r "Caption_Length" in
  let hi := int_column df "Hashtags" in
  let ci := int_column df "Caption_Length" in
  <["(Caption_Length_x_Hashtags)^2" := mul_pow2_cell (ci && hi) c h]>
    (<["Caption_Length_x_Hashtags" := mul_cell (ci && hi) c h]>
       (<["Caption_Length^2" := pow2_cell ci c]>
          (<["Hashtags^2" := pow2_cell hi h]> r))).

Definition polynomial_columns (cols : list string) : list string :=
  add_column
    (add_column
       (add_column (add_column cols "Hashtags^2") "Caption_Length^2")
       "Caption_Length_x_Hashtags")
    "(Caption_Length_x_Hashtags)^2".

Definition polynomial_frame (df : frame) : frame :=
  Frame (polynomial_columns (columns df)) (map (polynomial_row df) (rows df)).

(** A record set step 19 accepts: both source columns exist and hold no
    string. *)
Definition polynomial_ready (df : frame) : Prop :=
  "Hashtags" ∈ columns df
  /\ "Caption_Length" ∈ columns df
  /\ existsb Dummies.is_str (column_cells df "Hashtags") = false
  /\ existsb Dummies.is_str (column_cells df "Caption_Length") = false.

(** A numeric cell holding the integer [z], as an int64 or as the
    float64 of [z]. *)
Definition holds_integer (c : cell) (z : Z) : Prop :=
  c = IntV z \/ c = FloatV (float_of_Z z).

(** One row of the table steps 14 and 15 write, at index [i]. *)
Definition finalized_row (selection : list string)
    (renaming : list (string * string)) (post : Z) (prefix : string)
    (i : nat) (r : gmap string cell) : gmap string cell :=
  restrict_row final_columns
    (<["RowID" := StrV (prefix ++ pretty i)]>
       (<["Post" := IntV post]>
          (list_to_map
             (map (fun c => (rename_column renaming c,
                             get_cell (restrict_row selection r) c))
                  selection)))).

(** The rows steps 14 and 15 write. *)
Definition renamed_row (selection : list string)
    (renaming : list (string * string)) (r : gmap string cell)
    : gmap string cell :=
  list_to_map
    (map (fun c => (rename_column renaming c,
                    get_cell (restrict_row selection r) c)) selection).

Definition finalized_rows (selection : list string)
    (renaming : list (string * string)) (post : Z) (prefix : string)
    (rs : list (gmap string cell)) : list (gmap string cell) :=
  map (restrict_row final_columns)
      (assign_rows
         (map (fun r => <["Post" := IntV post]>
                          (renamed_row selection renaming r)) rs)
         "RowID" (row_ids prefix (length rs))).

Definition post1_input_file : string := "data/Cleaned_Q2_withPostInfo.csv".
Definition post2_input_file : string := "data/Cleaned_Q3_withPostInfo.csv".

(** ** The two branches of the pipeline, steps 12 to 17 *)

Definition post1_final_file : string := "data/Cleaned_Q2_Final_Post1.csv".
Definition post2_final_file : string := "data/Cleaned_Q3_Final_Post2.csv".

Definition score_post1 : script unit :=
  engagement_stage post1_final_file "Cleaned_Q2_Post1_WithEngagementScore.csv".

Definition score_post2 : script unit :=
  engagement_stage post2_final_file "Cleaned_Q3_Post2_WithEngagementScore.csv".

(** Steps 14 to 17 in the order the script runs them. *)
Definition steps_14_to_17 : script unit :=
  finalize_post1 >>= fun _ =>
  finalize_post2 >>= fun _ =>
  score_post1 >>= fun _ =>
  score_post2.

Definition scored_columns : list string :=
  (final_columns ++ [score_column])%list.

(** The three items of the score. *)
Definition score_items : list string :=
  ["Like Possibility"; "Comment Possibility"; "Share Possibility"].

(** The answers 0 .. 10, and a test over all quadruples of a list. *)
Definition answer_codes : list Z := map Z.of_nat (seq 0 11).

Definition forallb4 {A} (f : A -> A -> A -> A -> bool) (xs : list A) : bool :=
  forallb (fun a => forallb3 (f a) xs) xs.

(** Raising one item raises the score, whichever item it is. *)
Definition score_increases (x x' y z : Z) : bool :=
  implb (Z.ltb x x')
    (PrimFloat.ltb
       (engagement_score (float_of_Z x) (float_of_Z y) (float_of_Z z))
       (engagement_score (float_of_Z x') (float_of_Z y) (float_of_Z z))
     && PrimFloat.ltb
          (engagement_score (float_of_Z y) (float_of_Z x) (float_of_Z z))
          (engagement_score (float_of_Z y) (float_of_Z x') (float_of_Z z))
     && PrimFloat.ltb
          (engagement_score (float_of_Z y) (float_of_Z z) (float_of_Z x))
          (engagement_score (float_of_Z y) (float_of_Z z) (float_of_Z x'))).


Definition q3_checks : predicate :=
  PAnd (PEq "P306" 1) (PIsin "P302" [3; 4; 5]).

(** ** visualization.py, step 3: labels and the attention-check cascade *)

Module Visualization.

Definition gender_map : list (Z * string) :=
  [(1, "Male"); (2, "Female"); (-9, "Not answered")].

Definition city_map : list (Z * string) :=
  [(1, "Berlin"); (2, "Köln"); (3, "Bochum"); (4, "Dresden");
   (5, "Hamburg"); (-9, "Not answered")].

Definition topic_map : list (Z * string) :=
  [(1, "Climate protests"); (2, "Sports events"); (3, "Technology trends");
   (4, "Celebrity news"); (-9, "Not answered")].

(** [Series.map(dict)]: the label of the key the value equals, missing
    when it equals none. *)
Definition map_label (m : list (Z * string)) (c : cell) : cell :=
  match List.find (fun kv => cell_eq_int c (fst kv)) m with
  | Some kv => StrV (snd kv)
  | None => NA
  end.

(** [value == s] and [value in ss] for string literals. *)
Definition cell_eq_str (c : cell) (s : string) : bool :=
  match c with StrV t => String.eqb t s | _ => false end.

Definition cell_isin_str (c : cell) (ss : list string) : bool :=
  existsb (cell_eq_str c) ss.

Record cascade : Type := Cascade {
  total : nat;
  n_pass_city : nat;
  n_pass_topic : nat;
  n_pass_both : nat
}.

(** The three label columns. *)
Definition add_labels (df : frame) : result frame :=
  rbind (getitem df "SD01") (fun sd01 =>
  let df := setitem df "Gender" (map (map_label gender_map) sd01) in
  rbind (getitem df "P206") (fun p206 =>
  let df := setitem df "City_Check" (map (map_label city_map) p206) in
  rbind (getitem df "P306") (fun p306 =>
  Ok (setitem df "Topic_Check" (map (map_label topic_map) p306))))).

(** The rows with an answered gender, and the counts of the cascade. *)
Definition count_cascade (df : frame) : result (frame * cascade) :=
  rbind (getitem df "Gender") (fun gender =>
  let df := boolean_index df
              (map (fun v => cell_isin_str v ["Male"; "Female"]) gender) in
  rbind (getitem df "City_Check") (fun city =>
  let pass_city := map (fun v => cell_eq_str v "Bochum") city in
  rbind (getitem df "Topic_Check") (fun topic =>
  let pass_topic := map (fun v => cell_eq_str v "Climate protests") topic in
  let pass_both := zip_with andb pass_city pass_topic in
  Ok (df, Cascade (length (rows df)) (count_true pass_city)
                  (count_true pass_topic) (count_true pass_both))))).

Definition label_and_count (df : frame) : result (frame * cascade) :=
  rbind (add_labels df) count_cascade.

(** The heights of the blocks of the flow diagram of step 6. *)
Definition city_fail (c : cascade) : Z :=
  Z.of_nat (total c) - Z.of_nat (n_pass_city c).

Definition topic_fail (c : cascade) : Z :=
  Z.of_nat (n_pass_city c) - Z.of_nat (n_pass_both c).

End Visualization.

(** A respondent of the sample the charts are drawn from. *)
Definition respondent (gender city topic : cell) : gmap string cell :=
  mkrow [("SD01", gender); ("P206", city); ("P306", topic)].

Definition example_complete : frame :=
  Frame ["SD01"; "P206"; "P306"]
    [ respondent (IntV 1) (IntV 3) (IntV 1);
      respondent (IntV 2) (IntV 3) (IntV 2);
      respondent (IntV (-9)) (IntV 3) (IntV 1);
      respondent (IntV 2) (IntV 1) (IntV 1) ].

(** The merged table of two coded rows, one without a post code. *)
Definition example_merged : frame :=
  Frame ["RowID"; "Caption_Length"; "Hashtags"]
    [ mkrow [("RowID", StrV "Row_0"); ("Caption_Length", IntV 140);
             ("Hashtags", IntV 5)];
      mkrow [("RowID", StrV "Row_1"); ("Caption_Length", NA);
             ("Hashtags", NA)] ].

Definition example_merged_int : frame :=
  Frame ["RowID"; "Caption_Length"; "Hashtags"]
    [ mkrow [("RowID", StrV "Row_0"); ("Caption_Length", IntV 140);
             ("Hashtags", IntV 5)];
      mkrow [("RowID", StrV "Row_1"); ("Caption_Length", IntV 70);
             ("Hashtags", IntV 15)] ].

Definition example_world_merged : world :=
  World (<[merged_file := example_merged]> ∅) [].

Definition example_merged_no_caption : frame :=
  Frame ["RowID"; "Hashtags"]
    [ mkrow [("RowID", StrV "Row_0"); ("Hashtags", IntV 5)] ].

Definition example_world_no_caption : world :=
  World (<[merged_file := example_merged_no_caption]> ∅) [].

Definition example_merged_text : frame :=
  Frame ["RowID"; "Caption_Length"; "Hashtags"]
    [ mkrow [("RowID", StrV "Row_0"); ("Caption_Length", IntV 140);
             ("Hashtags", StrV "many")] ].

Definition example_world_text : world :=
  World (<[merged_file := example_merged_text]> ∅) [].

(** A mapped Q2 table with the columns step 14 selects, and one step 15
    cannot use. *)
Definition example_q2_mapped : frame :=
  Frame ["CASE"; "SD01"; "SD02_01"; "SD10"; "P201"; "P202"; "P203"; "P204";
         "P205"; "P206"; "Caption_Length"; "Hashtags"]
    [ mkrow [("CASE", IntV 17); ("SD01", IntV 2); ("SD02_01", IntV 24);
             ("SD10", IntV 1); ("P201", IntV 3); ("P202", IntV 4);
             ("P203", IntV 4); ("P204", IntV 3); ("P205", IntV 5);
             ("P206", IntV 3); ("Caption_Length", IntV 140);
             ("Hashtags", IntV 5)];
      mkrow [("CASE", IntV 21); ("SD01", IntV 1); ("SD02_01", IntV 31);
             ("SD10", IntV 2); ("P201", IntV 13); ("P202", IntV 3);
             ("P203", IntV 2); ("P204", NA); ("P205", IntV 1);
             ("P206", IntV 3); ("Caption_Length", NA); ("Hashtags", NA)] ].

Definition example_world_q2_mapped : world :=
  World (<[post1_input_file := example_q2_mapped]>
           (<[post2_input_file := example_q2_mapped]> ∅)) [].

Definition example_q3_mapped : frame :=
  Frame ["SD01"; "SD02_01"; "SD10"; "P301"; "P302"; "P303"; "P304";
         "P305"; "P306"; "Caption_Length"; "Hashtags"]
    [ mkrow [("SD01", IntV 1); ("SD02_01", IntV 29); ("SD10", IntV 3);
             ("P301", IntV 8); ("P302", IntV 5); ("P303", IntV 5);
             ("P304", IntV 2); ("P305", IntV 4); ("P306", IntV 1);
             ("Caption_Length", IntV 200); ("Hashtags", IntV 11)] ].

Definition example_world_q3_mapped : world :=
  World (<[post2_input_file := example_q3_mapped]> ∅) [].

Definition example_world_both_mapped : world :=
  World (<[post1_input_file := example_q2_mapped]>
           (<[post2_input_file := example_q3_mapped]> ∅)) [].

Definition example_world_scored : world :=
  snd (steps_14_to_17 example_world_both_mapped).

(** A scored-stage input with a text answer. *)
Definition example_final_text : frame :=
  Frame ["RowID"; "Like Possibility"; "Comment Possibility";
         "Share Possibility"]
    [ mkrow [("RowID", StrV "Post1_0"); ("Like Possibility", IntV 4);
             ("Comment Possibility", StrV "often");
             ("Share Possibility", IntV 5)] ].

Definition example_world_final_text : world :=
  World (<[post1_final_file := example_final_text]> ∅) [].

(** A raw table in which nobody reached the last page, and one without
    the completion flag. *)
Definition example_raw_unfinished : frame :=
  Frame ["FINISHED"; "P201"; "P301"]
    [ mkrow [("FINISHED", IntV 0); ("P201", IntV 3); ("P301", IntV 7)];
      mkrow [("FINISHED", NA); ("P201", IntV 5); ("P301", IntV 5)] ].

Definition example_raw_no_flag : frame :=
  Frame ["P201"; "P301"]
    [ mkrow [("P201", IntV 3); ("P301", IntV 7)] ].

(** A merged table as the pipeline leaves it: every categorical column
    holds numeric codes. *)
Definition example_regression_input : frame :=
  Frame ["RowID"; "Gender"; "Occupation"; "Post"; "Image Drawn"]
    [ mkrow [("RowID", StrV "Row_0"); ("Gender", IntV 2);
             ("Occupation", IntV 1); ("Post", IntV 1);
             ("Image Drawn", IntV 3)];
      mkrow [("RowID", StrV "Row_1"); ("Gender", IntV 1);
             ("Occupation", NA); ("Post", IntV 2);
             ("Image Drawn", IntV 8)] ].

(** A string column in which one category was observed. *)
Definition example_single : list cell := [StrV "yes"; NA; StrV "yes"].

(** The row of the labelled table made from a row of the loaded one, and
    the three tests of the cascade on the codes of the loaded row. *)
Definition labelled_row (r : gmap string cell) : gmap string cell :=
  <["Topic_Check" :=
      Visualization.map_label Visualization.topic_map (get_cell r "P306")]>
  (<["City_Check" :=
      Visualization.map_label Visualization.city_map (get_cell r "P206")]>
  (<["Gender" :=
      Visualization.map_label Visualization.gender_map (get_cell r "SD01")]>
   r)).

Definition labelled_columns (cols : list string) : list string :=
  add_column (add_column (add_column cols "Gender") "City_Check")
    "Topic_Check".

Definition answered (r : gmap string cell) : bool :=
  cell_isin (get_cell r "SD01") [1; 2].

Definition passes_city (r : gmap string cell) : bool :=
  cell_eq_int (get_cell r "P206") 3.

Definition passes_topic (r : gmap string cell) : bool :=
  cell_eq_int (get_cell r "P306") 1.

Definition count_rows (p : gmap string cell -> bool)
    (rs : list (gmap string cell)) : nat :=
  length (List.filter p rs).

Definition example_no_city : frame :=
  Frame ["SD01"; "P306"] [ mkrow [("SD01", IntV 1); ("P306", IntV 1)] ].



(** The columns of the cleaned Q2 file that step 14 selects. *)
Definition cleaned_q2_columns : list string :=
  ["SD01"; "SD02_01"; "SD10"; "P201"; "P202"; "P203"; "P204"; "P205"; "P206"].

Definition cleaned_q2_file : string := "data/Cleaned_Q2.csv".
Definition cleaned_q3_file : string := "data/Cleaned_Q3.csv".

(** A cleaned Q2 file of two respondents, one with a post code outside
    the coding scheme. *)
Definition example_cleaned_q2 : frame :=
  Frame ["CASE"; "SD01"; "SD02_01"; "SD10"; "P201"; "P202"; "P203"; "P204";
         "P205"; "P206"]
    [ mkrow [("CASE", IntV 11); ("SD01", IntV 2); ("SD02_01", IntV 24);
             ("SD10", IntV 1); ("P201", IntV 3); ("P202", IntV 4);
             ("P203", IntV 5); ("P204", IntV 2); ("P205", IntV 1);
             ("P206", IntV 3)];
      mkrow [("CASE", IntV 12); ("SD01", IntV 1); ("SD02_01", IntV 31);
             ("SD10", IntV 2); ("P201", IntV (-9)); ("P202", IntV 3);
             ("P203", IntV 1); ("P204", IntV 1); ("P205", IntV 1);
             ("P206", IntV 3)] ].

Definition example_world_cleaned : world :=
  World (<[cleaned_q2_file := example_cleaned_q2]> ∅) [].

(** * Properties *)

(** Closed decidable facts, by evaluation. *)
Ltac by_compute :=
  match goal with
  | |- ?P => apply (bool_decide_eq_true_1 P); vm_compute; reflexivity
  end.

(** Membership in an explicit list, one case per element. *)
Ltac elem_cases H :=
  repeat (apply elem_of_cons in H as [->|H]); [..|inversion H].

(** ** Results and masks *)

Lemma select_mask_map {A} (f : A -> bool) (xs : list A) :
  select_mask xs (map f xs) = List.filter f xs.
Proof.
  induction xs as [|x xs IH]; simpl; [reflexivity|].
  rewrite IH. reflexivity.
Qed.

Lemma getitem_present (df : frame) (c : string) :
  c ∈ columns df ->
  getitem df c = Ok (map (fun r => get_cell r c) (rows df)).
Proof.
  intros Hc. unfold getitem, has_column.
  rewrite bool_decide_eq_true_2 by exact Hc. reflexivity.
Qed.

Lemma getitem_absent (df : frame) (c : string) :
  c ∉ columns df -> getitem df c = Raise (KeyError c).
Proof.
  intros Hc. unfold getitem, has_column.
  rewrite bool_decide_eq_false_2 by exact Hc. reflexivity.
Qed.

Lemma find_missing_none (df : frame) (cs : list string) :
  (forall c, c ∈ cs -> c ∈ columns df) ->
  List.find (fun c => negb (has_column df c)) cs = None.
Proof.
  intros Hall. induction cs as [|c cs IH]; simpl; [reflexivity|].
  unfold has_column at 1.
  rewrite bool_decide_eq_true_2 by (apply Hall; left). simpl.
  apply IH. intros c' Hc'. apply Hall. right. exact Hc'.
Qed.

Lemma find_missing_some (df : frame) (cs : list string) (c : string) :
  c ∈ cs -> c ∉ columns df ->
  exists c', List.find (fun c => negb (has_column df c)) cs = Some c'
             /\ c' ∈ cs /\ c' ∉ columns df.
Proof.
  intros Hin Hout. induction cs as [|c0 cs IH]; [inversion Hin|].
  simpl. unfold has_column at 1.
  destruct (decide (c0 ∈ columns df)) as [Hc0|Hc0].
  - rewrite bool_decide_eq_true_2 by exact Hc0. simpl.
    apply elem_of_cons in Hin as [->|Hin]; [contradiction|].
    destruct (IH Hin) as (c' & Hf & Hc' & Hn).
    exists c'. split; [exact Hf|]. split; [right; exact Hc'|exact Hn].
  - rewrite bool_decide_eq_false_2 by exact Hc0. simpl.
    exists c0. split; [reflexivity|]. split; [left|exact Hc0].
Qed.

(** ** Inclusion filters *)

Lemma filter_eq_filter (df : frame) (c : string) (k : Z) :
  c ∈ columns df ->
  filter_eq df c k
  = Ok (Frame (columns df) (List.filter (holds (PEq c k)) (rows df))).
Proof.
  intros Hc. unfold filter_eq. rewrite getitem_present by exact Hc.
  simpl. unfold boolean_index. rewrite map_map, select_mask_map.
  reflexivity.
Qed.

Lemma filter_isin_filter (df : frame) (c : string) (ks : list Z) :
  c ∈ columns df ->
  filter_isin df c ks
  = Ok (Frame (columns df) (List.filter (holds (PIsin c ks)) (rows df))).
Proof.
  intros Hc. unfold filter_isin. rewrite getitem_present by exact Hc.
  simpl. unfold boolean_index. rewrite map_map, select_mask_map.
  reflexivity.
Qed.

Lemma filter_filter_andb {A} (f g : A -> bool) (xs : list A) :
  List.filter g (List.filter f xs) = List.filter (fun x => f x && g x) xs.
Proof.
  induction xs as [|x xs IH]; simpl; [reflexivity|].
  destruct (f x); simpl; [destruct (g x)|]; rewrite IH; reflexivity.
Qed.

Lemma apply_filter_filter (p : predicate) (df : frame) :
  (forall c, c ∈ fields p -> c ∈ columns df) ->
  apply_filter p df
  = Ok (Frame (columns df) (List.filter (holds p) (rows df))).
Proof.
  revert df. induction p as [c k|c ks|p IHp q IHq]; intros df Hf; simpl.
  - apply filter_eq_filter, Hf. simpl. left.
  - apply filter_isin_filter, Hf. simpl. left.
  - rewrite IHp by (intros c Hc; apply Hf; simpl; apply elem_of_app; auto).
    simpl. rewrite IHq by (intros c Hc; apply Hf; simpl; apply elem_of_app; auto).
    simpl. rewrite filter_filter_andb. reflexivity.
Qed.

Lemma filter_sublist {A} (f : A -> bool) (xs : list A) :
  sublist (List.filter f xs) xs.
Proof.
  induction xs as [|x xs IH]; simpl; [constructor|].
  destruct (f x); [apply sublist_skip|apply sublist_cons]; exact IH.
Qed.

(** Steps 8 and 9 are conjunctions of an equality and a membership
    predicate. *)
Lemma clean_q2_predicate (df : frame) :
  clean_q2 df = apply_filter (PAnd (PEq "P206" 3) (PIsin "P202" [3; 4; 5])) df.
Proof. reflexivity. Qed.

Lemma clean_q3_predicate (df : frame) :
  clean_q3 df = apply_filter (PAnd (PEq "P306" 1) (PIsin "P302" [3; 4; 5])) df.
Proof. reflexivity. Qed.

Lemma filter_instagram_predicate (df : frame) :
  filter_instagram df = apply_filter (PEq "P101" 1) df.
Proof. reflexivity. Qed.

(** C6.  For every record set [R] and every predicate [p] built from
    equality tests, set-membership tests and conjunction over fields of
    [R], the inclusion filter returns a record set [R'] that is exactly
    the rows of [R] satisfying [p], in their original order: it has at
    most as many rows as [R], every row of it satisfies [p], every row of
    [R] satisfying [p] is in it, it is a subsequence of [R], and its
    columns are those of [R]. *)
Theorem inclusion_filter_sound (p : predicate) (R : frame) :
  (forall c, c ∈ fields p -> c ∈ columns R) ->
  exists R',
    apply_filter p R = Ok R'
    /\ rows R' = List.filter (holds p) (rows R)
    /\ (length (rows R') <= length (rows R))%nat
    /\ Forall (fun r => holds p r = true) (rows R')
    /\ (forall r, r ∈ rows R -> holds p r = true -> r ∈ rows R')
    /\ sublist (rows R') (rows R)
    /\ columns R' = columns R.
Proof.
  intros Hf. eexists. split; [apply apply_filter_filter, Hf|]. simpl.
  split; [reflexivity|]. split; [apply List.filter_length_le|].
  split.
  - apply Forall_forall. intros r Hr.
    apply list_elem_of_In, List.filter_In in Hr. tauto.
  - split.
    + intros r Hr Hp. apply list_elem_of_In, List.filter_In.
      split; [apply list_elem_of_In; exact Hr|exact Hp].
    + split; [apply filter_sublist|reflexivity].
Qed.

Lemma inclusion_filter_sound_witness :
  exists R',
    apply_filter (PAnd (PEq "P206" 3) (PIsin "P202" [3; 4; 5])) example_q2
    = Ok R'
    /\ rows R'
       = List.filter (holds (PAnd (PEq "P206" 3) (PIsin "P202" [3; 4; 5])))
                     (rows example_q2)
    /\ (length (rows R') <= length (rows example_q2))%nat
    /\ Forall (fun r => holds (PAnd (PEq "P206" 3) (PIsin "P202" [3; 4; 5])) r
                        = true) (rows R')
    /\ (forall r, r ∈ rows example_q2 ->
          holds (PAnd (PEq "P206" 3) (PIsin "P202" [3; 4; 5])) r = true ->
          r ∈ rows R')
    /\ sublist (rows R') (rows example_q2)
    /\ columns R' = columns example_q2.
Proof.
  apply (inclusion_filter_sound
           (PAnd (PEq "P206" 3) (PIsin "P202" [3; 4; 5])) example_q2).
  intros c Hc. simpl in Hc. elem_cases Hc; by_compute.
Defined.

(** ** Column removal and selection *)

Lemma lookup_foldr_delete (r : gmap string cell) (cs : list string)
    (x : string) :
  foldr delete r cs !! x = if decide (x ∈ cs) then None else r !! x.
Proof.
  induction cs as [|c cs IH]; simpl.
  - destruct (decide (x ∈ [])) as [H|_]; [inversion H|reflexivity].
  - destruct (decide (c = x)) as [->|Hne].
    + rewrite lookup_delete_eq.
      destruct (decide (x ∈ x :: cs)) as [_|H]; [reflexivity|].
      exfalso. apply H. left.
    + rewrite lookup_delete_ne by exact Hne. rewrite IH.
      destruct (decide (x ∈ cs)) as [H|H];
        destruct (decide (x ∈ c :: cs)) as [H'|H']; try reflexivity.
      * exfalso. apply H'. right. exact H.
      * exfalso. apply elem_of_cons in H' as [->|H']; [apply Hne|apply H];
          auto.
Qed.

Lemma drop_ignore_ok (df : frame) (cs : list string) :
  drop df cs ErrorsIgnore = Ok (drop_columns df cs).
Proof. reflexivity. Qed.

Lemma select_columns_missing (df : frame) (cs : list string) (c : string) :
  c ∈ cs -> c ∉ columns df ->
  exists c', select_columns df cs = Raise (KeyError c')
             /\ c' ∈ cs /\ c' ∉ columns df.
Proof.
  intros Hin Hout.
  destruct (find_missing_some df cs c Hin Hout) as (c' & Hf & Hc' & Hn).
  exists c'. unfold select_columns. rewrite Hf. auto.
Qed.

(** C8, as the code has it.  Removing a drop-list with
    [errors='ignore'] always returns a record set, whether or not the
    listed columns exist: its columns are those of the input that are
    not listed, in the input's order, and every row keeps its other
    cells.  Selecting a list that names a column the record set does not
    have returns nothing and raises pandas's [KeyError]. *)
Theorem drop_tolerates_select_raises (df : frame)
    (drop_list selection : list string) (c : string) :
  c ∈ selection -> c ∉ columns df ->
  (exists df',
      drop df drop_list ErrorsIgnore = Ok df'
      /\ (forall x, x ∈ columns df' <-> x ∈ columns df /\ x ∉ drop_list)
      /\ sublist (columns df') (columns df)
      /\ length (rows df') = length (rows df)
      /\ (forall i r, rows df !! i = Some r ->
            exists r', rows df' !! i = Some r'
              /\ forall x, r' !! x
                           = if decide (x ∈ drop_list) then None else r !! x))
  /\ (exists e, select_columns df selection = Raise e
                /\ exn_class e = "KeyError").
Proof.
  intros Hin Hout. split.
  - exists (drop_columns df drop_list). split; [apply drop_ignore_ok|].
    simpl. split.
    + intros x. rewrite list_elem_of_In, List.filter_In, negb_true_iff,
        bool_decide_eq_false, <- list_elem_of_In. reflexivity.
    + split; [apply filter_sublist|].
      split; [apply length_map|].
      intros i r Hr. exists (foldr delete r drop_list).
      split; [|intros x; apply lookup_foldr_delete].
      rewrite list_lookup_fmap, Hr. reflexivity.
  - destruct (select_columns_missing df selection c Hin Hout)
      as (c' & Hs & _ & _).
    exists (KeyError c'). split; [exact Hs|reflexivity].
Qed.

Lemma drop_tolerates_select_raises_witness :
  (exists df',
      drop example_q2 columns_to_remove_q2 ErrorsIgnore = Ok df'
      /\ (forall x, x ∈ columns df'
                    <-> x ∈ columns example_q2 /\ x ∉ columns_to_remove_q2)
      /\ sublist (columns df') (columns example_q2)
      /\ length (rows df') = length (rows example_q2)
      /\ (forall i r, rows example_q2 !! i = Some r ->
            exists r', rows df' !! i = Some r'
              /\ forall x, r' !! x
                           = if decide (x ∈ columns_to_remove_q2) then None
                             else r !! x))
  /\ (exists e, select_columns example_q2 post1_selection = Raise e
                /\ exn_class e = "KeyError").
Proof.
  apply (drop_tolerates_select_raises example_q2 columns_to_remove_q2
           post1_selection "SD10").
  - by_compute.
  - by_compute.
Defined.

(** The stated form of C8 fails: the exception raised for a missing
    column is not of a class named SchemaError. *)
Lemma select_missing_not_SchemaError :
  ~ exists e, select_columns example_q2 post1_selection = Raise e
              /\ exn_class e = "SchemaError".
Proof.
  intros (e & He & Hc). vm_compute in He.
  injection He as <-. discriminate Hc.
Qed.

(** ** Column assignment *)

Lemma length_assign_rows (rs : list (gmap string cell)) (c : string)
    (vals : list cell) :
  length (assign_rows rs c vals) = length rs.
Proof.
  revert vals. induction rs as [|r rs IH]; intros [|v vals]; simpl;
    try reflexivity.
  rewrite IH. reflexivity.
Qed.

Lemma assign_rows_lookup (rs : list (gmap string cell)) (c : string)
    (vals : list cell) (i : nat) (r : gmap string cell) (v : cell) :
  rs !! i = Some r -> vals !! i = Some v ->
  assign_rows rs c vals !! i = Some (<[c := v]> r).
Proof.
  revert vals i. induction rs as [|r0 rs IH]; intros [|v0 vals] [|i] Hr Hv;
    simpl in *; try discriminate.
  - injection Hr as ->. injection Hv as ->. reflexivity.
  - apply IH; assumption.
Qed.

Lemma assign_rows_same (rs : list (gmap string cell)) (c : string) :
  Forall (fun r => is_Some (r !! c)) rs ->
  assign_rows rs c (map (fun r => get_cell r c) rs) = rs.
Proof.
  induction 1 as [|r rs [v Hv] _ IH]; simpl; [reflexivity|].
  rewrite IH. f_equal. apply insert_id. unfold get_cell. rewrite Hv.
  reflexivity.
Qed.

Lemma row_ids_lookup (prefix : string) (n i : nat) :
  (i < n)%nat -> row_ids prefix n !! i = Some (StrV (prefix ++ pretty i)).
Proof.
  intros Hi. unfold row_ids.
  change (map ?f ?l) with (f <$> l).
  rewrite list_lookup_fmap, lookup_seq_lt by exact Hi. reflexivity.
Qed.

Lemma length_row_ids (prefix : string) (n : nat) :
  length (row_ids prefix n) = n.
Proof. unfold row_ids. rewrite length_map, length_seq. reflexivity. Qed.

Lemma restrict_row_lookup (cs : list string) (r : gmap string cell)
    (c : string) :
  restrict_row cs r !! c
  = if decide (c ∈ cs) then Some (get_cell r c) else None.
Proof.
  unfold restrict_row. induction cs as [|c0 cs IH]; simpl.
  - rewrite lookup_empty.
    destruct (decide (c ∈ [])) as [H|_]; [inversion H|reflexivity].
  - destruct (decide (c0 = c)) as [->|Hne].
    + rewrite lookup_insert_eq.
      destruct (decide (c ∈ c :: cs)) as [_|H]; [reflexivity|].
      exfalso. apply H. left.
    + rewrite lookup_insert_ne by exact Hne. rewrite IH.
      destruct (decide (c ∈ cs)) as [H|H];
        destruct (decide (c ∈ c0 :: cs)) as [H'|H']; try reflexivity.
      * exfalso. apply H'. right. exact H.
      * exfalso. apply elem_of_cons in H' as [->|H']; [apply Hne|apply H];
          auto.
Qed.

Lemma get_cell_restrict_row (cs : list string) (r : gmap string cell)
    (c : string) :
  c ∈ cs -> get_cell (restrict_row cs r) c = get_cell r c.
Proof.
  intros Hc. unfold get_cell at 1. rewrite restrict_row_lookup.
  destruct (decide (c ∈ cs)); [reflexivity|contradiction].
Qed.

Lemma elem_of_add_column (cols : list string) (c x : string) :
  x ∈ add_column cols c <-> x ∈ cols \/ x = c.
Proof.
  unfold add_column. destruct (decide (c ∈ cols)) as [Hc|Hc].
  - rewrite bool_decide_eq_true_2 by exact Hc. split; [auto|].
    intros [H| ->]; assumption.
  - rewrite bool_decide_eq_false_2 by exact Hc.
    rewrite elem_of_app, list_elem_of_singleton. reflexivity.
Qed.


Lemma add_column_present (cols : list string) (c : string) :
  c ∈ cols -> add_column cols c = cols.
Proof.
  intros Hc. unfold add_column.
  rewrite bool_decide_eq_true_2 by exact Hc. reflexivity.
Qed.

(** ** Union of the two posts *)

Lemma filter_not_self (l : list string) :
  List.filter (fun c => negb (bool_decide (c ∈ l))) l = [].
Proof.
  assert (H : forall l', (forall c, c ∈ l' -> c ∈ l) ->
            List.filter (fun c => negb (bool_decide (c ∈ l))) l' = []).
  { induction l' as [|c l' IH]; intros Hsub; simpl; [reflexivity|].
    rewrite bool_decide_eq_true_2 by (apply Hsub; left). simpl.
    apply IH. intros c' Hc'. apply Hsub. right. exact Hc'. }
  apply H. auto.
Qed.

Lemma concat_same_columns (df1 df2 : frame) :
  columns df1 = columns df2 ->
  concat df1 df2 = Frame (columns df1) (rows df1 ++ rows df2).
Proof.
  intros Heq. unfold concat. rewrite <- Heq, filter_not_self, app_nil_r.
  reflexivity.
Qed.

Lemma filter_rowid_add_column (cols : list string) :
  List.filter (fun col => negb (String.eqb col "RowID"))
              (add_column cols "RowID")
  = List.filter (fun col => negb (String.eqb col "RowID")) cols.
Proof.
  unfold add_column. destruct (bool_decide ("RowID" ∈ cols)); [reflexivity|].
  rewrite List.filter_app. simpl. apply app_nil_r.
Qed.

Lemma merge_frames_ok (df1 df2 : frame) :
  columns df1 = columns df2 ->
  merge_frames df1 df2 = Ok (Frame (merged_columns df1) (merged_rows df1 df2)).
Proof.
  intros Heq. unfold merge_frames. rewrite concat_same_columns by exact Heq.
  unfold select_columns, setitem. cbn [columns rows].
  rewrite filter_rowid_add_column.
  fold (merged_columns df1).
  rewrite find_missing_none; [reflexivity|].
  cbn [columns]. intros c Hc. apply elem_of_add_column.
  unfold merged_columns in Hc.
  apply elem_of_cons in Hc as [->|Hc]; [right; reflexivity|left].
  apply list_elem_of_In, List.filter_In in Hc as [Hc _].
  apply list_elem_of_In. exact Hc.
Qed.

Lemma merged_rows_lookup (df1 df2 : frame) (i : nat) (r : gmap string cell) :
  (rows df1 ++ rows df2)%list !! i = Some r ->
  exists r', merged_rows df1 df2 !! i = Some r'
    /\ get_cell r' "RowID" = StrV ("Row_" ++ pretty i)
    /\ forall c, c ∈ columns df1 -> c <> "RowID" ->
                 get_cell r' c = get_cell r c.
Proof.
  intros Hr. unfold merged_rows.
  pose proof (lookup_lt_Some _ _ _ Hr) as Hi.
  eexists. split.
  - change (map ?f ?l) with (f <$> l). rewrite list_lookup_fmap.
    erewrite assign_rows_lookup;
      [reflexivity|exact Hr|apply row_ids_lookup; exact Hi].
  - split.
    + rewrite get_cell_restrict_row by (left).
      unfold get_cell. rewrite lookup_insert_eq. reflexivity.
    + intros c Hc Hne. rewrite get_cell_restrict_row.
      * unfold get_cell. rewrite lookup_insert_ne by congruence.
        reflexivity.
      * right. apply list_elem_of_In, List.filter_In.
        split; [apply list_elem_of_In; exact Hc|].
        apply negb_true_iff, String.eqb_neq. exact Hne.
Qed.

Lemma length_merged_rows (df1 df2 : frame) :
  length (merged_rows df1 df2)
  = (length (rows df1) + length (rows df2))%nat.
Proof.
  unfold merged_rows.
  rewrite length_map, length_assign_rows, length_app. reflexivity.
Qed.

Lemma merge_stage_mismatch (w : world) (df1 df2 : frame) :
  files w !! file1 = Some df1 -> files w !! file2 = Some df2 ->
  columns df1 <> columns df2 ->
  exists w', merge_stage w
             = (Raise (ValueError "Column mismatch! Fix before merging."), w')
             /\ files w' = files w.
Proof.
  intros H1 H2 Hcols. eexists.
  unfold merge_stage, bind, read_csv, print, raise.
  rewrite H1. cbn [files stdout]. rewrite H2. cbn [files stdout].
  rewrite bool_decide_eq_false_2 by exact Hcols.
  split; reflexivity.
Qed.

(** C3, as the code has it.  When the two per-post files have different
    column lists (names or order), the merge stage raises [ValueError]
    and leaves every file as it was: no merged file is written.  When the
    lists are identical it writes one file holding the rows of the first
    input followed by the rows of the second, each input in its own
    order, with RowID regenerated as Row_0, Row_1, ... over the whole
    result and moved to the front, all other cells unchanged. *)
Theorem merge_stage_union (w : world) (df1 df2 : frame) :
  files w !! file1 = Some df1 -> files w !! file2 = Some df2 ->
  (columns df1 <> columns df2 ->
     exists e w', merge_stage w = (Raise e, w')
       /\ exn_class e = "ValueError"
       /\ files w' = files w)
  /\ (columns df1 = columns df2 ->
     exists out w', merge_stage w = (Ok tt, w')
       /\ files w' = <[merged_file := out]> (files w)
       /\ columns out = merged_columns df1
       /\ length (rows out) = (length (rows df1) + length (rows df2))%nat
       /\ forall i r, (rows df1 ++ rows df2)%list !! i = Some r ->
            exists r', rows out !! i = Some r'
              /\ get_cell r' "RowID" = StrV ("Row_" ++ pretty i)
              /\ forall c, c ∈ columns df1 -> c <> "RowID" ->
                           get_cell r' c = get_cell r c).
Proof.
  intros H1 H2. split; intros Hcols.
  - destruct (merge_stage_mismatch w df1 df2 H1 H2 Hcols) as (w' & Hrun & Hw).
    eexists _, w'. split; [exact Hrun|]. split; [reflexivity|exact Hw].
  - exists (Frame (merged_columns df1) (merged_rows df1 df2)). eexists.
    unfold merge_stage, bind, read_csv, print, raise, lift, to_csv.
    rewrite H1. cbn [files stdout]. rewrite H2. cbn [files stdout].
    rewrite bool_decide_eq_true_2 by exact Hcols.
    rewrite merge_frames_ok by exact Hcols. cbn [files stdout].
    split; [reflexivity|]. split; [reflexivity|].
    split; [reflexivity|]. split; [apply length_merged_rows|].
    apply merged_rows_lookup.
Qed.

Lemma merge_stage_union_witness :
  (columns example_post1 <> columns example_post2 ->
     exists e w', merge_stage example_world_match = (Raise e, w')
       /\ exn_class e = "ValueError"
       /\ files w' = files example_world_match)
  /\ (columns example_post1 = columns example_post2 ->
     exists out w', merge_stage example_world_match = (Ok tt, w')
       /\ files w' = <[merged_file := out]> (files example_world_match)
       /\ columns out = merged_columns example_post1
       /\ length (rows out)
          = (length (rows example_post1) + length (rows example_post2))%nat
       /\ forall i r,
            (rows example_post1 ++ rows example_post2)%list !! i = Some r ->
            exists r', rows out !! i = Some r'
              /\ get_cell r' "RowID" = StrV ("Row_" ++ pretty i)
              /\ forall c, c ∈ columns example_post1 -> c <> "RowID" ->
                           get_cell r' c = get_cell r c).
Proof.
  apply (merge_stage_union example_world_match example_post1 example_post2).
  - vm_compute. reflexivity.
  - vm_compute. reflexivity.
Defined.

(** The stated form of C3 fails: on a column mismatch the exception is
    not of a class named SchemaMismatchError. *)
Lemma merge_mismatch_not_SchemaMismatchError :
  ~ exists e w', merge_stage example_world_mismatch = (Raise e, w')
                 /\ exn_class e = "SchemaMismatchError".
Proof.
  intros (e & w' & He & Hc).
  destruct (merge_stage_mismatch example_world_mismatch example_post1
              example_post2_reordered) as (w0 & Hrun & _);
    [reflexivity|reflexivity|discriminate|].
  rewrite Hrun in He. injection He as <- _. discriminate Hc.
Qed.

(** ** The coding-scheme mapper *)

Lemma series_map_total {A B} (f : A -> result B) (g : A -> B) (xs : list A) :
  Forall (fun x => f x = Ok (g x)) xs -> series_map f xs = Ok (map g xs).
Proof.
  induction 1 as [|x xs Hx _ IH]; simpl; [reflexivity|].
  rewrite Hx. simpl. rewrite IH. reflexivity.
Qed.

Lemma isin_keys_get (x : cell) :
  cell_isin x coding_scheme_keys = true ->
  exists p, coding_scheme_get x = Ok p.
Proof.
  unfold cell_isin, coding_scheme_keys, coding_scheme_get.
  generalize coding_scheme_items. intros l.
  induction l as [|kv l IH]; simpl; [discriminate|].
  destruct (cell_eq_int x (fst kv)); simpl; [eauto|exact IH].
Qed.

Lemma caption_length_of_valid (x : cell) :
  cell_isin x coding_scheme_keys = true ->
  rbind (coding_scheme_get x) (fun p => Ok (IntV (fst p)))
  = Ok (caption_length_of x).
Proof.
  intros Hx. destruct (isin_keys_get x Hx) as [p Hp].
  unfold caption_length_of. rewrite Hp. reflexivity.
Qed.

Lemma hashtags_of_valid (x : cell) :
  cell_isin x coding_scheme_keys = true ->
  rbind (coding_scheme_get x) (fun p => Ok (IntV (snd p)))
  = Ok (hashtags_of x).
Proof.
  intros Hx. destruct (isin_keys_get x Hx) as [p Hp].
  unfold hashtags_of. rewrite Hp. reflexivity.
Qed.

Lemma select_mask_valid {A} (m : A -> bool) (xs : list A) :
  Forall (fun x => m x = true) (select_mask xs (map m xs)).
Proof.
  rewrite select_mask_map. apply Forall_forall. intros x Hx.
  apply list_elem_of_In, List.filter_In in Hx. tauto.
Qed.

(** [df.loc[mask, c] = values] when mask and values both come from one
    column [h] of the rows [rs0] that the present rows [k <$> rs0] were
    made from. *)
Lemma loc_assign_rows_map (rs0 : list (gmap string cell))
    (k : gmap string cell -> gmap string cell)
    (h : gmap string cell -> cell) (m : cell -> bool) (g : cell -> cell)
    (c : string) :
  loc_assign_rows (map k rs0) (map m (map h rs0)) c
    (map g (select_mask (map h rs0) (map m (map h rs0))))
  = map (fun r => if m (h r) then <[c := g (h r)]> (k r) else k r) rs0.
Proof.
  induction rs0 as [|r rs0 IH]; simpl; [reflexivity|].
  destruct (m (h r)); simpl; rewrite IH; reflexivity.
Qed.

Lemma as_Int64_nullable_int (s : list cell) :
  Forall (fun c => c = NA \/ exists z, c = IntV z) s ->
  series_map as_Int64 s = Ok s.
Proof.
  intros Hs. rewrite <- (map_id s) at 2. apply series_map_total.
  eapply Forall_impl; [exact Hs|].
  intros c [->|[z ->]]; reflexivity.
Qed.

Lemma caption_length_of_nullable_int (x : cell) :
  caption_length_of x = NA \/ exists z, caption_length_of x = IntV z.
Proof.
  unfold caption_length_of. destruct (coding_scheme_get x); eauto.
Qed.

Lemma hashtags_of_nullable_int (x : cell) :
  hashtags_of x = NA \/ exists z, hashtags_of x = IntV z.
Proof.
  unfold hashtags_of. destruct (coding_scheme_get x); eauto.
Qed.

Lemma post_info_row_caption (post_col : string) (r : gmap string cell) :
  post_info_row post_col r !! "Caption_Length"
  = Some (if cell_isin (get_cell (init_row r) post_col) coding_scheme_keys
          then caption_length_of (get_cell (init_row r) post_col) else NA).
Proof.
  unfold post_info_row.
  destruct (cell_isin _ _).
  - rewrite lookup_insert_ne by discriminate. apply lookup_insert_eq.
  - unfold init_row. rewrite lookup_insert_ne by discriminate.
    apply lookup_insert_eq.
Qed.

Lemma post_info_row_hashtags (post_col : string) (r : gmap string cell) :
  post_info_row post_col r !! "Hashtags"
  = Some (if cell_isin (get_cell (init_row r) post_col) coding_scheme_keys
          then hashtags_of (get_cell (init_row r) post_col) else NA).
Proof.
  unfold post_info_row.
  destruct (cell_isin _ _).
  - apply lookup_insert_eq.
  - unfold init_row. apply lookup_insert_eq.
Qed.

Lemma post_info_row_other (post_col : string) (r : gmap string cell)
    (c : string) :
  c <> "Caption_Length" -> c <> "Hashtags" ->
  post_info_row post_col r !! c = r !! c.
Proof.
  intros H1 H2. unfold post_info_row, init_row.
  destruct (cell_isin _ _); repeat rewrite lookup_insert_ne by congruence;
    reflexivity.
Qed.

Lemma get_cell_init_row (r : gmap string cell) (c : string) :
  c <> "Caption_Length" -> c <> "Hashtags" ->
  get_cell (init_row r) c = get_cell r c.
Proof.
  intros H1 H2. unfold get_cell, init_row.
  repeat rewrite lookup_insert_ne by congruence. reflexivity.
Qed.

Lemma count_true_map {A} (f : A -> bool) (xs : list A) :
  count_true (map f xs) = length (List.filter f xs).
Proof.
  unfold count_true. induction xs as [|x xs IH]; simpl; [reflexivity|].
  destruct (f x); simpl; rewrite IH; reflexivity.
Qed.

Lemma loc_assign_post_info (df : frame) (post_col : string) :
  let df0 := setitem_scalar (setitem_scalar df "Caption_Length" NA)
               "Hashtags" NA in
  let posts := map (fun r => get_cell r post_col) (map init_row (rows df)) in
  let mask := map (fun v => cell_isin v coding_scheme_keys) posts in
  loc_assign
    (loc_assign df0 mask "Caption_Length"
       (map caption_length_of (select_mask posts mask)))
    mask "Hashtags" (map hashtags_of (select_mask posts mask))
  = post_info_frame df post_col.
Proof.
  intros df0 posts mask. unfold loc_assign, post_info_frame.
  cbn [columns rows]. f_equal.
  assert (Hrows0 : rows df0 = map (fun r => r) (map init_row (rows df))).
  { unfold df0, setitem_scalar. cbn [rows]. rewrite map_id, map_map.
    reflexivity. }
  rewrite Hrows0. unfold mask, posts.
  rewrite (loc_assign_rows_map (map init_row (rows df)) (fun r => r)
             (fun r => get_cell r post_col)
             (fun v => cell_isin v coding_scheme_keys)
             caption_length_of "Caption_Length").
  rewrite (loc_assign_rows_map (map init_row (rows df)) _
             (fun r => get_cell r post_col)
             (fun v => cell_isin v coding_scheme_keys)
             hashtags_of "Hashtags").
  rewrite map_map. apply map_ext. intros r. unfold post_info_row.
  destruct (cell_isin _ _); reflexivity.
Qed.

Lemma caption_length_in_post_info (df : frame) :
  "Caption_Length"
  ∈ add_column (add_column (columns df) "Caption_Length") "Hashtags".
Proof. apply elem_of_add_column. left. apply elem_of_add_column. auto. Qed.

Lemma hashtags_in_post_info (df : frame) :
  "Hashtags"
  ∈ add_column (add_column (columns df) "Caption_Length") "Hashtags".
Proof. apply elem_of_add_column. auto. Qed.

Lemma astype_Int64_caption_length (df : frame) (post_col : string) :
  astype_Int64 (post_info_frame df post_col) "Caption_Length"
  = Ok (post_info_frame df post_col).
Proof.
  unfold astype_Int64.
  rewrite getitem_present by apply caption_length_in_post_info.
  cbn [rbind]. rewrite as_Int64_nullable_int.
  - cbn [rbind]. unfold setitem, post_info_frame at 1 2. cbn [columns rows].
    rewrite add_column_present by apply caption_length_in_post_info.
    rewrite assign_rows_same; [reflexivity|].
    apply Forall_forall. intros r Hr.
    apply list_elem_of_In, in_map_iff in Hr as (r0 & <- & _).
    rewrite post_info_row_caption. eauto.
  - apply Forall_forall. intros c Hc.
    apply list_elem_of_In, in_map_iff in Hc as (r & <- & Hr).
    cbn [rows post_info_frame] in Hr.
    apply in_map_iff in Hr as (r0 & <- & _).
    unfold get_cell. rewrite post_info_row_caption. cbn [default].
    destruct (cell_isin _ _); [apply caption_length_of_nullable_int|auto].
Qed.

Lemma astype_Int64_hashtags (df : frame) (post_col : string) :
  astype_Int64 (post_info_frame df post_col) "Hashtags"
  = Ok (post_info_frame df post_col).
Proof.
  unfold astype_Int64.
  rewrite getitem_present by apply hashtags_in_post_info.
  cbn [rbind]. rewrite as_Int64_nullable_int.
  - cbn [rbind]. unfold setitem, post_info_frame at 1 2. cbn [columns rows].
    rewrite add_column_present by apply hashtags_in_post_info.
    rewrite assign_rows_same; [reflexivity|].
    apply Forall_forall. intros r Hr.
    apply list_elem_of_In, in_map_iff in Hr as (r0 & <- & _).
    rewrite post_info_row_hashtags. eauto.
  - apply Forall_forall. intros c Hc.
    apply list_elem_of_In, in_map_iff in Hc as (r & <- & Hr).
    cbn [rows post_info_frame] in Hr.
    apply in_map_iff in Hr as (r0 & <- & _).
    unfold get_cell. rewrite post_info_row_hashtags. cbn [default].
    destruct (cell_isin _ _); [apply hashtags_of_nullable_int|auto].
Qed.

(** Step 11, run: the frame returned, the file written, the lines
    printed. *)
Lemma add_post_info_run (df : frame) (post_col output_file : string)
    (w : world) :
  post_col ∈ add_column (add_column (columns df) "Caption_Length") "Hashtags" ->
  add_post_info df post_col output_file w
  = (Ok (post_info_frame df post_col),
     World (<["data/" ++ output_file := post_info_frame df post_col]> (files w))
           (stdout w ++ post_info_log df post_col output_file)).
Proof.
  intros Hpost. unfold add_post_info.
  set (df0 := setitem_scalar (setitem_scalar df "Caption_Length" NA)
                "Hashtags" NA).
  assert (Hrows0 : rows df0 = map init_row (rows df)).
  { unfold df0, setitem_scalar. cbn [rows]. rewrite map_map. reflexivity. }
  assert (Hget : getitem df0 post_col
                 = Ok (map (fun r => get_cell r post_col)
                           (map init_row (rows df)))).
  { rewrite getitem_present by exact Hpost. rewrite Hrows0. reflexivity. }
  unfold bind at 1. unfold lift at 1. rewrite Hget.
  unfold bind at 1. unfold lift at 1.
  rewrite (series_map_total _ caption_length_of).
  2:{ eapply Forall_impl; [apply select_mask_valid|].
      intros x Hx. apply caption_length_of_valid. exact Hx. }
  unfold bind at 1. unfold lift at 1.
  rewrite (series_map_total _ hashtags_of).
  2:{ eapply Forall_impl; [apply select_mask_valid|].
      intros x Hx. apply hashtags_of_valid. exact Hx. }
  unfold df0. rewrite (loc_assign_post_info df post_col).
  unfold bind at 1. unfold lift at 1. rewrite astype_Int64_caption_length.
  unfold bind at 1. unfold lift at 1. rewrite astype_Int64_hashtags.
  unfold bind, to_csv, print, ret. cbn [files stdout].
  rewrite !map_map, count_true_map.
  assert (Hlen : length (rows (post_info_frame df post_col))
                 = length (rows df)) by apply length_map.
  rewrite Hlen. unfold post_info_log.
  repeat rewrite <- app_assoc. reflexivity.
Qed.

(** ** Float equality with a nonzero finite constant *)

Lemma SFeqb_finite (a : spec_float) (s : bool) (m : positive) (e : Z) :
  SFeqb a (S754_finite s m e) = true -> a = S754_finite s m e.
Proof.
  unfold SFeqb, SFcompare. intros H.
  destruct a as [s'|s'| |s' m' e']; try discriminate.
  - destruct s, s'; discriminate.
  - destruct s, s'; discriminate.
  - destruct s', s; try discriminate;
      destruct (Z.compare e' e) eqn:He; try discriminate;
      apply Z.compare_eq in He; subst e';
      change (Pos.compare_cont Eq m' m) with (Pos.compare m' m) in H;
      destruct (Pos.compare m' m) eqn:Hm; try discriminate;
      apply Pos.compare_eq in Hm; subst m'; reflexivity.
Qed.

Lemma float_eqb_finite (x y : float) (s : bool) (m : positive) (e : Z) :
  Prim2SF y = S754_finite s m e -> PrimFloat.eqb x y = true -> x = y.
Proof.
  intros Hy Heq. rewrite FloatAxioms.eqb_spec, Hy in Heq.
  apply SFeqb_finite in Heq. apply Prim2SF_inj. congruence.
Qed.

(** A cell equal to a key of the coding scheme is that integer, or the
    float of that integer. *)
Lemma cell_eq_key (x : cell) (k : Z) :
  k ∈ coding_scheme_keys -> cell_eq_int x k = true ->
  x = IntV k \/ x = FloatV (float_of_Z k).
Proof.
  intros Hk Hx. destruct x as [|z|f|s]; simpl in Hx; try discriminate.
  - left. apply Z.eqb_eq in Hx. congruence.
  - right. f_equal.
    unfold coding_scheme_keys in Hk. simpl in Hk.
    elem_cases Hk;
      (eapply float_eqb_finite; [vm_compute; reflexivity|exact Hx]).
Qed.

Lemma coding_scheme_key (k : Z) (p : Z * Z) :
  coding_scheme !! k = Some p -> k ∈ coding_scheme_keys.
Proof.
  intros Hk. unfold coding_scheme in Hk.
  apply elem_of_list_to_map_2 in Hk.
  unfold coding_scheme_keys.
  apply list_elem_of_fmap. exists (k, p). split; [reflexivity|exact Hk].
Qed.

Lemma coding_scheme_get_key (x : cell) (k : Z) (p : Z * Z) :
  coding_scheme !! k = Some p -> cell_eq_int x k = true ->
  coding_scheme_get x = Ok p
  /\ cell_isin x coding_scheme_keys = true.
Proof.
  intros Hk Hx.
  pose proof (coding_scheme_key k p Hk) as Hin.
  destruct (cell_eq_key x k Hin Hx) as [->| ->];
    unfold coding_scheme_keys in Hin; simpl in Hin;
    elem_cases Hin; vm_compute in Hk; injection Hk as <-;
    split; vm_compute; reflexivity.
Qed.

Lemma isin_keys_iff (x : cell) :
  cell_isin x coding_scheme_keys = true
  <-> exists k p, coding_scheme !! k = Some p /\ cell_eq_int x k = true.
Proof.
  split.
  - intros Hx. unfold cell_isin in Hx.
    apply existsb_exists in Hx as (k & Hk & Hx).
    apply list_elem_of_In in Hk.
    unfold coding_scheme_keys in Hk. simpl in Hk.
    elem_cases Hk; eexists _, _; (split; [|exact Hx]); vm_compute;
      reflexivity.
  - intros (k & p & Hk & Hx). eapply coding_scheme_get_key; eassumption.
Qed.

Lemma post_info_row_key (post_col : string) (r : gmap string cell) (k : Z)
    (p : Z * Z) :
  coding_scheme !! k = Some p ->
  cell_eq_int (get_cell (init_row r) post_col) k = true ->
  get_cell (post_info_row post_col r) "Caption_Length" = IntV (fst p)
  /\ get_cell (post_info_row post_col r) "Hashtags" = IntV (snd p).
Proof.
  intros Hk Hx.
  destruct (coding_scheme_get_key _ k p Hk Hx) as [Hget Hin].
  unfold get_cell.
  rewrite post_info_row_caption, post_info_row_hashtags, Hin.
  unfold caption_length_of, hashtags_of. rewrite Hget. auto.
Qed.

Lemma post_info_row_no_key (post_col : string) (r : gmap string cell) :
  cell_isin (get_cell (init_row r) post_col) coding_scheme_keys = false ->
  get_cell (post_info_row post_col r) "Caption_Length" = NA
  /\ get_cell (post_info_row post_col r) "Hashtags" = NA.
Proof.
  intros Hx. unfold get_cell.
  rewrite post_info_row_caption, post_info_row_hashtags, Hx. auto.
Qed.

Lemma post_col_in_post_info (df : frame) (post_col : string) :
  post_col ∈ columns df ->
  post_col ∈ add_column (add_column (columns df) "Caption_Length") "Hashtags".
Proof.
  intros H. apply elem_of_add_column. left. apply elem_of_add_column. auto.
Qed.

(** C2.  For every record set holding the post-code column (which is
    not itself one of the two derived columns), [add_post_info] returns
    a record set with one output row per input row, none dropped and no
    error raised.  A row whose post-code value equals a key of the
    12-entry coding scheme gets exactly that key's caption length and
    hashtag count (code 3 gives 140 and 5); a row whose value equals no
    key gets null in both derived columns; every value is in one of the
    two cases.  The result does not depend on the state the function is
    run in, and running it again rewrites the same file. *)
Theorem add_post_info_maps (df : frame) (post_col output_file : string)
    (w : world) :
  post_col ∈ columns df ->
  post_col <> "Caption_Length" -> post_col <> "Hashtags" ->
  exists df' w',
    add_post_info df post_col output_file w = (Ok df', w')
    /\ length (rows df') = length (rows df)
    /\ (forall i r, rows df !! i = Some r ->
          exists r', rows df' !! i = Some r'
            /\ (forall k p,
                  coding_scheme !! k = Some p ->
                  cell_eq_int (get_cell r post_col) k = true ->
                  get_cell r' "Caption_Length" = IntV (fst p)
                  /\ get_cell r' "Hashtags" = IntV (snd p))
            /\ (cell_isin (get_cell r post_col) coding_scheme_keys = false ->
                  get_cell r' "Caption_Length" = NA
                  /\ get_cell r' "Hashtags" = NA)
            /\ (cell_isin (get_cell r post_col) coding_scheme_keys = true
                <-> exists k p, coding_scheme !! k = Some p
                      /\ cell_eq_int (get_cell r post_col) k = true))
    /\ size coding_scheme = 12%nat
    /\ coding_scheme !! 3 = Some (140, 5)
    /\ (forall w2, exists w2',
          add_post_info df post_col output_file w2 = (Ok df', w2')
          /\ files w2' !! ("data/" ++ output_file) = Some df')
    /\ (exists w'',
          add_post_info df post_col output_file w' = (Ok df', w'')
          /\ files w'' = files w').
Proof.
  intros Hpost Hcl Hh.
  pose proof (post_col_in_post_info df post_col Hpost) as Hpost'.
  eexists _, _. split; [apply add_post_info_run; exact Hpost'|].
  split; [apply length_map|]. split.
  - intros i r Hr. exists (post_info_row post_col r). split.
    + cbn [rows post_info_frame].
      change (map ?f ?l) with (f <$> l). rewrite list_lookup_fmap, Hr.
      reflexivity.
    + rewrite <- (get_cell_init_row r post_col Hcl Hh).
      split; [intros k p; apply post_info_row_key|].
      split; [apply post_info_row_no_key|apply isin_keys_iff].
  - split; [vm_compute; reflexivity|]. split; [vm_compute; reflexivity|].
    split.
    + intros w2. eexists. split; [apply add_post_info_run; exact Hpost'|].
      cbn [files]. apply lookup_insert_eq.
    + eexists. split; [apply add_post_info_run; exact Hpost'|].
      cbn [files]. apply insert_insert_eq.
Qed.

Lemma add_post_info_maps_witness :
  exists df' w',
    add_post_info example_q2 "P201" "Cleaned_Q2_withPostInfo.csv"
      example_world_empty = (Ok df', w')
    /\ length (rows df') = length (rows example_q2)
    /\ (forall i r, rows example_q2 !! i = Some r ->
          exists r', rows df' !! i = Some r'
            /\ (forall k p,
                  coding_scheme !! k = Some p ->
                  cell_eq_int (get_cell r "P201") k = true ->
                  get_cell r' "Caption_Length" = IntV (fst p)
                  /\ get_cell r' "Hashtags" = IntV (snd p))
            /\ (cell_isin (get_cell r "P201") coding_scheme_keys = false ->
                  get_cell r' "Caption_Length" = NA
                  /\ get_cell r' "Hashtags" = NA)
            /\ (cell_isin (get_cell r "P201") coding_scheme_keys = true
                <-> exists k p, coding_scheme !! k = Some p
                      /\ cell_eq_int (get_cell r "P201") k = true))
    /\ size coding_scheme = 12%nat
    /\ coding_scheme !! 3 = Some (140, 5)
    /\ (forall w2, exists w2',
          add_post_info example_q2 "P201" "Cleaned_Q2_withPostInfo.csv" w2
          = (Ok df', w2')
          /\ files w2' !! ("data/" ++ "Cleaned_Q2_withPostInfo.csv")
             = Some df')
    /\ (exists w'',
          add_post_info example_q2 "P201" "Cleaned_Q2_withPostInfo.csv" w'
          = (Ok df', w'')
          /\ files w'' = files w').
Proof.
  apply (add_post_info_maps example_q2 "P201" "Cleaned_Q2_withPostInfo.csv"
           example_world_empty).
  - by_compute.
  - discriminate.
  - discriminate.
Defined.



(** ** The composite score *)

Lemma to_float_number (c : cell) :
  is_number_or_null c = true -> to_float c = Ok (as_float c).
Proof. destruct c; simpl; intros H; try reflexivity; discriminate. Qed.

Lemma series_mul_column (rs : list (gmap string cell)) (c : string)
    (w : float) :
  Forall (fun r => is_number_or_null (get_cell r c) = true) rs ->
  series_mul (map (fun r => get_cell r c) rs) w
  = Ok (map (fun r => (as_float (get_cell r c) * w)%float) rs).
Proof.
  intros H. unfold series_mul.
  rewrite (series_map_total _ (fun x => (as_float x * w)%float)).
  - rewrite map_map. reflexivity.
  - apply Forall_forall. intros x Hx.
    apply list_elem_of_In, in_map_iff in Hx as (r & <- & Hr).
    rewrite Forall_forall in H.
    rewrite to_float_number by (apply H, list_elem_of_In, Hr). reflexivity.
Qed.

Lemma series_add_map {A} (f g : A -> float) (xs : list A) :
  series_add (map f xs) (map g xs) = map (fun x => (f x + g x)%float) xs.
Proof.
  unfold series_add. induction xs as [|x xs IH]; simpl; [reflexivity|].
  rewrite IH. reflexivity.
Qed.

Lemma assign_rows_map (rs : list (gmap string cell))
    (k : gmap string cell -> gmap string cell)
    (g : gmap string cell -> cell) (c : string) :
  assign_rows (map k rs) c (map g rs)
  = map (fun r => <[c := g r]> (k r)) rs.
Proof.
  induction rs as [|r rs IH]; simpl; [reflexivity|].
  rewrite IH. reflexivity.
Qed.

Lemma add_column_idem (cols : list string) (c : string) :
  add_column (add_column cols c) c = add_column cols c.
Proof.
  apply add_column_present, elem_of_add_column. auto.
Qed.

(** Steps 16 and 17, run on a record set they accept. *)
Lemma add_engagement_score_run (df : frame) :
  scorable df -> add_engagement_score df = Ok (scored_frame df).
Proof.
  intros (Hl & Hc & Hs & Hnum). unfold add_engagement_score.
  rewrite (getitem_present df "Like Possibility") by exact Hl.
  cbn [rbind]. rewrite series_mul_column
    by (eapply Forall_impl; [exact Hnum|]; cbn beta; tauto).
  cbn [rbind].
  rewrite (getitem_present df "Comment Possibility") by exact Hc.
  cbn [rbind]. rewrite series_mul_column
    by (eapply Forall_impl; [exact Hnum|]; cbn beta; tauto).
  cbn [rbind].
  rewrite (getitem_present df "Share Possibility") by exact Hs.
  cbn [rbind]. rewrite series_mul_column
    by (eapply Forall_impl; [exact Hnum|]; cbn beta; tauto).
  cbn [rbind]. rewrite !series_add_map.
  unfold setitem, scored_frame. cbn [columns rows]. f_equal. f_equal.
  - apply add_column_idem.
  - rewrite !map_map.
    rewrite <- (map_id (rows df)) at 1. rewrite assign_rows_map.
    rewrite (assign_rows_map (rows df) _
               (fun r => cell_of_float (Float64.round2 _)) score_column).
    apply map_ext. intros r. rewrite insert_insert_eq. reflexivity.
Qed.

Lemma scored_frame_lookup (df : frame) (i : nat) (r : gmap string cell) :
  rows df !! i = Some r ->
  rows (scored_frame df) !! i = Some (<[score_column := row_score r]> r).
Proof.
  intros Hr. cbn [rows scored_frame].
  change (map ?f ?l) with (f <$> l). rewrite list_lookup_fmap, Hr.
  reflexivity.
Qed.

Lemma get_cell_scored (r : gmap string cell) :
  get_cell (<[score_column := row_score r]> r) score_column = row_score r.
Proof. unfold get_cell. rewrite lookup_insert_eq. reflexivity. Qed.

(** C1, as the code has it.  On every record set the score stage
    accepts, a row with Like Possibility = 4, Comment Possibility = 3 and
    Share Possibility = 5 gets the Engagement Intention Score 10.81: the
    weighted sum 4*0.847 + 3*0.941 + 5*0.920 is 10.811, and rounded to
    two decimals that is 10.81. *)
Theorem engagement_score_scenario (df : frame) :
  scorable df ->
  exists df',
    add_engagement_score df = Ok df'
    /\ forall i r,
         rows df !! i = Some r ->
         get_cell r "Like Possibility" = IntV 4 ->
         get_cell r "Comment Possibility" = IntV 3 ->
         get_cell r "Share Possibility" = IntV 5 ->
         exists r', rows df' !! i = Some r'
                    /\ get_cell r' score_column = FloatV 10.81%float.
Proof.
  intros Hdf. exists (scored_frame df).
  split; [apply add_engagement_score_run; exact Hdf|].
  intros i r Hr Hl Hc Hs. eexists.
  split; [apply scored_frame_lookup; exact Hr|].
  rewrite get_cell_scored. unfold row_score. rewrite Hl, Hc, Hs.
  vm_compute. reflexivity.
Qed.

Lemma example_final_post1_scorable : scorable example_final_post1.
Proof.
  unfold scorable. repeat split; by_compute.
Qed.

Lemma engagement_score_scenario_witness :
  exists df',
    add_engagement_score example_final_post1 = Ok df'
    /\ forall i r,
         rows example_final_post1 !! i = Some r ->
         get_cell r "Like Possibility" = IntV 4 ->
         get_cell r "Comment Possibility" = IntV 3 ->
         get_cell r "Share Possibility" = IntV 5 ->
         exists r', rows df' !! i = Some r'
                    /\ get_cell r' score_column = FloatV 10.81%float.
Proof.
  apply (engagement_score_scenario example_final_post1).
  unfold scorable. repeat split; by_compute.
Defined.

(** The stated form of C1 fails: the row with Like = 4, Comment = 3,
    Share = 5 does not get the score 10.84. *)
Lemma engagement_score_not_10_84 :
  ~ exists df' r',
      add_engagement_score example_final_post1 = Ok df'
      /\ rows df' !! 0%nat = Some r'
      /\ get_cell r' score_column = FloatV 10.84%float.
Proof.
  intros (df' & r' & Hrun & Hr & Hs).
  rewrite add_engagement_score_run in Hrun
    by apply example_final_post1_scorable.
  injection Hrun as <-.
  rewrite (scored_frame_lookup example_final_post1 0 _ eq_refl) in Hr.
  injection Hr as <-. rewrite get_cell_scored in Hs.
  vm_compute in Hs. discriminate Hs.
Qed.

(** ** Null propagation in the score *)



Lemma forallb3_forall {A} (f : A -> A -> A -> bool) (xs : list A) :
  forallb3 f xs = true ->
  forall a b c, In a xs -> In b xs -> In c xs -> f a b c = true.
Proof.
  unfold forallb3. intros H a b c Ha Hb Hc.
  rewrite forallb_forall in H. specialize (H a Ha).
  rewrite forallb_forall in H. specialize (H b Hb).
  rewrite forallb_forall in H. exact (H c Hc).
Qed.







(** ** Descriptive statistics *)

Lemma zip_with_map_same {A B C D} (op : B -> C -> D) (f : A -> B)
    (g : A -> C) (xs : list A) :
  zip_with op (map f xs) (map g xs) = map (fun x => op (f x) (g x)) xs.
Proof.
  induction xs as [|x xs IH]; simpl; [reflexivity|].
  rewrite IH. reflexivity.
Qed.

Lemma different_codes_count (df : frame) :
  "P201" ∈ columns df -> "P301" ∈ columns df ->
  Statistics.different_codes df
  = Ok (length (List.filter
                  (fun r => cell_ne (get_cell r "P201") (get_cell r "P301"))
                  (rows df))).
Proof.
  intros H2 H3. unfold Statistics.different_codes.
  rewrite !getitem_present by assumption. cbn [rbind].
  rewrite zip_with_map_same, count_true_map. reflexivity.
Qed.

Lemma finished_cases_count (df : frame) :
  "FINISHED" ∈ columns df ->
  Statistics.finished_cases df
  = Ok (length (List.filter
                  (fun r => cell_eq_int (get_cell r "FINISHED") 1)
                  (rows df))).
Proof.
  intros Hf. unfold Statistics.finished_cases.
  rewrite filter_eq_filter by exact Hf. reflexivity.
Qed.



(** ** Standardization *)

Section ScalerFacts.
Import StandardScaler.
Local Open Scope R_scope.

Lemma present_fmap (f : R -> R) (col : list (option R)) :
  present (map (fmap (M := option) f) col) = map f (present col).
Proof.
  unfold present. induction col as [|[x|] col IH]; [reflexivity| |].
  - change (f x :: omap (fun o : option R => o)
                        (map (fmap (M := option) f) col)
            = f x :: map f (omap (fun o : option R => o) col)).
    rewrite IH. reflexivity.
  - exact IH.
Qed.

Lemma total_map_scale (f : R -> R) (k : R) (xs : list R) :
  total (map (fun x => f x * k) xs) = total (map f xs) * k.
Proof.
  induction xs as [|x xs IH]; simpl; [lra|]. rewrite IH. lra.
Qed.

Lemma total_map_shift (m : R) (xs : list R) :
  total (map (fun x => x - m) xs) = total xs - INR (length xs) * m.
Proof.
  induction xs as [|x xs IH]; [simpl; lra|].
  change (length (x :: xs)) with (S (length xs)). rewrite S_INR.
  simpl. rewrite IH. lra.
Qed.

Lemma total_squares_nonneg (f : R -> R) (xs : list R) :
  0 <= total (map (fun x => f x * f x) xs).
Proof.
  induction xs as [|x xs IH]; simpl; [lra|].
  pose proof (Rle_0_sqr (f x)) as H. unfold Rsqr in H. lra.
Qed.

Lemma var_nonneg (xs : list R) : 0 <= var xs.
Proof.
  unfold var, sum_sq_dev. destruct xs as [|x xs].
  - simpl. unfold Rdiv. rewrite Rmult_0_l. lra.
  - apply Rmult_le_pos; [apply total_squares_nonneg|].
    apply Rlt_le, Rinv_0_lt_compat, lt_0_INR. simpl. lia.
Qed.

Lemma var_nonzero_nonempty (xs : list R) : var xs <> 0 -> INR (length xs) <> 0.
Proof.
  intros Hv Hn. destruct xs as [|x xs].
  - apply Hv. unfold var, sum_sq_dev, Rdiv. simpl. apply Rmult_0_l.
  - revert Hn. apply not_0_INR. discriminate.
Qed.

Lemma scale_nonzero_var (xs : list R) :
  var xs <> 0 -> scale xs = sqrt (var xs) /\ 0 < sqrt (var xs).
Proof.
  intros Hv.
  assert (Hpos : 0 < sqrt (var xs)).
  { apply sqrt_lt_R0. pose proof (var_nonneg xs). lra. }
  split; [|exact Hpos]. unfold scale.
  destruct (Req_dec_T (sqrt (var xs)) 0) as [H|H]; [lra|reflexivity].
Qed.

Lemma mean_standardized (xs : list R) (s : R) :
  INR (length xs) <> 0 -> s <> 0 ->
  mean (map (fun x => (x - mean xs) / s) xs) = 0.
Proof.
  intros Hn Hs. unfold mean at 1. rewrite length_map.
  unfold Rdiv at 2.
  rewrite (total_map_scale (fun x => x - mean xs) (/ s)), total_map_shift.
  unfold mean. field. split; assumption.
Qed.

Lemma var_standardized (xs : list R) (s : R) :
  INR (length xs) <> 0 -> s <> 0 ->
  var (map (fun x => (x - mean xs) / s) xs) = var xs / (s * s).
Proof.
  intros Hn Hs. unfold var at 1, sum_sq_dev at 1.
  rewrite mean_standardized by assumption. rewrite length_map, map_map.
  rewrite (map_ext _ (fun x => (x - mean xs) * (x - mean xs) * (/ s * / s)))
    by (intros x; field; exact Hs).
  rewrite (total_map_scale (fun x => (x - mean xs) * (x - mean xs))).
  unfold var, sum_sq_dev. field. split; assumption.
Qed.

(** C4, as the code has it.  For every column with spread (nonzero
    variance over its non-null values), [StandardScaler] produces
    (value - mean) / standard deviation with the population standard
    deviation (denominator n, [ddof=0]), nulls staying null; over the
    non-null values the output has mean 0 and population standard
    deviation 1 (its variance with denominator n is 1). *)
Theorem standard_scaler_population (col : list (option R)) :
  var (present col) <> 0 ->
  fit_transform col
  = map (fmap (M := option)
           (fun x => (x - mean (present col)) / sqrt (var (present col))))
        col
  /\ mean (present (fit_transform col)) = 0
  /\ var (present (fit_transform col)) = 1
  /\ sqrt (var (present (fit_transform col))) = 1.
Proof.
  intros Hv.
  destruct (scale_nonzero_var _ Hv) as [Hscale Hpos].
  pose proof (var_nonzero_nonempty _ Hv) as Hn.
  assert (Hs : sqrt (var (present col)) <> 0) by lra.
  unfold fit_transform. rewrite Hscale. split; [reflexivity|].
  rewrite present_fmap.
  split; [apply mean_standardized; assumption|].
  assert (Hone : var (map (fun x => (x - mean (present col))
                                    / sqrt (var (present col)))
                          (present col)) = 1).
  { rewrite var_standardized by assumption.
    rewrite sqrt_sqrt by apply var_nonneg. field. exact Hv. }
  split; [exact Hone|]. rewrite Hone. apply sqrt_1.
Qed.

Lemma example_column_mean : mean (present example_column) = 1.
Proof. unfold mean. simpl. lra. Qed.

Lemma example_column_var : var (present example_column) = 1.
Proof.
  unfold var, sum_sq_dev. rewrite example_column_mean. simpl. lra.
Qed.

Lemma example_column_sample_var : sample_var (present example_column) = 2.
Proof.
  unfold sample_var, sum_sq_dev. rewrite example_column_mean. simpl. lra.
Qed.

Lemma standard_scaler_population_witness :
  fit_transform example_column
  = map (fmap (M := option)
           (fun x => (x - mean (present example_column))
                     / sqrt (var (present example_column))))
        example_column
  /\ mean (present (fit_transform example_column)) = 0
  /\ var (present (fit_transform example_column)) = 1
  /\ sqrt (var (present (fit_transform example_column))) = 1.
Proof.
  apply (standard_scaler_population example_column).
  rewrite example_column_var. lra.
Defined.

(** The stated form of C4 fails: on the column 0, 2 the scaler's output
    is -1, 1, while the z-score with the sample (n - 1) standard
    deviation is -1/sqrt 2, 1/sqrt 2. *)
Lemma standard_scaler_not_sample_zscore :
  fit_transform example_column <> sample_zscore example_column.
Proof.
  unfold fit_transform, sample_zscore.
  destruct (scale_nonzero_var (present example_column)) as [Hscale _].
  { rewrite example_column_var. lra. }
  rewrite Hscale, example_column_var, example_column_sample_var,
    example_column_mean, sqrt_1.
  simpl. intros H. injection H as H _.
  assert (Hpos : 0 < sqrt 2) by (apply sqrt_lt_R0; lra).
  assert (Hsq : sqrt 2 * sqrt 2 = 2) by (apply sqrt_sqrt; lra).
  assert (H1 : sqrt 2 = 1).
  { apply (Rmult_eq_compat_r (sqrt 2)) in H. field_simplify in H; lra. }
  rewrite H1 in Hsq. lra.
Qed.
End ScalerFacts.

(** ** One-hot encoding *)

Section DummiesFacts.
Import Dummies.

Lemma levels_NoDup (s : list cell) : NoDup (levels s).
Proof.
  unfold levels. rewrite merge_sort_Permutation. apply NoDup_remove_dups.
Qed.

Lemma elem_of_levels (s : list cell) (v : string) :
  v ∈ levels s <-> exists c, c ∈ s /\ label c = Some v.
Proof.
  unfold levels.
  rewrite merge_sort_Permutation, elem_of_remove_dups, list_elem_of_omap.
  reflexivity.
Qed.

Lemma levels_sorted (s : list cell) : Sorted String.le (levels s).
Proof. apply (Sorted_merge_sort String.le). Qed.

Lemma indicator_nth (s : list cell) (lv : string) (i : nat) :
  (i < length s)%nat ->
  nth i (indicator s lv) NA
  = IntV (if bool_decide (label (nth i s NA) = Some lv) then 1 else 0).
Proof.
  revert i. unfold indicator.
  induction s as [|c s IH]; intros [|i] Hi; simpl in Hi; try lia.
  - reflexivity.
  - apply IH. lia.
Qed.

Lemma row_sum_indicators (name : string) (s : list cell) (ls : list string)
    (i : nat) :
  (i < length s)%nat ->
  row_sum (map (fun lv => (name ++ "_" ++ lv, indicator s lv)) ls) i
  = foldr Z.add 0
      (map (fun lv => if bool_decide (label (nth i s NA) = Some lv)
                      then 1 else 0) ls).
Proof.
  intros Hi. unfold row_sum. rewrite map_map. f_equal.
  apply map_ext. intros lv. cbn [snd]. rewrite indicator_nth by exact Hi.
  reflexivity.
Qed.

Lemma sum_indicators_NoDup (ls : list string) (o : option string) :
  NoDup ls ->
  foldr Z.add 0
    (map (fun lv => if bool_decide (o = Some lv) then 1 else 0) ls)
  = match o with
    | Some v => if bool_decide (v ∈ ls) then 1 else 0
    | None => 0
    end.
Proof.
  induction 1 as [|lv ls Hnin Hnd IH]; simpl.
  - destruct o as [v|]; reflexivity.
  - rewrite IH. destruct o as [v|].
    + destruct (decide (v = lv)) as [->|Hne].
      * rewrite bool_decide_eq_true_2 by reflexivity.
        rewrite (bool_decide_eq_false_2 (lv ∈ ls)) by exact Hnin.
        rewrite bool_decide_eq_true_2 by left. reflexivity.
      * rewrite bool_decide_eq_false_2 by congruence.
        destruct (decide (v ∈ ls)) as [Hin|Hin].
        -- rewrite !bool_decide_eq_true_2; [reflexivity|right|]; exact Hin.
        -- rewrite !bool_decide_eq_false_2; [reflexivity| |exact Hin].
           intros [H|H]%elem_of_cons; contradiction.
    + rewrite bool_decide_eq_false_2 by discriminate. reflexivity.
Qed.

Lemma tail_NoDup {A} (l : list A) : NoDup l -> NoDup (tail l).
Proof. destruct 1; [constructor|assumption]. Qed.

Lemma get_dummies_single_object (name : string) (s : list cell) :
  object_dtype s = true ->
  get_dummies [(name, s)] = get_dummies_1d name s.
Proof.
  intros Hobj. unfold get_dummies. simpl. rewrite Hobj. simpl.
  apply app_nil_r.
Qed.

(** Columns without a string are carried over as they are: no indicator
    column is made for them. *)
Lemma get_dummies_numeric (data : table) :
  Forall (fun col => object_dtype (snd col) = false) data ->
  get_dummies data = data.
Proof.
  intros Hnum. unfold get_dummies.
  assert (H : List.filter (fun col => negb (object_dtype (snd col))) data
              = data
              /\ List.filter (fun col => object_dtype (snd col)) data = []).
  { induction Hnum as [|col data Hc _ [IH1 IH2]]; simpl; [auto|].
    rewrite Hc. simpl. rewrite IH1. auto. }
  destruct H as [-> ->]. simpl. apply app_nil_r.
Qed.

(** Step 5 on a table whose four categorical columns hold codes, not
    strings: the stage returns those four columns as they are. *)
Lemma dummy_data_numeric (df : frame) :
  (forall c, c ∈ categorical ->
     c ∈ columns df
     /\ object_dtype (map (fun r => get_cell r c) (rows df)) = false) ->
  dummy_data df
  = Ok (map (fun c => (c, map (fun r => get_cell r c) (rows df)))
            categorical).
Proof.
  intros H. unfold dummy_data, columns_of.
  rewrite (series_map_total _
             (fun c => (c, map (fun r => get_cell r c) (rows df)))).
  - cbn [rbind]. f_equal. apply get_dummies_numeric.
    apply Forall_forall. intros col Hcol.
    apply list_elem_of_fmap in Hcol as (c & -> & Hc). cbn [snd].
    apply H. exact Hc.
  - apply Forall_forall. intros c Hc.
    rewrite getitem_present by (apply H; exact Hc). reflexivity.
Qed.

Lemma get_dummies_post_unchanged :
  get_dummies [("Post", example_post)] = [("Post", example_post)].
Proof. vm_compute. reflexivity. Qed.

(** C7, as the code has it.  For every string-typed column the one-hot
    stage encodes, with k observed distinct category values (nulls are
    not a category), the output has exactly k - 1 indicator columns for
    it, one per category other than the first in sorted order, each
    holding only 0 and 1; in every row the indicators sum to 0 or 1, and
    the sum is 0 exactly when the row holds the dropped reference
    category or holds no value. *)
Theorem one_hot_indicators (name : string) (s : list cell) :
  object_dtype s = true ->
  NoDup (levels s)
  /\ (forall v, v ∈ levels s <-> exists c, c ∈ s /\ label c = Some v)
  /\ length (get_dummies [(name, s)]) = (length (levels s) - 1)%nat
  /\ (forall col, col ∈ get_dummies [(name, s)] ->
        length (snd col) = length s
        /\ Forall (fun c => c = IntV 0 \/ c = IntV 1) (snd col))
  /\ (forall i, (i < length s)%nat ->
        (row_sum (get_dummies [(name, s)]) i = 0
         \/ row_sum (get_dummies [(name, s)]) i = 1)
        /\ (row_sum (get_dummies [(name, s)]) i = 0
            <-> label (nth i s NA) = None
                \/ label (nth i s NA) = head (levels s))).
Proof.
  intros Hobj. rewrite get_dummies_single_object by exact Hobj.
  split; [apply levels_NoDup|]. split; [apply elem_of_levels|].
  unfold get_dummies_1d. split.
  - rewrite length_map. destruct (levels s); simpl; lia.
  - split.
    + intros col Hcol.
      apply list_elem_of_fmap in Hcol as (lv & -> & _). cbn [snd].
      unfold indicator. split; [apply length_map|].
      apply Forall_forall. intros c Hc.
      apply list_elem_of_fmap in Hc as (c0 & -> & _).
      destruct (bool_decide _); auto.
    + intros i Hi. rewrite row_sum_indicators by exact Hi.
      rewrite sum_indicators_NoDup by apply tail_NoDup, levels_NoDup.
      pose proof (levels_NoDup s) as Hnd.
      pose proof (elem_of_levels s) as Hlv.
      destruct (label (nth i s NA)) as [v|] eqn:Hlab.
      * assert (Hv : v ∈ levels s).
        { apply Hlv. exists (nth i s NA). split; [|exact Hlab].
          apply list_elem_of_In, nth_In. exact Hi. }
        destruct (levels s) as [|h t]; [inversion Hv|].
        cbn [tail head]. apply NoDup_cons in Hnd as [Hh _].
        destruct (decide (v ∈ t)) as [Hin|Hin].
        -- rewrite bool_decide_eq_true_2 by exact Hin.
           split; [right; reflexivity|].
           split; [discriminate|].
           intros [H|H]; [discriminate|]. injection H as ->. contradiction.
        -- rewrite bool_decide_eq_false_2 by exact Hin.
           split; [left; reflexivity|].
           split; [|reflexivity]. intros _. right.
           apply elem_of_cons in Hv as [->|Hv]; [reflexivity|contradiction].
      * split; [left; reflexivity|]. split; [auto|reflexivity].
Qed.

Lemma one_hot_indicators_witness :
  NoDup (levels example_gender)
  /\ (forall v, v ∈ levels example_gender
                <-> exists c, c ∈ example_gender /\ label c = Some v)
  /\ length (get_dummies [("Gender", example_gender)])
     = (length (levels example_gender) - 1)%nat
  /\ (forall col, col ∈ get_dummies [("Gender", example_gender)] ->
        length (snd col) = length example_gender
        /\ Forall (fun c => c = IntV 0 \/ c = IntV 1) (snd col))
  /\ (forall i, (i < length example_gender)%nat ->
        (row_sum (get_dummies [("Gender", example_gender)]) i = 0
         \/ row_sum (get_dummies [("Gender", example_gender)]) i = 1)
        /\ (row_sum (get_dummies [("Gender", example_gender)]) i = 0
            <-> label (nth i example_gender NA) = None
                \/ label (nth i example_gender NA)
                   = head (levels example_gender))).
Proof.
  apply (one_hot_indicators "Gender" example_gender).
  vm_compute. reflexivity.
Defined.

(** The stated form of C7 fails: in the example column the second row is
    null, its indicators sum to 0, and it does not hold the reference
    category. *)
Lemma one_hot_null_row_not_reference :
  ~ (forall i, (i < length example_gender)%nat ->
       (row_sum (get_dummies [("Gender", example_gender)]) i = 0
        <-> label (nth i example_gender NA) = head (levels example_gender))).
Proof.
  intros H. destruct (H 1%nat) as [Hzero _]; [vm_compute; lia|].
  specialize (Hzero eq_refl). vm_compute in Hzero. discriminate Hzero.
Qed.
End DummiesFacts.

(** ** NaN in float arithmetic *)

Lemma SFeqb_refl (a : spec_float) : a <> S754_nan -> SFeqb a a = true.
Proof.
  intros Ha. unfold SFeqb, SFcompare.
  destruct a as [s|s| |s m e]; [reflexivity| |congruence|].
  - destruct s; reflexivity.
  - replace (Z.compare e e) with Eq by (symmetry; apply Z.compare_refl).
    replace (Pos.compare_cont Eq m m) with Eq
      by (symmetry; apply (Pos.compare_refl m)).
    destruct s; reflexivity.
Qed.

Lemma is_nan_spec (x : float) :
  PrimFloat.is_nan x = true <-> Prim2SF x = S754_nan.
Proof.
  unfold PrimFloat.is_nan. rewrite FloatAxioms.eqb_spec. split.
  - intros H. destruct (Prim2SF x) eqn:E; try reflexivity;
      rewrite SFeqb_refl in H by discriminate; discriminate H.
  - intros ->. reflexivity.
Qed.

Lemma is_nan_mul_l (x y : float) :
  PrimFloat.is_nan x = true -> PrimFloat.is_nan (x * y)%float = true.
Proof.
  rewrite !is_nan_spec, FloatAxioms.mul_spec. intros ->. reflexivity.
Qed.

Lemma is_nan_mul_r (x y : float) :
  PrimFloat.is_nan y = true -> PrimFloat.is_nan (x * y)%float = true.
Proof.
  rewrite !is_nan_spec, FloatAxioms.mul_spec. intros ->.
  unfold SF64mul, SFmul. destruct (Prim2SF x); reflexivity.
Qed.

Lemma cell_of_float_nan (x : float) :
  PrimFloat.is_nan x = true -> cell_of_float x = NA.
Proof. intros H. unfold cell_of_float. rewrite H. reflexivity. Qed.

(** ** Polynomial and interaction terms *)

Lemma int_column_as_float (s : list cell) :
  forallb is_int s = true -> map float_of_Z (map cell_int s) = map as_float s.
Proof.
  intros H. rewrite map_map. apply map_ext_in. intros c Hc.
  rewrite forallb_forall in H. specialize (H c Hc).
  destruct c; try discriminate. reflexivity.
Qed.

Lemma pow_operand_numeric (s : list cell) :
  existsb Dummies.is_str s = false ->
  exists n, pow_operand s = Ok n
    /\ as_numeric s = Some n
    /\ numeric_cells (numeric_pow2 n) = map (pow2_cell (forallb is_int s)) s.
Proof.
  intros Hs. unfold pow_operand, as_numeric. rewrite Hs.
  destruct (forallb is_int s); eexists; (split; [reflexivity|]);
    (split; [reflexivity|]); simpl; rewrite !map_map; reflexivity.
Qed.

Lemma numeric_mul_cells {A} (f g : A -> cell) (xs : list A) (a b : numeric_series) :
  as_numeric (map f xs) = Some a -> as_numeric (map g xs) = Some b ->
  numeric_cells (numeric_mul a b)
  = map (fun x => mul_cell (forallb is_int (map f xs)
                            && forallb is_int (map g xs)) (f x) (g x)) xs
  /\ numeric_cells (numeric_pow2 (numeric_mul a b))
     = map (fun x => mul_pow2_cell (forallb is_int (map f xs)
                                    && forallb is_int (map g xs))
                                   (f x) (g x)) xs.
Proof.
  unfold as_numeric.
  destruct (existsb Dummies.is_str (map f xs)); [discriminate|].
  destruct (existsb Dummies.is_str (map g xs)); [discriminate|].
  destruct (forallb is_int (map f xs)) eqn:Hf;
    destruct (forallb is_int (map g xs)) eqn:Hg;
    intros [= <-] [= <-]; cbn [numeric_mul numeric_pow2 numeric_cells andb];
    try rewrite (int_column_as_float _ Hf);
    try rewrite (int_column_as_float _ Hg);
    rewrite !map_map, !zip_with_map_same, !map_map; split; reflexivity.
Qed.

Lemma get_cell_insert_ne (r : gmap string cell) (c c' : string) (v : cell) :
  c <> c' -> get_cell (<[c := v]> r) c' = get_cell r c'.
Proof.
  intros H. unfold get_cell. rewrite lookup_insert_ne by exact H.
  reflexivity.
Qed.

Lemma get_cell_insert_eq (r : gmap string cell) (c : string) (v : cell) :
  get_cell (<[c := v]> r) c = v.
Proof. unfold get_cell. rewrite lookup_insert_eq. reflexivity. Qed.

Lemma setitem_mapped (cols : list string) (rs : list (gmap string cell))
    (k : gmap string cell -> gmap string cell)
    (g : gmap string cell -> cell) (c : string) :
  setitem (Frame cols (map k rs)) c (map g rs)
  = Frame (add_column cols c) (map (fun r => <[c := g r]> (k r)) rs).
Proof. unfold setitem. cbn [columns rows]. rewrite assign_rows_map. reflexivity. Qed.

Lemma setitem_rows (cols : list string) (rs : list (gmap string cell))
    (g : gmap string cell -> cell) (c : string) :
  setitem (Frame cols rs) c (map g rs)
  = Frame (add_column cols c) (map (fun r => <[c := g r]> r) rs).
Proof.
  rewrite <- (map_id rs) at 1. apply (setitem_mapped cols rs (fun r => r)).
Qed.

(** Step 19, run on a record set it accepts. *)
Lemma add_polynomial_terms_run (df : frame) :
  polynomial_ready df -> add_polynomial_terms df = Ok (polynomial_frame df).
Proof.
  intros (Hh & Hc & Hsh & Hsc). unfold add_polynomial_terms.
  rewrite (getitem_present df "Hashtags") by exact Hh. cbn [rbind].
  fold (column_cells df "Hashtags").
  destruct (pow_operand_numeric _ Hsh) as (h & Hoph & Hnh & Hcellsh).
  rewrite Hoph. cbn [rbind]. rewrite Hcellsh.
  destruct df as [cols rs]. unfold column_cells in *. cbn [rows columns] in *.
  rewrite map_map, setitem_rows.
  rewrite getitem_present
    by (cbn [columns]; apply elem_of_add_column; left; exact Hc).
  cbn [rbind rows]. rewrite map_map.
  rewrite (map_ext (fun r => get_cell (<["Hashtags^2" := _]> r) "Caption_Length")
                   (fun r => get_cell r "Caption_Length"))
    by (intros r; apply get_cell_insert_ne; discriminate).
  destruct (pow_operand_numeric _ Hsc) as (c & Hopc & Hnc & Hcellsc).
  rewrite Hopc. cbn [rbind]. rewrite Hcellsc.
  destruct (numeric_mul_cells (fun r => get_cell r "Caption_Length")
              (fun r => get_cell r "Hashtags") rs c h Hnc Hnh)
    as [Hmul Hmul2].
  rewrite Hmul, Hmul2, map_map. rewrite !setitem_mapped.
  reflexivity.
Qed.

Lemma polynomial_stage_run (w : world) (df : frame) :
  files w !! merged_file = Some df -> polynomial_ready df ->
  exists w', polynomial_stage w = (Ok tt, w')
    /\ files w' = <[polynomial_file := polynomial_frame df]> (files w).
Proof.
  intros Hf Hdf. eexists.
  unfold polynomial_stage, bind, read_csv, print, lift, to_csv.
  rewrite Hf. cbn [files stdout].
  rewrite add_polynomial_terms_run by exact Hdf. cbn [files stdout].
  split; reflexivity.
Qed.

Lemma int_column_cell (df : frame) (c : string) (r : gmap string cell) :
  r ∈ rows df -> int_column df c = true -> is_int (get_cell r c) = true.
Proof.
  intros Hr Hint. unfold int_column, column_cells in Hint.
  rewrite forallb_forall in Hint. apply Hint.
  apply in_map_iff. exists r. split; [reflexivity|].
  apply list_elem_of_In. exact Hr.
Qed.

Lemma int_column_null (df : frame) (c : string) (r : gmap string cell) :
  r ∈ rows df -> get_cell r c = NA -> int_column df c = false.
Proof.
  intros Hr Hna. destruct (int_column df c) eqn:Hint; [|reflexivity].
  pose proof (int_column_cell df c r Hr Hint) as H. rewrite Hna in H.
  discriminate H.
Qed.

Lemma polynomial_frame_lookup (df : frame) (i : nat) (r : gmap string cell) :
  rows df !! i = Some r ->
  rows (polynomial_frame df) !! i = Some (polynomial_row df r).
Proof.
  intros Hr. cbn [rows polynomial_frame].
  change (map ?f ?l) with (f <$> l). rewrite list_lookup_fmap, Hr.
  reflexivity.
Qed.

Lemma polynomial_row_cells (df : frame) (r : gmap string cell) :
  get_cell (polynomial_row df r) "Hashtags^2"
  = pow2_cell (int_column df "Hashtags") (get_cell r "Hashtags")
  /\ get_cell (polynomial_row df r) "Caption_Length^2"
     = pow2_cell (int_column df "Caption_Length")
                 (get_cell r "Caption_Length")
  /\ get_cell (polynomial_row df r) "Caption_Length_x_Hashtags"
     = mul_cell (int_column df "Caption_Length" && int_column df "Hashtags")
                (get_cell r "Caption_Length") (get_cell r "Hashtags")
  /\ get_cell (polynomial_row df r) "(Caption_Length_x_Hashtags)^2"
     = mul_pow2_cell
         (int_column df "Caption_Length" && int_column df "Hashtags")
         (get_cell r "Caption_Length") (get_cell r "Hashtags").
Proof.
  unfold polynomial_row, get_cell.
  repeat split;
    repeat (rewrite lookup_insert_ne by discriminate);
    rewrite lookup_insert_eq; reflexivity.
Qed.

Lemma polynomial_row_other (df : frame) (r : gmap string cell) (c : string) :
  c <> "Hashtags^2" -> c <> "Caption_Length^2" ->
  c <> "Caption_Length_x_Hashtags" ->
  c <> "(Caption_Length_x_Hashtags)^2" ->
  polynomial_row df r !! c = r !! c.
Proof.
  intros H1 H2 H3 H4. unfold polynomial_row.
  repeat (rewrite lookup_insert_ne by congruence). reflexivity.
Qed.

(** X1.  On every merged table whose Hashtags and Caption_Length
    columns exist and hold no string, step 19 writes a table with the
    same rows in the same order and every other cell unchanged, and a
    missing value propagates: a row without Hashtags has null Hashtags^2,
    product and squared product, and a row without Caption_Length has
    null Caption_Length^2, product and squared product, whatever the
    other column holds. *)
Theorem polynomial_terms_propagate_null (w : world) (df : frame) :
  files w !! merged_file = Some df -> polynomial_ready df ->
  exists out w',
    polynomial_stage w = (Ok tt, w')
    /\ files w' = <[polynomial_file := out]> (files w)
    /\ length (rows out) = length (rows df)
    /\ forall i r,
         rows df !! i = Some r ->
         exists r',
           rows out !! i = Some r'
           /\ (forall c, c <> "Hashtags^2" -> c <> "Caption_Length^2" ->
                 c <> "Caption_Length_x_Hashtags" ->
                 c <> "(Caption_Length_x_Hashtags)^2" -> r' !! c = r !! c)
           /\ (get_cell r "Hashtags" = NA ->
               get_cell r' "Hashtags^2" = NA
               /\ get_cell r' "Caption_Length_x_Hashtags" = NA
               /\ get_cell r' "(Caption_Length_x_Hashtags)^2" = NA)
           /\ (get_cell r "Caption_Length" = NA ->
               get_cell r' "Caption_Length^2" = NA
               /\ get_cell r' "Caption_Length_x_Hashtags" = NA
               /\ get_cell r' "(Caption_Length_x_Hashtags)^2" = NA).
Proof.
  intros Hf Hdf.
  destruct (polynomial_stage_run w df Hf Hdf) as (w' & Hrun & Hw).
  exists (polynomial_frame df), w'. split; [exact Hrun|].
  split; [exact Hw|]. split; [apply length_map|].
  intros i r Hr. exists (polynomial_row df r).
  split; [apply polynomial_frame_lookup; exact Hr|].
  split; [intros c; apply polynomial_row_other|].
  assert (Hin : r ∈ rows df) by (apply list_elem_of_lookup; eauto).
  destruct (polynomial_row_cells df r) as (-> & -> & -> & ->).
  split; intros Hna; rewrite Hna.
  - rewrite (int_column_null df "Hashtags" r Hin Hna), andb_false_r.
    unfold pow2_cell, mul_cell, mul_pow2_cell. cbn [as_float].
    split; [reflexivity|]. split; apply cell_of_float_nan.
    + apply is_nan_mul_r. reflexivity.
    + apply is_nan_mul_l, is_nan_mul_r. reflexivity.
  - rewrite (int_column_null df "Caption_Length" r Hin Hna), andb_false_l.
    unfold pow2_cell, mul_cell, mul_pow2_cell. cbn [as_float].
    split; [reflexivity|]. split; apply cell_of_float_nan.
    + apply is_nan_mul_l. reflexivity.
    + apply is_nan_mul_l, is_nan_mul_l. reflexivity.
Qed.

Lemma example_merged_ready : polynomial_ready example_merged.
Proof. unfold polynomial_ready. repeat split; by_compute. Qed.

Lemma polynomial_terms_propagate_null_witness :
  exists out w',
    polynomial_stage example_world_merged = (Ok tt, w')
    /\ files w' = <[polynomial_file := out]> (files example_world_merged)
    /\ length (rows out) = length (rows example_merged)
    /\ forall i r,
         rows example_merged !! i = Some r ->
         exists r',
           rows out !! i = Some r'
           /\ (forall c, c <> "Hashtags^2" -> c <> "Caption_Length^2" ->
                 c <> "Caption_Length_x_Hashtags" ->
                 c <> "(Caption_Length_x_Hashtags)^2" -> r' !! c = r !! c)
           /\ (get_cell r "Hashtags" = NA ->
               get_cell r' "Hashtags^2" = NA
               /\ get_cell r' "Caption_Length_x_Hashtags" = NA
               /\ get_cell r' "(Caption_Length_x_Hashtags)^2" = NA)
           /\ (get_cell r "Caption_Length" = NA ->
               get_cell r' "Caption_Length^2" = NA
               /\ get_cell r' "Caption_Length_x_Hashtags" = NA
               /\ get_cell r' "(Caption_Length_x_Hashtags)^2" = NA).
Proof.
  apply (polynomial_terms_propagate_null example_world_merged example_merged).
  - reflexivity.
  - unfold polynomial_ready. repeat split; by_compute.
Defined.

Lemma coded_terms (k : Z) (p : Z * Z) (ci hi : bool) (ca cb : cell) :
  coding_scheme !! k = Some p ->
  holds_integer ca (fst p) -> holds_integer cb (snd p) ->
  (ci = true -> is_int ca = true) -> (hi = true -> is_int cb = true) ->
  holds_integer (pow2_cell hi cb) (snd p * snd p)
  /\ holds_integer (pow2_cell ci ca) (fst p * fst p)
  /\ holds_integer (mul_cell (ci && hi) ca cb) (fst p * snd p)
  /\ holds_integer (mul_pow2_cell (ci && hi) ca cb)
       ((fst p * snd p) * (fst p * snd p)).
Proof.
  intros Hk Ha Hb Hci Hhi.
  pose proof (coding_scheme_key k p Hk) as Hin.
  unfold coding_scheme_keys in Hin. simpl in Hin.
  unfold holds_integer in *.
  elem_cases Hin; vm_compute in Hk; injection Hk as <-;
    cbn [fst snd] in *;
    destruct Ha as [-> | ->], Hb as [-> | ->];
    destruct ci, hi;
    try (specialize (Hci eq_refl); discriminate Hci);
    try (specialize (Hhi eq_refl); discriminate Hhi);
    repeat split; vm_compute; auto.
Qed.

(** X2.  On every merged table step 19 accepts, a row whose
    Caption_Length and Hashtags are a pair of the coding scheme (held as
    integers or as the floats of those integers) gets exactly the
    squares and the product of the two numbers, and the square of the
    product: no rounding and no int64 wrap-around occurs on coded
    values. *)
Theorem polynomial_terms_coded_exact (df : frame) (k : Z) (p : Z * Z) :
  polynomial_ready df -> coding_scheme !! k = Some p ->
  exists df',
    add_polynomial_terms df = Ok df'
    /\ forall i r,
         rows df !! i = Some r ->
         holds_integer (get_cell r "Caption_Length") (fst p) ->
         holds_integer (get_cell r "Hashtags") (snd p) ->
         exists r',
           rows df' !! i = Some r'
           /\ holds_integer (get_cell r' "Hashtags^2") (snd p * snd p)
           /\ holds_integer (get_cell r' "Caption_Length^2") (fst p * fst p)
           /\ holds_integer (get_cell r' "Caption_Length_x_Hashtags")
                (fst p * snd p)
           /\ holds_integer (get_cell r' "(Caption_Length_x_Hashtags)^2")
                ((fst p * snd p) * (fst p * snd p)).
Proof.
  intros Hdf Hk. exists (polynomial_frame df).
  split; [apply add_polynomial_terms_run; exact Hdf|].
  intros i r Hr Ha Hb. exists (polynomial_row df r).
  split; [apply polynomial_frame_lookup; exact Hr|].
  assert (Hin : r ∈ rows df) by (apply list_elem_of_lookup; eauto).
  destruct (polynomial_row_cells df r) as (-> & -> & -> & ->).
  apply (coded_terms k p); try assumption.
  - apply int_column_cell. exact Hin.
  - apply int_column_cell. exact Hin.
Qed.

Lemma polynomial_terms_coded_exact_witness :
  exists df',
    add_polynomial_terms example_merged = Ok df'
    /\ forall i r,
         rows example_merged !! i = Some r ->
         holds_integer (get_cell r "Caption_Length") (fst (140, 5)) ->
         holds_integer (get_cell r "Hashtags") (snd (140, 5)) ->
         exists r',
           rows df' !! i = Some r'
           /\ holds_integer (get_cell r' "Hashtags^2")
                (snd (140, 5) * snd (140, 5))
           /\ holds_integer (get_cell r' "Caption_Length^2")
                (fst (140, 5) * fst (140, 5))
           /\ holds_integer (get_cell r' "Caption_Length_x_Hashtags")
                (fst (140, 5) * snd (140, 5))
           /\ holds_integer (get_cell r' "(Caption_Length_x_Hashtags)^2")
                ((fst (140, 5) * snd (140, 5))
                 * (fst (140, 5) * snd (140, 5))).
Proof.
  apply (polynomial_terms_coded_exact example_merged 3 (140, 5)).
  - unfold polynomial_ready. repeat split; by_compute.
  - vm_compute. reflexivity.
Defined.

Lemma pow_operand_string (df : frame) (c : string) (r : gmap string cell)
    (s : string) :
  r ∈ rows df -> get_cell r c = StrV s ->
  exists e, pow_operand (map (fun r => get_cell r c) (rows df)) = Raise e
            /\ exn_class e = "TypeError".
Proof.
  intros Hr Hs. unfold pow_operand, as_numeric.
  assert (H : existsb Dummies.is_str (map (fun r => get_cell r c) (rows df))
              = true).
  { apply existsb_exists. exists (StrV s). split; [|reflexivity].
    apply in_map_iff. exists r. split; [exact Hs|].
    apply list_elem_of_In. exact Hr. }
  rewrite H. eexists. split; reflexivity.
Qed.

(** X3.  Step 19 stops before writing anything when a source column
    is missing: without Hashtags it raises [KeyError] at once, and with a
    numeric Hashtags but no Caption_Length it raises [KeyError] after
    Hashtags^2 was computed in memory; in both cases every file is left
    as it was. *)
Theorem polynomial_stage_missing_column (w : world) (df : frame) :
  files w !! merged_file = Some df ->
  "Hashtags" ∉ columns df
  \/ ("Hashtags" ∈ columns df
      /\ existsb Dummies.is_str (column_cells df "Hashtags") = false
      /\ "Caption_Length" ∉ columns df) ->
  exists c w',
    polynomial_stage w = (Raise (KeyError c), w')
    /\ (c ∉ columns df)
    /\ (c = "Hashtags" \/ c = "Caption_Length")
    /\ files w' = files w.
Proof.
  intros Hf [Hh|(Hh & Hs & Hc)].
  - exists "Hashtags". eexists.
    unfold polynomial_stage, bind, read_csv, print, lift.
    rewrite Hf. cbn [files stdout]. unfold add_polynomial_terms.
    rewrite getitem_absent by exact Hh. auto.
  - exists "Caption_Length". eexists.
    unfold polynomial_stage, bind, read_csv, print, lift.
    rewrite Hf. cbn [files stdout]. unfold add_polynomial_terms.
    rewrite getitem_present by exact Hh. cbn [rbind].
    unfold column_cells in Hs.
    destruct (pow_operand_numeric _ Hs) as (h & -> & _ & _). cbn [rbind].
    rewrite getitem_absent.
    + auto.
    + cbn [columns setitem]. rewrite elem_of_add_column.
      intros [H|H]; [contradiction|discriminate].
Qed.

Lemma polynomial_stage_missing_column_witness :
  exists c w',
    polynomial_stage example_world_no_caption = (Raise (KeyError c), w')
    /\ (c ∉ columns example_merged_no_caption)
    /\ (c = "Hashtags" \/ c = "Caption_Length")
    /\ files w' = files example_world_no_caption.
Proof.
  apply (polynomial_stage_missing_column example_world_no_caption
           example_merged_no_caption).
  - reflexivity.
  - right. repeat split; by_compute.
Defined.

(** X4.  When a cell of the Hashtags column of the merged table is a
    string, step 19 raises [TypeError] at the first power and writes no
    file. *)
Theorem polynomial_stage_string_column (w : world) (df : frame)
    (r : gmap string cell) (s : string) :
  files w !! merged_file = Some df ->
  "Hashtags" ∈ columns df ->
  r ∈ rows df -> get_cell r "Hashtags" = StrV s ->
  exists e w', polynomial_stage w = (Raise e, w')
               /\ exn_class e = "TypeError"
               /\ files w' = files w.
Proof.
  intros Hf Hh Hr Hs.
  destruct (pow_operand_string df "Hashtags" r s Hr Hs) as (e & He & Hcls).
  exists e. eexists.
  unfold polynomial_stage, bind, read_csv, print, lift.
  rewrite Hf. cbn [files stdout]. unfold add_polynomial_terms.
  rewrite getitem_present by exact Hh. cbn [rbind]. rewrite He.
  split; [reflexivity|]. split; [exact Hcls|reflexivity].
Qed.

Lemma polynomial_stage_string_column_witness :
  exists e w', polynomial_stage example_world_text = (Raise e, w')
               /\ exn_class e = "TypeError"
               /\ files w' = files example_world_text.
Proof.
  apply (polynomial_stage_string_column example_world_text
           example_merged_text
           (mkrow [("RowID", StrV "Row_0"); ("Caption_Length", IntV 140);
                   ("Hashtags", StrV "many")]) "many").
  - reflexivity.
  - by_compute.
  - left.
  - reflexivity.
Defined.

(** ** Canonical per-post tables (steps 14 and 15) *)

Lemma select_columns_present (df : frame) (cs : list string) :
  (forall c, c ∈ cs -> c ∈ columns df) ->
  select_columns df cs = Ok (Frame cs (map (restrict_row cs) (rows df))).
Proof.
  intros H. unfold select_columns. rewrite find_missing_none by exact H.
  reflexivity.
Qed.

Lemma keyed_row_lookup {A} (f : A -> string) (g : A -> cell) (xs : list A)
    (x0 : A) :
  x0 ∈ xs -> (forall x, x ∈ xs -> f x = f x0 -> g x = g x0) ->
  (list_to_map (map (fun x => (f x, g x)) xs) : gmap string cell) !! f x0
  = Some (g x0).
Proof.
  induction xs as [|x xs IH]; intros Hin Hsame; [inversion Hin|].
  simpl. destruct (decide (f x = f x0)) as [Heq|Hne].
  - rewrite Heq, lookup_insert_eq. f_equal. apply Hsame; [left|exact Heq].
  - rewrite lookup_insert_ne by exact Hne. apply IH.
    + apply elem_of_cons in Hin as [->|Hin]; [contradiction|exact Hin].
    + intros y Hy. apply Hsame. right. exact Hy.
Qed.

Lemma renamed_row_cell (selection : list string)
    (renaming : list (string * string)) (r : gmap string cell)
    (src : string) :
  src ∈ selection ->
  (forall c, c ∈ selection ->
     rename_column renaming c = rename_column renaming src -> c = src) ->
  get_cell (renamed_row selection renaming r) (rename_column renaming src)
  = get_cell r src.
Proof.
  intros Hsrc Hinj. unfold get_cell at 1, renamed_row.
  rewrite (keyed_row_lookup (rename_column renaming)
             (fun c => get_cell (restrict_row selection r) c)
             selection src Hsrc).
  - cbn [default]. apply get_cell_restrict_row. exact Hsrc.
  - intros c Hc Heq. rewrite (Hinj c Hc Heq). reflexivity.
Qed.

(** Steps 14 and 15, run on a file that has the selected columns. *)
Lemma finalize_post_run (input_file : string) (selection : list string)
    (renaming : list (string * string)) (post : Z)
    (prefix output_file : string) (w : world) (df : frame) :
  files w !! input_file = Some df ->
  (forall c, c ∈ selection -> c ∈ columns df) ->
  (forall c, c ∈ final_columns ->
     c ∈ add_column
           (add_column (map (rename_column renaming) selection) "Post")
           "RowID") ->
  exists w',
    finalize_post input_file selection renaming post prefix output_file w
    = (Ok tt, w')
    /\ files w'
       = <["data/" ++ output_file
           := Frame final_columns
                (finalized_rows selection renaming post prefix (rows df))]>
           (files w).
Proof.
  intros Hf Hsel Hfinal. eexists.
  unfold finalize_post, bind, read_csv, lift, to_csv, print.
  rewrite Hf. cbn [files stdout].
  rewrite select_columns_present by exact Hsel. cbn [files stdout].
  unfold rename, setitem_scalar, setitem. cbn [columns rows].
  rewrite !map_map, !length_map.
  rewrite select_columns_present by exact Hfinal. cbn [files stdout rows].
  split; [reflexivity|]. unfold finalized_rows, renamed_row.
  rewrite ?map_map. reflexivity.
Qed.

Lemma finalized_rows_lookup (selection : list string)
    (renaming : list (string * string)) (post : Z) (prefix : string)
    (rs : list (gmap string cell)) (i : nat) (r : gmap string cell) :
  rs !! i = Some r ->
  finalized_rows selection renaming post prefix rs !! i
  = Some (finalized_row selection renaming post prefix i r).
Proof.
  intros Hr. unfold finalized_rows, finalized_row.
  change (map (restrict_row final_columns) ?l)
    with (restrict_row final_columns <$> l).
  rewrite list_lookup_fmap.
  erewrite assign_rows_lookup.
  - reflexivity.
  - change (map ?f rs) with (f <$> rs). rewrite list_lookup_fmap, Hr.
    reflexivity.
  - apply row_ids_lookup. eapply lookup_lt_Some. exact Hr.
Qed.

Lemma finalized_row_keys (selection : list string)
    (renaming : list (string * string)) (post : Z) (prefix : string)
    (i : nat) (r : gmap string cell) :
  get_cell (finalized_row selection renaming post prefix i r) "RowID"
  = StrV (prefix ++ pretty i)
  /\ get_cell (finalized_row selection renaming post prefix i r) "Post"
     = IntV post
  /\ forall c, c ∉ final_columns ->
       finalized_row selection renaming post prefix i r !! c = None.
Proof.
  unfold finalized_row. split; [|split].
  - rewrite get_cell_restrict_row by by_compute. apply get_cell_insert_eq.
  - rewrite get_cell_restrict_row by by_compute.
    rewrite get_cell_insert_ne by discriminate. apply get_cell_insert_eq.
  - intros c Hc. rewrite restrict_row_lookup.
    destruct (decide (c ∈ final_columns)); [contradiction|reflexivity].
Qed.

Lemma finalized_row_field (selection : list string)
    (renaming : list (string * string)) (post : Z) (prefix : string)
    (i : nat) (r : gmap string cell) (src : string) :
  src ∈ selection ->
  (forall c, c ∈ selection ->
     rename_column renaming c = rename_column renaming src -> c = src) ->
  rename_column renaming src ∈ final_columns ->
  rename_column renaming src <> "RowID" ->
  rename_column renaming src <> "Post" ->
  get_cell (finalized_row selection renaming post prefix i r)
           (rename_column renaming src)
  = get_cell r src.
Proof.
  intros Hsrc Hinj Hfin Hid Hpost. unfold finalized_row.
  rewrite get_cell_restrict_row by exact Hfin.
  rewrite !get_cell_insert_ne by congruence.
  apply renamed_row_cell; assumption.
Qed.

(** The renamings of steps 14 and 15 send different selected columns to
    different names. *)
Ltac rename_injective :=
  let c := fresh "c" in let Hc := fresh "Hc" in let Heq := fresh "Heq" in
  intros c Hc Heq; unfold post1_selection, post2_selection in Hc;
  elem_cases Hc; first [reflexivity | vm_compute in Heq; discriminate Heq].

Ltac solve_field :=
  first [by_compute | rename_injective | discriminate].

(** X5.  Step 14, on every mapped Q2 file that has the eleven selected
    columns, writes a table with exactly the twelve canonical columns,
    one row per input row in the same order, keyed Post1_0, Post1_1, ...
    and tagged Post = 1, in which Gender, Age, Occupation, Image Drawn,
    Post Interest and the three possibilities hold the values of SD01,
    SD02_01, SD10, P201, P202, P203, P204 and P205, the two derived
    columns are carried over, and nothing else survives: the attention
    check P206, selected and renamed to Selection Criteria, is not in the
    output. *)
Theorem finalize_post1_canonical (w : world) (df : frame) :
  files w !! post1_input_file = Some df ->
  (forall c, c ∈ post1_selection -> c ∈ columns df) ->
  exists out w',
    finalize_post1 w = (Ok tt, w')
    /\ files w' = <[post1_final_file := out]> (files w)
    /\ columns out = final_columns
    /\ length (rows out) = length (rows df)
    /\ forall i r,
         rows df !! i = Some r ->
         exists r',
           rows out !! i = Some r'
           /\ get_cell r' "RowID" = StrV ("Post1_" ++ pretty i)
           /\ get_cell r' "Post" = IntV 1
           /\ get_cell r' "Gender" = get_cell r "SD01"
           /\ get_cell r' "Age" = get_cell r "SD02_01"
           /\ get_cell r' "Occupation" = get_cell r "SD10"
           /\ get_cell r' "Image Drawn" = get_cell r "P201"
           /\ get_cell r' "Post Interest" = get_cell r "P202"
           /\ get_cell r' "Like Possibility" = get_cell r "P203"
           /\ get_cell r' "Comment Possibility" = get_cell r "P204"
           /\ get_cell r' "Share Possibility" = get_cell r "P205"
           /\ get_cell r' "Caption_Length" = get_cell r "Caption_Length"
           /\ get_cell r' "Hashtags" = get_cell r "Hashtags"
           /\ (forall c, c ∉ final_columns -> r' !! c = None)
           /\ r' !! "Selection Criteria" = None
           /\ r' !! "P206" = None.
Proof.
  intros Hf Hsel.
  destruct (finalize_post_run post1_input_file post1_selection post1_renaming
              1 "Post1_" "Cleaned_Q2_Final_Post1.csv" w df Hf Hsel)
    as (w' & Hrun & Hw).
  { intros c Hc. unfold final_columns in Hc. elem_cases Hc; by_compute. }
  eexists _, w'. split; [exact Hrun|]. split; [exact Hw|].
  split; [reflexivity|]. cbn [rows].
  split.
  { unfold finalized_rows.
    rewrite length_map, length_assign_rows, length_map. reflexivity. }
  intros i r Hr. eexists.
  split; [apply finalized_rows_lookup; exact Hr|].
  destruct (finalized_row_keys post1_selection post1_renaming 1 "Post1_" i r)
    as (Hid & Hpost & Hdom).
  split; [exact Hid|]. split; [exact Hpost|].
  pose (field := fun src => finalized_row_field post1_selection
                              post1_renaming 1 "Post1_" i r src).
  split; [apply (field "SD01"); solve_field|].
  split; [apply (field "SD02_01"); solve_field|].
  split; [apply (field "SD10"); solve_field|].
  split; [apply (field "P201"); solve_field|].
  split; [apply (field "P202"); solve_field|].
  split; [apply (field "P203"); solve_field|].
  split; [apply (field "P204"); solve_field|].
  split; [apply (field "P205"); solve_field|].
  split; [apply (field "Caption_Length"); solve_field|].
  split; [apply (field "Hashtags"); solve_field|].
  split; [exact Hdom|]. split; apply Hdom; by_compute.
Qed.

Lemma finalize_post1_canonical_witness :
  exists out w',
    finalize_post1 example_world_q2_mapped = (Ok tt, w')
    /\ files w' = <[post1_final_file := out]> (files example_world_q2_mapped)
    /\ columns out = final_columns
    /\ length (rows out) = length (rows example_q2_mapped)
    /\ forall i r,
         rows example_q2_mapped !! i = Some r ->
         exists r',
           rows out !! i = Some r'
           /\ get_cell r' "RowID" = StrV ("Post1_" ++ pretty i)
           /\ get_cell r' "Post" = IntV 1
           /\ get_cell r' "Gender" = get_cell r "SD01"
           /\ get_cell r' "Age" = get_cell r "SD02_01"
           /\ get_cell r' "Occupation" = get_cell r "SD10"
           /\ get_cell r' "Image Drawn" = get_cell r "P201"
           /\ get_cell r' "Post Interest" = get_cell r "P202"
           /\ get_cell r' "Like Possibility" = get_cell r "P203"
           /\ get_cell r' "Comment Possibility" = get_cell r "P204"
           /\ get_cell r' "Share Possibility" = get_cell r "P205"
           /\ get_cell r' "Caption_Length" = get_cell r "Caption_Length"
           /\ get_cell r' "Hashtags" = get_cell r "Hashtags"
           /\ (forall c, c ∉ final_columns -> r' !! c = None)
           /\ r' !! "Selection Criteria" = None
           /\ r' !! "P206" = None.
Proof.
  apply (finalize_post1_canonical example_world_q2_mapped example_q2_mapped).
  - reflexivity.
  - intros c Hc. unfold post1_selection in Hc. elem_cases Hc; by_compute.
Defined.



(** X7.  Step 15 does for the Q3 file what step 14 does for the Q2
    file: twelve canonical columns, rows keyed Post2_0, Post2_1, ... and
    tagged Post = 2, with Image Drawn, Post Interest and the three
    possibilities taken from P301 ... P305, and P306 left out. *)
Theorem finalize_post2_canonical (w : world) (df : frame) :
  files w !! post2_input_file = Some df ->
  (forall c, c ∈ post2_selection -> c ∈ columns df) ->
  exists out w',
    finalize_post2 w = (Ok tt, w')
    /\ files w' = <[post2_final_file := out]> (files w)
    /\ columns out = final_columns
    /\ length (rows out) = length (rows df)
    /\ forall i r,
         rows df !! i = Some r ->
         exists r',
           rows out !! i = Some r'
           /\ get_cell r' "RowID" = StrV ("Post2_" ++ pretty i)
           /\ get_cell r' "Post" = IntV 2
           /\ get_cell r' "Gender" = get_cell r "SD01"
           /\ get_cell r' "Age" = get_cell r "SD02_01"
           /\ get_cell r' "Occupation" = get_cell r "SD10"
           /\ get_cell r' "Image Drawn" = get_cell r "P301"
           /\ get_cell r' "Post Interest" = get_cell r "P302"
           /\ get_cell r' "Like Possibility" = get_cell r "P303"
           /\ get_cell r' "Comment Possibility" = get_cell r "P304"
           /\ get_cell r' "Share Possibility" = get_cell r "P305"
           /\ get_cell r' "Caption_Length" = get_cell r "Caption_Length"
           /\ get_cell r' "Hashtags" = get_cell r "Hashtags"
           /\ (forall c, c ∉ final_columns -> r' !! c = None)
           /\ r' !! "Selection Criteria" = None
           /\ r' !! "P306" = None.
Proof.
  intros Hf Hsel.
  destruct (finalize_post_run post2_input_file post2_selection post2_renaming
              2 "Post2_" "Cleaned_Q3_Final_Post2.csv" w df Hf Hsel)
    as (w' & Hrun & Hw).
  { intros c Hc. unfold final_columns in Hc. elem_cases Hc; by_compute. }
  eexists _, w'. split; [exact Hrun|]. split; [exact Hw|].
  split; [reflexivity|]. cbn [rows].
  split.
  { unfold finalized_rows.
    rewrite length_map, length_assign_rows, length_map. reflexivity. }
  intros i r Hr. eexists.
  split; [apply finalized_rows_lookup; exact Hr|].
  destruct (finalized_row_keys post2_selection post2_renaming 2 "Post2_" i r)
    as (Hid & Hpost & Hdom).
  split; [exact Hid|]. split; [exact Hpost|].
  pose (field := fun src => finalized_row_field post2_selection
                              post2_renaming 2 "Post2_" i r src).
  split; [apply (field "SD01"); solve_field|].
  split; [apply (field "SD02_01"); solve_field|].
  split; [apply (field "SD10"); solve_field|].
  split; [apply (field "P301"); solve_field|].
  split; [apply (field "P302"); solve_field|].
  split; [apply (field "P303"); solve_field|].
  split; [apply (field "P304"); solve_field|].
  split; [apply (field "P305"); solve_field|].
  split; [apply (field "Caption_Length"); solve_field|].
  split; [apply (field "Hashtags"); solve_field|].
  split; [exact Hdom|]. split; apply Hdom; by_compute.
Qed.

Lemma finalize_post2_canonical_witness :
  exists out w',
    finalize_post2 example_world_q3_mapped = (Ok tt, w')
    /\ files w' = <[post2_final_file := out]> (files example_world_q3_mapped)
    /\ columns out = final_columns
    /\ length (rows out) = length (rows example_q3_mapped)
    /\ forall i r,
         rows example_q3_mapped !! i = Some r ->
         exists r',
           rows out !! i = Some r'
           /\ get_cell r' "RowID" = StrV ("Post2_" ++ pretty i)
           /\ get_cell r' "Post" = IntV 2
           /\ get_cell r' "Gender" = get_cell r "SD01"
           /\ get_cell r' "Age" = get_cell r "SD02_01"
           /\ get_cell r' "Occupation" = get_cell r "SD10"
           /\ get_cell r' "Image Drawn" = get_cell r "P301"
           /\ get_cell r' "Post Interest" = get_cell r "P302"
           /\ get_cell r' "Like Possibility" = get_cell r "P303"
           /\ get_cell r' "Comment Possibility" = get_cell r "P304"
           /\ get_cell r' "Share Possibility" = get_cell r "P305"
           /\ get_cell r' "Caption_Length" = get_cell r "Caption_Length"
           /\ get_cell r' "Hashtags" = get_cell r "Hashtags"
           /\ (forall c, c ∉ final_columns -> r' !! c = None)
           /\ r' !! "Selection Criteria" = None
           /\ r' !! "P306" = None.
Proof.
  apply (finalize_post2_canonical example_world_q3_mapped example_q3_mapped).
  - reflexivity.
  - intros c Hc. unfold post2_selection in Hc. elem_cases Hc; by_compute.
Defined.

(** ** From the per-post tables to the merge *)

Lemma bind_ok_inv {A B} (m : script A) (k : A -> script B) (w w' : world)
    (b : B) :
  (m >>= k) w = (Ok b, w') ->
  exists a w1, m w = (Ok a, w1) /\ k a w1 = (Ok b, w').
Proof.
  unfold bind. destruct (m w) as [[a|e] w1]; intros H.
  - eauto.
  - discriminate H.
Qed.

Lemma select_columns_ok_columns (df df' : frame) (cs : list string) :
  select_columns df cs = Ok df' -> columns df' = cs.
Proof.
  unfold select_columns. destruct (List.find _ cs); [discriminate|].
  intros [= <-]. reflexivity.
Qed.

Lemma finalize_post_ok_inv (input_file : string) (selection : list string)
    (renaming : list (string * string)) (post : Z)
    (prefix output_file : string) (w w' : world) :
  finalize_post input_file selection renaming post prefix output_file w
  = (Ok tt, w') ->
  exists out, files w' = <["data/" ++ output_file := out]> (files w)
              /\ columns out = final_columns.
Proof.
  unfold finalize_post, bind, read_csv, lift, to_csv, print.
  destruct (files w !! input_file) as [df|]; [|discriminate].
  destruct (select_columns df selection) as [df1|]; [|discriminate].
  destruct (select_columns _ final_columns) as [df2|] eqn:Hsel;
    [|discriminate].
  cbn [files stdout]. intros [= <-]. exists df2.
  split; [reflexivity|]. eapply select_columns_ok_columns. exact Hsel.
Qed.

Lemma add_engagement_score_ok_columns (df df' : frame) :
  add_engagement_score df = Ok df' ->
  columns df' = add_column (columns df) score_column.
Proof.
  unfold add_engagement_score.
  destruct (getitem df "Like Possibility"); [|discriminate]. cbn [rbind].
  destruct (series_mul _ weight_like); [|discriminate]. cbn [rbind].
  destruct (getitem df "Comment Possibility"); [|discriminate]. cbn [rbind].
  destruct (series_mul _ weight_comment); [|discriminate]. cbn [rbind].
  destruct (getitem df "Share Possibility"); [|discriminate]. cbn [rbind].
  destruct (series_mul _ weight_share); [|discriminate]. cbn [rbind].
  intros [= <-]. cbn [columns setitem]. apply add_column_idem.
Qed.

Lemma engagement_stage_ok_inv (input_file output_file : string)
    (w w' : world) :
  engagement_stage input_file output_file w = (Ok tt, w') ->
  exists df df',
    files w !! input_file = Some df
    /\ add_engagement_score df = Ok df'
    /\ files w' = <["data/" ++ output_file := df']> (files w).
Proof.
  unfold engagement_stage, bind, read_csv, lift, to_csv, print.
  destruct (files w !! input_file) as [df|]; [|discriminate].
  destruct (add_engagement_score df) as [df'|] eqn:Hs; [|discriminate].
  cbn [files stdout]. intros [= <-]. exists df, df'. auto.
Qed.

Lemma merge_stage_run (w : world) (df1 df2 : frame) :
  files w !! file1 = Some df1 -> files w !! file2 = Some df2 ->
  columns df1 = columns df2 ->
  exists w', merge_stage w = (Ok tt, w')
    /\ files w'
       = <[merged_file := Frame (merged_columns df1) (merged_rows df1 df2)]>
           (files w).
Proof.
  intros H1 H2 Hcols. eexists.
  unfold merge_stage, bind, read_csv, print, raise, lift, to_csv.
  rewrite H1. cbn [files stdout]. rewrite H2. cbn [files stdout].
  rewrite bool_decide_eq_true_2 by exact Hcols.
  rewrite merge_frames_ok by exact Hcols. cbn [files stdout].
  split; reflexivity.
Qed.

(** X8.  Whenever steps 14 to 17 run to the end, the two scored files
    they leave have the same header, the twelve canonical columns
    followed by the score, so step 18 then finds its columns identical
    and writes the merged file with that header: the column-mismatch
    error of step 18 cannot occur behind steps 14 to 17. *)
Theorem merge_after_scoring_succeeds (w w1 : world) :
  steps_14_to_17 w = (Ok tt, w1) ->
  exists df1 df2 out w2,
    files w1 !! file1 = Some df1
    /\ files w1 !! file2 = Some df2
    /\ columns df1 = scored_columns
    /\ columns df2 = scored_columns
    /\ merge_stage w1 = (Ok tt, w2)
    /\ files w2 = <[merged_file := out]> (files w1)
    /\ columns out = scored_columns
    /\ length (rows out) = (length (rows df1) + length (rows df2))%nat.
Proof.
  unfold steps_14_to_17. intros H.
  apply bind_ok_inv in H as ([] & wa & Ha & H).
  apply bind_ok_inv in H as ([] & wb & Hb & H).
  apply bind_ok_inv in H as ([] & wc & Hc & Hd).
  apply finalize_post_ok_inv in Ha as (A1 & Hfa & HA1).
  apply finalize_post_ok_inv in Hb as (A2 & Hfb & HA2).
  apply engagement_stage_ok_inv in Hc as (a1 & B1 & Hr1 & Hs1 & Hfc).
  apply engagement_stage_ok_inv in Hd as (a2 & B2 & Hr2 & Hs2 & Hfd).
  rewrite Hfb, Hfa in Hr1.
  rewrite lookup_insert_ne, lookup_insert_eq in Hr1 by discriminate.
  injection Hr1 as <-.
  rewrite Hfc, Hfb in Hr2.
  rewrite lookup_insert_ne, lookup_insert_eq in Hr2 by discriminate.
  injection Hr2 as <-.
  apply add_engagement_score_ok_columns in Hs1, Hs2.
  rewrite HA1 in Hs1. rewrite HA2 in Hs2.
  assert (H1 : files w1 !! file1 = Some B1).
  { rewrite Hfd, lookup_insert_ne by discriminate. rewrite Hfc.
    apply lookup_insert_eq. }
  assert (H2 : files w1 !! file2 = Some B2).
  { rewrite Hfd. apply lookup_insert_eq. }
  destruct (merge_stage_run w1 B1 B2 H1 H2) as (w2 & Hrun & Hw2);
    [congruence|].
  exists B1, B2. eexists _, w2.
  split; [exact H1|]. split; [exact H2|].
  split; [exact Hs1|]. split; [exact Hs2|].
  split; [exact Hrun|]. split; [exact Hw2|].
  split.
  - cbn [columns]. unfold merged_columns. rewrite Hs1. reflexivity.
  - apply length_merged_rows.
Qed.

Lemma merge_after_scoring_succeeds_witness :
  exists df1 df2 out w2,
    files example_world_scored !! file1 = Some df1
    /\ files example_world_scored !! file2 = Some df2
    /\ columns df1 = scored_columns
    /\ columns df2 = scored_columns
    /\ merge_stage example_world_scored = (Ok tt, w2)
    /\ files w2 = <[merged_file := out]> (files example_world_scored)
    /\ columns out = scored_columns
    /\ length (rows out) = (length (rows df1) + length (rows df2))%nat.
Proof.
  apply (merge_after_scoring_succeeds example_world_both_mapped
           example_world_scored).
  unfold example_world_scored.
  rewrite (surjective_pairing (steps_14_to_17 example_world_both_mapped))
    at 1.
  f_equal.
Defined.

(** ** More on the score stage *)

Lemma row_score_scored (r : gmap string cell) (v : cell) :
  row_score (<[score_column := v]> r) = row_score r.
Proof.
  unfold row_score. rewrite !get_cell_insert_ne by discriminate. reflexivity.
Qed.

Lemma scored_frame_scorable (df : frame) :
  scorable df -> scorable (scored_frame df).
Proof.
  intros (Hl & Hc & Hs & Hall). unfold scorable, scored_frame.
  cbn [columns rows].
  repeat split; try (apply elem_of_add_column; left; assumption).
  apply Forall_forall. intros r' Hr'.
  apply list_elem_of_In, in_map_iff in Hr' as (r & <- & Hr).
  rewrite !get_cell_insert_ne by discriminate.
  rewrite Forall_forall in Hall. apply Hall, list_elem_of_In, Hr.
Qed.

Lemma scored_frame_idem (df : frame) :
  scored_frame (scored_frame df) = scored_frame df.
Proof.
  unfold scored_frame. cbn [columns rows]. f_equal.
  - apply add_column_idem.
  - rewrite map_map. apply map_ext. intros r.
    rewrite row_score_scored. apply insert_insert_eq.
Qed.

(** X9.  On every record set the score stage accepts, the stage adds
    the score column (last, when the table had none) and changes no
    other cell, and running it again on its own output returns that
    output unchanged: the score is computed from the three items only,
    never from an earlier score. *)
Theorem engagement_score_recompute (df : frame) :
  scorable df ->
  exists df',
    add_engagement_score df = Ok df'
    /\ add_engagement_score df' = Ok df'
    /\ columns df' = add_column (columns df) score_column
    /\ length (rows df') = length (rows df)
    /\ forall i r,
         rows df !! i = Some r ->
         exists r', rows df' !! i = Some r'
                    /\ forall c, c <> score_column -> r' !! c = r !! c.
Proof.
  intros Hdf. exists (scored_frame df).
  split; [apply add_engagement_score_run; exact Hdf|].
  split.
  { rewrite add_engagement_score_run by (apply scored_frame_scorable, Hdf).
    rewrite scored_frame_idem. reflexivity. }
  split; [reflexivity|]. split; [apply length_map|].
  intros i r Hr. eexists. split; [apply scored_frame_lookup; exact Hr|].
  intros c Hc. apply lookup_insert_ne. congruence.
Qed.

Lemma engagement_score_recompute_witness :
  exists df',
    add_engagement_score example_final_post1 = Ok df'
    /\ add_engagement_score df' = Ok df'
    /\ columns df' = add_column (columns example_final_post1) score_column
    /\ length (rows df') = length (rows example_final_post1)
    /\ forall i r,
         rows example_final_post1 !! i = Some r ->
         exists r', rows df' !! i = Some r'
                    /\ forall c, c <> score_column -> r' !! c = r !! c.
Proof.
  apply (engagement_score_recompute example_final_post1).
  unfold scorable. repeat split; by_compute.
Defined.

Lemma series_map_raise_inv {A B} (f : A -> result B) (xs : list A) (e : exn) :
  series_map f xs = Raise e -> exists x, In x xs /\ f x = Raise e.
Proof.
  induction xs as [|x xs IH]; simpl; [discriminate|].
  destruct (f x) as [y|e'] eqn:Hx; simpl.
  - destruct (series_map f xs) as [ys|e'']; simpl; [discriminate|].
    intros [= <-]. destruct (IH eq_refl) as (x' & Hin & Hx').
    exists x'. auto.
  - intros [= <-]. exists x. auto.
Qed.

Lemma series_map_ok_inv {A B} (f : A -> result B) (xs : list A) (ys : list B) :
  series_map f xs = Ok ys -> forall x, In x xs -> exists y, f x = Ok y.
Proof.
  revert ys. induction xs as [|x xs IH]; simpl; intros ys H x0 Hin;
    [contradiction|].
  destruct (f x) as [y|] eqn:Hx; [|discriminate]. simpl in H.
  destruct (series_map f xs) as [ys'|]; [|discriminate].
  destruct Hin as [<-|Hin]; [eauto|]. eapply IH; [reflexivity|exact Hin].
Qed.

Lemma series_mul_raise_class (s : list cell) (w : float) (e : exn) :
  series_mul s w = Raise e -> exn_class e = "TypeError".
Proof.
  intros H. apply series_map_raise_inv in H as (c & _ & Hc).
  destruct c; simpl in Hc; try discriminate. injection Hc as <-.
  reflexivity.
Qed.

Lemma series_mul_string (s : list cell) (w : float) (t : string) :
  In (StrV t) s -> exists e, series_mul s w = Raise e
                             /\ exn_class e = "TypeError".
Proof.
  intros Hin. destruct (series_mul s w) as [l|e] eqn:Hm.
  - destruct (series_map_ok_inv _ _ _ Hm _ Hin) as (y & Hy).
    simpl in Hy. discriminate Hy.
  - exists e. split; [reflexivity|]. eapply series_mul_raise_class, Hm.
Qed.

(** X10.  When the three items are columns of the per-post file but one
    of them holds a string in some row, the score stage raises
    [TypeError], whichever item it is, and writes no file. *)
Theorem engagement_stage_rejects_text (input_file output_file : string)
    (w : world) (df : frame) (r : gmap string cell) (c t : string) :
  files w !! input_file = Some df ->
  (forall x, x ∈ score_items -> x ∈ columns df) ->
  r ∈ rows df -> c ∈ score_items -> get_cell r c = StrV t ->
  exists e w',
    engagement_stage input_file output_file w = (Raise e, w')
    /\ exn_class e = "TypeError"
    /\ files w' = files w /\ stdout w' = stdout w.
Proof.
  intros Hf Hcols Hr Hc Ht.
  assert (Hcell : In (StrV t) (map (fun r => get_cell r c) (rows df))).
  { apply in_map_iff. exists r. split; [exact Ht|].
    apply list_elem_of_In. exact Hr. }
  assert (Hrun : exists e, add_engagement_score df = Raise e
                           /\ exn_class e = "TypeError").
  { unfold add_engagement_score.
    rewrite (getitem_present df "Like Possibility")
      by (apply Hcols; by_compute).
    cbn [rbind].
    destruct (series_mul _ weight_like) as [a|e] eqn:Ha;
      [|exists e; split; [reflexivity|eapply series_mul_raise_class, Ha]].
    cbn [rbind].
    rewrite (getitem_present df "Comment Possibility")
      by (apply Hcols; by_compute).
    cbn [rbind].
    destruct (series_mul _ weight_comment) as [b|e] eqn:Hb;
      [|exists e; split; [reflexivity|eapply series_mul_raise_class, Hb]].
    cbn [rbind].
    rewrite (getitem_present df "Share Possibility")
      by (apply Hcols; by_compute).
    cbn [rbind].
    destruct (series_mul _ weight_share) as [c0|e] eqn:Hc0;
      [|exists e; split; [reflexivity|eapply series_mul_raise_class, Hc0]].
    exfalso. unfold score_items in Hc. elem_cases Hc.
    - destruct (series_mul_string _ weight_like t Hcell) as (e & He & _).
      congruence.
    - destruct (series_mul_string _ weight_comment t Hcell) as (e & He & _).
      congruence.
    - destruct (series_mul_string _ weight_share t Hcell) as (e & He & _).
      congruence. }
  destruct Hrun as (e & He & Hcls). exists e. eexists.
  unfold engagement_stage, bind, read_csv, lift. rewrite Hf, He. auto.
Qed.

Lemma engagement_stage_rejects_text_witness :
  exists e w',
    engagement_stage post1_final_file
      "Cleaned_Q2_Post1_WithEngagementScore.csv" example_world_final_text
    = (Raise e, w')
    /\ exn_class e = "TypeError"
    /\ files w' = files example_world_final_text
    /\ stdout w' = stdout example_world_final_text.
Proof.
  apply (engagement_stage_rejects_text post1_final_file
           "Cleaned_Q2_Post1_WithEngagementScore.csv"
           example_world_final_text example_final_text
           (mkrow [("RowID", StrV "Post1_0"); ("Like Possibility", IntV 4);
                   ("Comment Possibility", StrV "often");
                   ("Share Possibility", IntV 5)])
           "Comment Possibility" "often").
  - reflexivity.
  - intros x Hx. unfold score_items in Hx. elem_cases Hx; by_compute.
  - left.
  - by_compute.
  - reflexivity.
Defined.

Lemma forallb4_forall {A} (f : A -> A -> A -> A -> bool) (xs : list A) :
  forallb4 f xs = true ->
  forall a b c d, In a xs -> In b xs -> In c xs -> In d xs ->
                  f a b c d = true.
Proof.
  unfold forallb4. intros H a b c d Ha Hb Hc Hd.
  rewrite forallb_forall in H.
  exact (forallb3_forall (f a) xs (H a Ha) b c d Hb Hc Hd).
Qed.

Lemma score_increases_checked : forallb4 score_increases answer_codes = true.
Proof. vm_compute. reflexivity. Qed.

Lemma answer_code_in (z : Z) : 0 <= z <= 10 -> In z answer_codes.
Proof.
  intros Hz. unfold answer_codes. apply in_map_iff.
  exists (Z.to_nat z). split; [lia|]. apply in_seq. lia.
Qed.

(** X11.  For answers coded 0 to 10, raising any one of the three items
    while the other two stay as they are strictly raises the Engagement
    Intention Score: rounding to two decimals never merges or reverses
    two such scores. *)
Theorem engagement_score_increasing (x x' y z : Z) :
  0 <= x <= 10 -> 0 <= x' <= 10 -> 0 <= y <= 10 -> 0 <= z <= 10 ->
  x < x' ->
  PrimFloat.ltb
    (engagement_score (float_of_Z x) (float_of_Z y) (float_of_Z z))
    (engagement_score (float_of_Z x') (float_of_Z y) (float_of_Z z)) = true
  /\ PrimFloat.ltb
       (engagement_score (float_of_Z y) (float_of_Z x) (float_of_Z z))
       (engagement_score (float_of_Z y) (float_of_Z x') (float_of_Z z)) = true
  /\ PrimFloat.ltb
       (engagement_score (float_of_Z y) (float_of_Z z) (float_of_Z x))
       (engagement_score (float_of_Z y) (float_of_Z z) (float_of_Z x')) = true.
Proof.
  intros Hx Hx' Hy Hz Hlt.
  pose proof (forallb4_forall score_increases answer_codes
                score_increases_checked x x' y z
                (answer_code_in x Hx) (answer_code_in x' Hx')
                (answer_code_in y Hy) (answer_code_in z Hz)) as H.
  unfold score_increases in H.
  apply Z.ltb_lt in Hlt. rewrite Hlt in H. cbn [implb] in H.
  apply andb_true_iff in H as [H H3]. apply andb_true_iff in H as [H1 H2].
  auto.
Qed.

Lemma engagement_score_increasing_witness :
  PrimFloat.ltb
    (engagement_score (float_of_Z 3) (float_of_Z 3) (float_of_Z 5))
    (engagement_score (float_of_Z 4) (float_of_Z 3) (float_of_Z 5)) = true
  /\ PrimFloat.ltb
       (engagement_score (float_of_Z 3) (float_of_Z 3) (float_of_Z 5))
       (engagement_score (float_of_Z 3) (float_of_Z 4) (float_of_Z 5)) = true
  /\ PrimFloat.ltb
       (engagement_score (float_of_Z 3) (float_of_Z 5) (float_of_Z 3))
       (engagement_score (float_of_Z 3) (float_of_Z 5) (float_of_Z 4)) = true.
Proof.
  apply (engagement_score_increasing 3 4 3 5); lia.
Defined.

(** ** More on the coding-scheme mapper *)

Lemma init_row_post_info_row (post_col : string) (r : gmap string cell) :
  init_row (post_info_row post_col r) = init_row r.
Proof.
  apply map_eq. intros c. unfold init_row.
  destruct (decide (c = "Hashtags")) as [->|Hh];
    [rewrite !lookup_insert_eq; reflexivity|].
  rewrite !(lookup_insert_ne _ "Hashtags") by congruence.
  destruct (decide (c = "Caption_Length")) as [->|Hc];
    [rewrite !lookup_insert_eq; reflexivity|].
  rewrite !(lookup_insert_ne _ "Caption_Length") by congruence.
  apply post_info_row_other; assumption.
Qed.

Lemma post_info_row_idem (post_col : string) (r : gmap string cell) :
  post_info_row post_col (post_info_row post_col r) = post_info_row post_col r.
Proof.
  unfold post_info_row at 1. rewrite init_row_post_info_row. reflexivity.
Qed.

Lemma post_info_frame_idem (df : frame) (post_col : string) :
  post_info_frame (post_info_frame df post_col) post_col
  = post_info_frame df post_col.
Proof.
  unfold post_info_frame. cbn [columns rows]. f_equal.
  - rewrite (add_column_present _ "Caption_Length")
      by apply caption_length_in_post_info.
    apply add_column_present, hashtags_in_post_info.
  - rewrite map_map. apply map_ext. intros r. apply post_info_row_idem.
Qed.

(** X12.  Mapping a table that is already mapped changes nothing: on
    the output of [add_post_info], a second call with the same post-code
    column returns the same record set, with the two derived columns
    overwritten in place rather than added again, and rewrites the same
    file. *)
Theorem add_post_info_again (df : frame) (post_col output_file : string)
    (w : world) :
  post_col ∈ columns df ->
  exists df' w' w'',
    add_post_info df post_col output_file w = (Ok df', w')
    /\ add_post_info df' post_col output_file w' = (Ok df', w'')
    /\ files w'' = files w'
    /\ "Caption_Length" ∈ columns df' /\ "Hashtags" ∈ columns df'
    /\ (length (columns df') <= length (columns df) + 2)%nat.
Proof.
  intros Hpost.
  pose proof (post_col_in_post_info df post_col Hpost) as Hpost'.
  exists (post_info_frame df post_col). eexists _, _.
  split; [apply add_post_info_run; exact Hpost'|].
  split.
  { rewrite add_post_info_run.
    - rewrite post_info_frame_idem. reflexivity.
    - apply post_col_in_post_info. exact Hpost'. }
  cbn [files]. split; [apply insert_insert_eq|].
  split; [apply caption_length_in_post_info|].
  split; [apply hashtags_in_post_info|].
  cbn [columns post_info_frame]. unfold add_column.
  repeat destruct (bool_decide _); rewrite ?length_app; simpl; lia.
Qed.

Lemma add_post_info_again_witness :
  exists df' w' w'',
    add_post_info example_q2 "P201" "Cleaned_Q2_withPostInfo.csv"
      example_world_empty = (Ok df', w')
    /\ add_post_info df' "P201" "Cleaned_Q2_withPostInfo.csv" w' = (Ok df', w'')
    /\ files w'' = files w'
    /\ "Caption_Length" ∈ columns df' /\ "Hashtags" ∈ columns df'
    /\ (length (columns df') <= length (columns example_q2) + 2)%nat.
Proof.
  apply (add_post_info_again example_q2 "P201" "Cleaned_Q2_withPostInfo.csv"
           example_world_empty).
  by_compute.
Defined.

(** X13.  When the record set has no column of the given post-code name
    (and the name is not that of a derived column, which the function
    creates itself), [add_post_info] raises [KeyError] for that name and
    has no effect at all: no file is written and nothing is printed. *)
Theorem add_post_info_missing_column (df : frame)
    (post_col output_file : string) (w : world) :
  post_col ∉ columns df ->
  post_col <> "Caption_Length" -> post_col <> "Hashtags" ->
  add_post_info df post_col output_file w = (Raise (KeyError post_col), w).
Proof.
  intros Hn H1 H2. unfold add_post_info, bind, lift.
  rewrite getitem_absent; [reflexivity|].
  cbn [columns setitem_scalar]. rewrite !elem_of_add_column.
  intros [[H|H]|H]; [contradiction|congruence|congruence].
Qed.

Lemma add_post_info_missing_column_witness :
  add_post_info example_q2 "P301" "Cleaned_Q3_withPostInfo.csv"
    example_world_empty
  = (Raise (KeyError "P301"), example_world_empty).
Proof.
  apply (add_post_info_missing_column example_q2 "P301"
           "Cleaned_Q3_withPostInfo.csv" example_world_empty).
  - by_compute.
  - discriminate.
  - discriminate.
Defined.

(** ** More on the inclusion filters *)

Lemma filter_filter_comm {A} (f g : A -> bool) (xs : list A) :
  List.filter g (List.filter f xs) = List.filter f (List.filter g xs).
Proof.
  rewrite !filter_filter_andb. apply List.filter_ext. intros x.
  apply andb_comm.
Qed.

Lemma filter_idem {A} (f : A -> bool) (xs : list A) :
  List.filter f (List.filter f xs) = List.filter f xs.
Proof.
  rewrite filter_filter_andb. apply List.filter_ext. intros x.
  apply andb_diag.
Qed.

(** X14.  Inclusion filters over fields the record set has can be
    applied in either order with the same result, and applying one a
    second time changes nothing; steps 8 and 9 could test the interest
    item before the attention check and keep the same rows. *)
Theorem inclusion_filters_commute (p q : predicate) (df : frame) :
  (forall c, c ∈ fields p -> c ∈ columns df) ->
  (forall c, c ∈ fields q -> c ∈ columns df) ->
  apply_filter (PAnd p q) df = apply_filter (PAnd q p) df
  /\ rbind (apply_filter p df) (apply_filter p) = apply_filter p df
  /\ exists df', apply_filter (PAnd p q) df = Ok df'
                 /\ rows df' = List.filter (holds q)
                                 (List.filter (holds p) (rows df)).
Proof.
  intros Hp Hq.
  assert (Hpq : forall c, c ∈ fields (PAnd p q) -> c ∈ columns df).
  { intros c Hc. simpl in Hc. apply elem_of_app in Hc as [Hc|Hc]; auto. }
  assert (Hqp : forall c, c ∈ fields (PAnd q p) -> c ∈ columns df).
  { intros c Hc. simpl in Hc. apply elem_of_app in Hc as [Hc|Hc]; auto. }
  split; [|split].
  - rewrite !apply_filter_filter by assumption. f_equal. f_equal.
    simpl. apply List.filter_ext. intros r. apply andb_comm.
  - rewrite (apply_filter_filter p df Hp). cbn [rbind].
    rewrite apply_filter_filter by (cbn [columns]; exact Hp).
    cbn [columns rows]. rewrite filter_idem. reflexivity.
  - eexists. split; [apply apply_filter_filter; exact Hpq|].
    cbn [rows]. simpl. rewrite filter_filter_andb. reflexivity.
Qed.

Lemma inclusion_filters_commute_witness :
  apply_filter (PAnd (PEq "P206" 3) (PIsin "P202" [3; 4; 5])) example_q2
  = apply_filter (PAnd (PIsin "P202" [3; 4; 5]) (PEq "P206" 3)) example_q2
  /\ rbind (apply_filter (PEq "P206" 3) example_q2)
           (apply_filter (PEq "P206" 3))
     = apply_filter (PEq "P206" 3) example_q2
  /\ exists df',
       apply_filter (PAnd (PEq "P206" 3) (PIsin "P202" [3; 4; 5])) example_q2
       = Ok df'
       /\ rows df' = List.filter (holds (PIsin "P202" [3; 4; 5]))
                       (List.filter (holds (PEq "P206" 3)) (rows example_q2)).
Proof.
  apply (inclusion_filters_commute (PEq "P206" 3) (PIsin "P202" [3; 4; 5])
           example_q2).
  - intros c Hc. simpl in Hc. elem_cases Hc; by_compute.
  - intros c Hc. simpl in Hc. elem_cases Hc; by_compute.
Defined.

Lemma apply_filter_columns (p : predicate) (df df' : frame) :
  apply_filter p df = Ok df' -> columns df' = columns df.
Proof.
  revert df df'. induction p as [c k|c ks|p IHp q IHq]; intros df df'; simpl.
  - unfold filter_eq. destruct (getitem df c); [|discriminate].
    intros [= <-]. reflexivity.
  - unfold filter_isin. destruct (getitem df c); [|discriminate].
    intros [= <-]. reflexivity.
  - destruct (apply_filter p df) as [d|] eqn:Hd; [|discriminate].
    cbn [rbind]. intros H. rewrite (IHq _ _ H). apply (IHp _ _ Hd).
Qed.

Lemma inclusion_filter_missing_field_aux (p : predicate) (df : frame)
    (c : string) :
  c ∈ fields p -> c ∉ columns df ->
  exists c', apply_filter p df = Raise (KeyError c')
             /\ c' ∈ fields p /\ (c' ∉ columns df).
Proof.
  revert c df. induction p as [c0 k|c0 ks|p IHp q IHq]; intros c df Hc Hn.
  - simpl in Hc. apply list_elem_of_singleton in Hc as ->.
    exists c0. simpl. unfold filter_eq. rewrite getitem_absent by exact Hn.
    split; [reflexivity|]. split; [left|exact Hn].
  - simpl in Hc. apply list_elem_of_singleton in Hc as ->.
    exists c0. simpl. unfold filter_isin. rewrite getitem_absent by exact Hn.
    split; [reflexivity|]. split; [left|exact Hn].
  - simpl. simpl in Hc.
    destruct (apply_filter p df) as [d|e] eqn:Hd.
    + cbn [rbind].
      assert (Hq : c ∈ fields q).
      { apply elem_of_app in Hc as [Hc|Hc]; [|exact Hc].
        destruct (IHp c df Hc Hn) as (c' & Hr & _). congruence. }
      pose proof (apply_filter_columns p df d Hd) as Hcols.
      destruct (IHq c d Hq) as (c' & Hr & Hc' & Hn').
      { rewrite Hcols. exact Hn. }
      exists c'. split; [exact Hr|]. split.
      * apply elem_of_app. right. exact Hc'.
      * rewrite <- Hcols. exact Hn'.
    + cbn [rbind].
      destruct (decide (Forall (fun x => x ∈ columns df) (fields p)))
        as [Hall|Hnot].
      * rewrite apply_filter_filter in Hd; [discriminate|].
        intros x Hx. rewrite Forall_forall in Hall. apply Hall. exact Hx.
      * apply not_Forall_Exists in Hnot; [|intros x; apply _].
        apply Exists_exists in Hnot as (x & Hx & Hxn).
        destruct (IHp x df Hx Hxn) as (c' & Hr & Hc' & Hn').
        exists c'. split; [congruence|]. split; [|exact Hn'].
        apply elem_of_app. left. exact Hc'.
Qed.

(** X15.  A filter on a field the record set lacks returns no rows at
    all: it raises [KeyError] for a field of the predicate that is not a
    column, and it succeeds only when every field of the predicate is a
    column. *)
Theorem inclusion_filter_missing_field (p : predicate) (df : frame)
    (c : string) :
  c ∈ fields p -> c ∉ columns df ->
  exists c', apply_filter p df = Raise (KeyError c')
             /\ c' ∈ fields p /\ (c' ∉ columns df).
Proof. apply inclusion_filter_missing_field_aux. Qed.

Lemma inclusion_filter_missing_field_witness :
  exists c', apply_filter (PAnd (PEq "P306" 1) (PIsin "P302" [3; 4; 5]))
               example_q2 = Raise (KeyError c')
             /\ c' ∈ fields (PAnd (PEq "P306" 1) (PIsin "P302" [3; 4; 5]))
             /\ (c' ∉ columns example_q2).
Proof.
  apply (inclusion_filter_missing_field
           (PAnd (PEq "P306" 1) (PIsin "P302" [3; 4; 5])) example_q2 "P302").
  - by_compute.
  - by_compute.
Defined.

(** ** The two question blocks kept apart (steps 6 to 9) *)

Lemma filter_map_comm {A B} (f : B -> bool) (g : A -> B) (xs : list A) :
  List.filter f (map g xs) = map g (List.filter (fun x => f (g x)) xs).
Proof.
  induction xs as [|x xs IH]; simpl; [reflexivity|].
  destruct (f (g x)); simpl; rewrite IH; reflexivity.
Qed.




Lemma drop_then_filter_dropped (p : predicate) (cs : list string)
    (df : frame) (c : string) :
  c ∈ fields p -> c ∈ cs ->
  exists c', rbind (drop df cs ErrorsIgnore) (apply_filter p)
             = Raise (KeyError c')
             /\ c' ∈ fields p.
Proof.
  intros Hc Hcs. rewrite drop_ignore_ok. cbn [rbind].
  destruct (inclusion_filter_missing_field_aux p (drop_columns df cs) c Hc)
    as (c' & Hr & Hc' & _).
  - cbn [columns drop_columns]. rewrite list_elem_of_In, List.filter_In.
    intros [_ H]. rewrite bool_decide_eq_true_2 in H by exact Hcs.
    discriminate H.
  - exists c'. auto.
Qed.




(** ** Row keys *)

Lemma row_id_inj (prefix : string) (i j : nat) :
  StrV (prefix ++ pretty i) = StrV (prefix ++ pretty j) -> i = j.
Proof.
  intros [= H]. apply (inj (String.app prefix)) in H.
  apply (inj pretty) in H. exact H.
Qed.

Lemma merged_rows_key (df1 df2 : frame) (i : nat) (r : gmap string cell) :
  merged_rows df1 df2 !! i = Some r ->
  get_cell r "RowID" = StrV ("Row_" ++ pretty i).
Proof.
  intros Hr.
  assert (Hi : (i < length (rows df1 ++ rows df2))%nat).
  { apply lookup_lt_Some in Hr. rewrite length_merged_rows in Hr.
    rewrite length_app. exact Hr. }
  destruct (lookup_lt_is_Some_2 _ _ Hi) as [r0 Hr0].
  destruct (merged_rows_lookup df1 df2 i r0 Hr0) as (r' & Hr' & Hid & _).
  congruence.
Qed.

(** X17.  In the merged file no two rows share a RowID: the keys Row_0,
    Row_1, ... written by step 18 are pairwise different, whatever keys
    the two inputs carried (the Post1_ and Post2_ keys of steps 14 and
    15, which can never coincide with one another either). *)
Theorem merged_row_ids_unique (w : world) (df1 df2 : frame) :
  files w !! file1 = Some df1 -> files w !! file2 = Some df2 ->
  columns df1 = columns df2 ->
  exists out w',
    merge_stage w = (Ok tt, w')
    /\ files w' !! merged_file = Some out
    /\ (forall i j r r',
          rows out !! i = Some r -> rows out !! j = Some r' ->
          get_cell r "RowID" = get_cell r' "RowID" -> i = j)
    /\ (forall i j : nat,
          StrV ("Post1_" ++ pretty i) <> StrV ("Post2_" ++ pretty j)).
Proof.
  intros H1 H2 Hcols.
  destruct (merge_stage_run w df1 df2 H1 H2 Hcols) as (w' & Hrun & Hw).
  eexists _, w'. split; [exact Hrun|].
  split; [rewrite Hw; apply lookup_insert_eq|]. split.
  - cbn [rows]. intros i j r r' Hi Hj Heq.
    rewrite (merged_rows_key df1 df2 i r Hi) in Heq.
    rewrite (merged_rows_key df1 df2 j r' Hj) in Heq.
    eapply row_id_inj. exact Heq.
  - intros i j. simpl. discriminate.
Qed.

Lemma merged_row_ids_unique_witness :
  exists out w',
    merge_stage example_world_match = (Ok tt, w')
    /\ files w' !! merged_file = Some out
    /\ (forall i j r r',
          rows out !! i = Some r -> rows out !! j = Some r' ->
          get_cell r "RowID" = get_cell r' "RowID" -> i = j)
    /\ (forall i j : nat,
          StrV ("Post1_" ++ pretty i) <> StrV ("Post2_" ++ pretty j)).
Proof.
  apply (merged_row_ids_unique example_world_match example_post1
           example_post2); reflexivity.
Defined.

(** ** More on the descriptive statistics *)

(** X18.  Whenever the counts of steps 2 and 3 are produced, neither
    the finished count nor the different-codes count exceeds the number
    of rows, and when no row is finished the percentage is the integer 0:
    the division by the finished count is not attempted.  On an empty
    table all four figures are 0. *)
Theorem report_counts_bounded (df : frame) (rep : Statistics.report) :
  Statistics.describe df = Ok rep ->
  Statistics.total_cases rep = length (rows df)
  /\ (Statistics.finished rep <= Statistics.total_cases rep)%nat
  /\ (Statistics.different rep <= Statistics.total_cases rep)%nat
  /\ (Statistics.finished rep = 0%nat ->
      Statistics.different_pct rep = IntV 0)
  /\ (rows df = [] -> rep = Statistics.Report 0 0 0 (IntV 0)).
Proof.
  unfold Statistics.describe. intros H.
  destruct (decide ("FINISHED" ∈ columns df)) as [Hf|Hf].
  2:{ unfold Statistics.finished_cases, filter_eq in H.
      rewrite getitem_absent in H by exact Hf. discriminate H. }
  rewrite finished_cases_count in H by exact Hf. cbn [rbind] in H.
  destruct (decide ("P201" ∈ columns df)) as [H2|H2].
  2:{ unfold Statistics.different_codes in H.
      rewrite getitem_absent in H by exact H2. discriminate H. }
  destruct (decide ("P301" ∈ columns df)) as [H3|H3].
  2:{ unfold Statistics.different_codes in H.
      rewrite (getitem_present df "P201") in H by exact H2.
      cbn [rbind] in H.
      rewrite getitem_absent in H by exact H3. discriminate H. }
  rewrite different_codes_count in H by assumption. cbn [rbind] in H.
  injection H as <-.
  cbn [Statistics.total_cases Statistics.finished Statistics.different
       Statistics.different_pct].
  split; [reflexivity|].
  split; [apply List.filter_length_le|].
  split; [apply List.filter_length_le|].
  split.
  - intros ->. reflexivity.
  - intros ->. reflexivity.
Qed.

Lemma report_counts_bounded_witness :
  Statistics.total_cases (Statistics.Report 2 0 1 (IntV 0))
  = length (rows example_raw_unfinished)
  /\ (Statistics.finished (Statistics.Report 2 0 1 (IntV 0))
      <= Statistics.total_cases (Statistics.Report 2 0 1 (IntV 0)))%nat
  /\ (Statistics.different (Statistics.Report 2 0 1 (IntV 0))
      <= Statistics.total_cases (Statistics.Report 2 0 1 (IntV 0)))%nat
  /\ (Statistics.finished (Statistics.Report 2 0 1 (IntV 0)) = 0%nat ->
      Statistics.different_pct (Statistics.Report 2 0 1 (IntV 0)) = IntV 0)
  /\ (rows example_raw_unfinished = [] ->
      Statistics.Report 2 0 1 (IntV 0) = Statistics.Report 0 0 0 (IntV 0)).
Proof.
  apply (report_counts_bounded example_raw_unfinished
           (Statistics.Report 2 0 1 (IntV 0))).
  vm_compute. reflexivity.
Defined.

(** X19.  The counts fail with [KeyError] when the raw table lacks
    FINISHED or P201: the key named is FINISHED when that column is
    missing, and P201 only when FINISHED is a column and P201 is not. *)
Theorem report_missing_column (df : frame) (c : string) :
  c ∈ ["FINISHED"; "P201"] -> c ∉ columns df ->
  exists c',
    Statistics.describe df = Raise (KeyError c')
    /\ c' ∈ ["FINISHED"; "P201"]
    /\ (c' ∉ columns df)
    /\ (c' = "P201" -> "FINISHED" ∈ columns df).
Proof.
  intros Hc Hn. unfold Statistics.describe.
  destruct (decide ("FINISHED" ∈ columns df)) as [Hf|Hf].
  - rewrite finished_cases_count by exact Hf. cbn [rbind].
    unfold Statistics.different_codes.
    assert (H2 : "P201" ∉ columns df).
    { elem_cases Hc; [contradiction|exact Hn]. }
    rewrite getitem_absent by exact H2.
    exists "P201". split; [reflexivity|]. split; [by_compute|].
    split; [exact H2|]. intros _. exact Hf.
  - unfold Statistics.finished_cases, filter_eq.
    rewrite getitem_absent by exact Hf.
    exists "FINISHED". split; [reflexivity|]. split; [by_compute|].
    split; [exact Hf|]. discriminate.
Qed.

Lemma report_missing_column_witness :
  exists c',
    Statistics.describe example_raw_no_flag = Raise (KeyError c')
    /\ c' ∈ ["FINISHED"; "P201"]
    /\ (c' ∉ columns example_raw_no_flag)
    /\ (c' = "P201" -> "FINISHED" ∈ columns example_raw_no_flag).
Proof.
  apply (report_missing_column example_raw_no_flag "FINISHED"); by_compute.
Defined.

(** ** More on the one-hot stage *)

Section DummiesMore.
Import Dummies.

Lemma singleton_of_NoDup {A} (l : list A) (v : A) :
  NoDup l -> v ∈ l -> (forall x, x ∈ l -> x = v) -> l = [v].
Proof.
  intros Hnd Hin Hall. destruct l as [|a l]; [inversion Hin|].
  rewrite (Hall a) by left. f_equal.
  destruct l as [|b l]; [reflexivity|]. exfalso.
  apply NoDup_cons in Hnd as [Ha _]. apply Ha.
  rewrite (Hall a) by left. rewrite <- (Hall b) by (right; left). left.
Qed.

(** X20.  A column read as strings in which a single category is
    observed (all its other cells being null) is removed by the one-hot
    stage without replacement: the one category is the dropped reference,
    so the output has no column for it. *)
Theorem one_hot_single_category (name : string) (s : list cell) (v : string) :
  StrV v ∈ s ->
  (forall c, c ∈ s -> c = StrV v \/ c = NA) ->
  levels s = [v] /\ get_dummies [(name, s)] = [].
Proof.
  intros Hv Hall.
  assert (Hobj : object_dtype s = true).
  { unfold object_dtype. apply existsb_exists. exists (StrV v).
    split; [apply list_elem_of_In; exact Hv|reflexivity]. }
  assert (Hlv : levels s = [v]).
  { apply singleton_of_NoDup.
    - apply levels_NoDup.
    - apply elem_of_levels. exists (StrV v). auto.
    - intros x Hx. apply elem_of_levels in Hx as (c & Hc & Hl).
      destruct (Hall _ Hc) as [->| ->]; simpl in Hl; congruence. }
  split; [exact Hlv|].
  rewrite get_dummies_single_object by exact Hobj.
  unfold get_dummies_1d. rewrite Hlv. reflexivity.
Qed.

Lemma one_hot_single_category_witness :
  levels example_single = ["yes"]
  /\ get_dummies [("Consent", example_single)] = [].
Proof.
  apply (one_hot_single_category "Consent" example_single "yes").
  - unfold example_single. constructor.
  - intros c Hc. unfold example_single in Hc.
    elem_cases Hc; auto.
Defined.

Lemma indicator_one (s : list cell) (lv : string) (i : nat) :
  (i < length s)%nat ->
  nth i (indicator s lv) NA = IntV 1 <-> label (nth i s NA) = Some lv.
Proof.
  intros Hi. rewrite indicator_nth by exact Hi.
  destruct (decide (label (nth i s NA) = Some lv)) as [H|H].
  - rewrite bool_decide_eq_true_2 by exact H. tauto.
  - rewrite bool_decide_eq_false_2 by exact H.
    split; [discriminate|contradiction].
Qed.

Lemma label_some (c : cell) (lv : string) : label c = Some lv <-> c = StrV lv.
Proof.
  destruct c; simpl; split; intros H; try discriminate; congruence.
Qed.

(** X21.  For a column read as strings (each cell a string or null, at
    least one a string) the one-hot stage names each indicator column
    after the source column and the category, name_category; the names of
    one source column are pairwise different; the indicator of a category
    holds 1 in exactly the rows that hold that category; and the dropped
    reference is the least category in string order. *)
Theorem one_hot_columns_named (name : string) (s : list cell) :
  object_dtype s = true ->
  (forall c, c ∈ s -> is_str c = true \/ c = NA) ->
  map fst (get_dummies [(name, s)])
  = map (fun lv => name ++ "_" ++ lv) (tail (levels s))
  /\ NoDup (map fst (get_dummies [(name, s)]))
  /\ (forall col, col ∈ get_dummies [(name, s)] ->
        exists lv, lv ∈ tail (levels s)
          /\ fst col = name ++ "_" ++ lv
          /\ forall i, (i < length s)%nat ->
               (nth i (snd col) NA = IntV 1 <-> nth i s NA = StrV lv))
  /\ (forall ref rest, levels s = ref :: rest ->
        forall lv, lv ∈ rest -> String.le ref lv /\ ref <> lv).
Proof.
  intros Hobj _. rewrite get_dummies_single_object by exact Hobj.
  unfold get_dummies_1d. split; [|split; [|split]].
  - rewrite map_map. reflexivity.
  - rewrite map_map.
    change (map ?f ?l) with (f <$> l).
    apply (NoDup_fmap_2 (fun lv => name ++ "_" ++ lv)).
    apply tail_NoDup, levels_NoDup.
  - intros col Hcol. apply list_elem_of_fmap in Hcol as (lv & -> & Hlv).
    exists lv. split; [exact Hlv|]. split; [reflexivity|].
    intros i Hi. cbn [snd]. rewrite <- label_some.
    apply indicator_one. exact Hi.
  - intros ref rest Hlv lv Hin.
    pose proof (levels_sorted s) as Hsorted.
    pose proof (levels_NoDup s) as Hnd.
    rewrite Hlv in Hsorted, Hnd.
    apply Sorted_StronglySorted in Hsorted; [|apply _].
    apply StronglySorted_inv in Hsorted as [_ Hall].
    rewrite Forall_forall in Hall. split.
    + apply Hall. exact Hin.
    + apply NoDup_cons in Hnd as [Href _]. intros ->. contradiction.
Qed.

Lemma one_hot_columns_named_witness :
  map fst (get_dummies [("Gender", example_gender)])
  = map (fun lv => "Gender" ++ "_" ++ lv) (tail (levels example_gender))
  /\ NoDup (map fst (get_dummies [("Gender", example_gender)]))
  /\ (forall col, col ∈ get_dummies [("Gender", example_gender)] ->
        exists lv, lv ∈ tail (levels example_gender)
          /\ fst col = "Gender" ++ "_" ++ lv
          /\ forall i, (i < length example_gender)%nat ->
               (nth i (snd col) NA = IntV 1
                <-> nth i example_gender NA = StrV lv))
  /\ (forall ref rest, levels example_gender = ref :: rest ->
        forall lv, lv ∈ rest -> String.le ref lv /\ ref <> lv).
Proof.
  apply (one_hot_columns_named "Gender" example_gender).
  - reflexivity.
  - intros c Hc. unfold example_gender in Hc. elem_cases Hc; auto.
Defined.

(** X22.  Step 5 on a table whose four categorical columns hold codes
    and no string, which is how steps 14 to 18 leave them (Post is set to
    the integer 1 or 2), encodes nothing: it returns those four columns
    under their own names with their values as they are, and no indicator
    column. *)
Theorem one_hot_skips_numeric_codes (df : frame) :
  (forall c, c ∈ categorical ->
     c ∈ columns df /\ object_dtype (column_cells df c) = false) ->
  exists t,
    dummy_data df = Ok t
    /\ map fst t = categorical
    /\ (forall c, c ∈ categorical -> (c, column_cells df c) ∈ t)
    /\ length t = 4%nat.
Proof.
  intros H. eexists. split; [apply dummy_data_numeric; exact H|].
  split; [rewrite map_map; apply map_id|].
  split; [|reflexivity].
  intros c Hc. apply list_elem_of_fmap. exists c. auto.
Qed.

Lemma one_hot_skips_numeric_codes_witness :
  exists t,
    dummy_data example_regression_input = Ok t
    /\ map fst t = categorical
    /\ (forall c, c ∈ categorical ->
          (c, column_cells example_regression_input c) ∈ t)
    /\ length t = 4%nat.
Proof.
  apply (one_hot_skips_numeric_codes example_regression_input).
  intros c Hc. unfold categorical in Hc.
  elem_cases Hc; (split; [by_compute|reflexivity]).
Defined.
End DummiesMore.

(** ** More on the scaler *)

Section ScalerMore.
Import StandardScaler.
Local Open Scope R_scope.
















End ScalerMore.

(** ** The charts script, step 3 *)

Section VisualizationFacts.
Import Visualization.

Lemma gender_label_answered (c : cell) :
  cell_isin_str (map_label gender_map c) ["Male"; "Female"]
  = cell_isin c [1; 2].
Proof.
  unfold map_label, gender_map, cell_isin. cbn [find existsb fst snd].
  destruct (cell_eq_int c 1), (cell_eq_int c 2), (cell_eq_int c (-9));
    reflexivity.
Qed.

Lemma topic_label_pass (c : cell) :
  cell_eq_str (map_label topic_map c) "Climate protests" = cell_eq_int c 1.
Proof.
  unfold map_label, topic_map. cbn [find fst snd].
  destruct (cell_eq_int c 1), (cell_eq_int c 2), (cell_eq_int c 3),
    (cell_eq_int c 4), (cell_eq_int c (-9)); reflexivity.
Qed.

Lemma cell_eq_three (x : cell) :
  cell_eq_int x 3 = true -> x = IntV 3 \/ x = FloatV (float_of_Z 3).
Proof.
  intros Hx. destruct x as [|z|f|s]; simpl in Hx; try discriminate.
  - left. apply Z.eqb_eq in Hx. congruence.
  - right. f_equal.
    eapply float_eqb_finite; [vm_compute; reflexivity|exact Hx].
Qed.

Lemma city_label_pass (c : cell) :
  cell_eq_str (map_label city_map c) "Bochum" = cell_eq_int c 3.
Proof.
  destruct (cell_eq_int c 3) eqn:E.
  - destruct (cell_eq_three c E) as [->| ->]; vm_compute; reflexivity.
  - unfold map_label, city_map. cbn [find fst snd]. rewrite E.
    destruct (cell_eq_int c 1), (cell_eq_int c 2), (cell_eq_int c 4),
      (cell_eq_int c 5), (cell_eq_int c (-9)); reflexivity.
Qed.

Lemma labelled_row_gender (r : gmap string cell) :
  cell_isin_str (get_cell (labelled_row r) "Gender") ["Male"; "Female"]
  = answered r.
Proof.
  unfold labelled_row.
  rewrite !get_cell_insert_ne by discriminate.
  rewrite get_cell_insert_eq. apply gender_label_answered.
Qed.

Lemma labelled_row_city (r : gmap string cell) :
  cell_eq_str (get_cell (labelled_row r) "City_Check") "Bochum"
  = passes_city r.
Proof.
  unfold labelled_row.
  rewrite !get_cell_insert_ne by discriminate.
  rewrite get_cell_insert_eq. apply city_label_pass.
Qed.

Lemma labelled_row_topic (r : gmap string cell) :
  cell_eq_str (get_cell (labelled_row r) "Topic_Check") "Climate protests"
  = passes_topic r.
Proof.
  unfold labelled_row.
  rewrite get_cell_insert_eq. apply topic_label_pass.
Qed.

Lemma count_labelled (p p' : gmap string cell -> bool) (rs : list (gmap string cell)) :
  (forall r, p' (labelled_row r) = p r) ->
  length (List.filter p'
            (List.filter
               (fun r => cell_isin_str (get_cell r "Gender") ["Male"; "Female"])
               (map labelled_row rs)))
  = count_rows (fun r => answered r && p r) rs.
Proof.
  intros Hp. rewrite filter_filter_andb, filter_map_comm, length_map.
  unfold count_rows. f_equal. apply filter_ext. intros r.
  rewrite labelled_row_gender, Hp. reflexivity.
Qed.

Lemma setitem_label (cols : list string) (rs : list (gmap string cell))
    (k : gmap string cell -> gmap string cell) (m : list (Z * string))
    (src dst : string) :
  (forall r, get_cell (k r) src = get_cell r src) ->
  setitem (Frame cols (map k rs)) dst
    (map (map_label m) (map (fun r => get_cell r src) (map k rs)))
  = Frame (add_column cols dst)
      (map (fun r => <[dst := map_label m (get_cell r src)]> (k r)) rs).
Proof.
  intros H. rewrite !map_map.
  rewrite (map_ext _ (fun r => map_label m (get_cell r src)))
    by (intros r; rewrite H; reflexivity).
  apply setitem_mapped.
Qed.

Lemma add_labels_run (df : frame) :
  "SD01" ∈ columns df -> "P206" ∈ columns df -> "P306" ∈ columns df ->
  add_labels df
  = Ok (Frame (labelled_columns (columns df)) (map labelled_row (rows df))).
Proof.
  intros Hs Hc Ht. destruct df as [cols rs]. cbn [columns rows] in *.
  unfold add_labels.
  rewrite getitem_present by exact Hs. cbn [rbind rows].
  rewrite map_map, setitem_rows.
  rewrite getitem_present
    by (cbn [columns]; apply elem_of_add_column; left; exact Hc).
  cbn [rbind rows]. cbv zeta.
  rewrite (setitem_label _ rs
             (fun r => <["Gender" := map_label gender_map (get_cell r "SD01")]> r))
    by (intros r; apply get_cell_insert_ne; discriminate).
  cbv beta.
  rewrite getitem_present
    by (cbn [columns]; rewrite !elem_of_add_column; auto).
  cbn [rbind rows]. cbv zeta.
  rewrite (setitem_label _ rs
             (fun r => <["City_Check" := map_label city_map (get_cell r "P206")]>
                (<["Gender" := map_label gender_map (get_cell r "SD01")]> r)))
    by (intros r; rewrite !get_cell_insert_ne by discriminate; reflexivity).
  reflexivity.
Qed.

Lemma count_cascade_run (cols : list string) (rs : list (gmap string cell)) :
  "Gender" ∈ cols -> "City_Check" ∈ cols -> "Topic_Check" ∈ cols ->
  count_cascade (Frame cols (map labelled_row rs))
  = Ok (Frame cols (map labelled_row (List.filter answered rs)),
        Cascade (count_rows answered rs)
                (count_rows (fun r => answered r && passes_city r) rs)
                (count_rows (fun r => answered r && passes_topic r) rs)
                (count_rows (fun r => answered r
                                      && (passes_city r && passes_topic r))
                            rs)).
Proof.
  intros Hg Hc Ht. unfold count_cascade.
  rewrite getitem_present by exact Hg. cbn [rbind rows].
  unfold boolean_index. cbn [rows columns].
  rewrite (map_map (fun r => get_cell r "Gender")), select_mask_map.
  rewrite getitem_present by exact Hc. cbn [rbind rows].
  rewrite getitem_present by exact Ht. cbn [rbind rows].
  rewrite (map_map (fun r => get_cell r "City_Check")),
    (map_map (fun r => get_cell r "Topic_Check")).
  rewrite zip_with_map_same, !count_true_map.
  rewrite (count_labelled passes_city) by apply labelled_row_city.
  rewrite (count_labelled passes_topic) by apply labelled_row_topic.
  rewrite (count_labelled (fun r => passes_city r && passes_topic r))
    by (intros r; rewrite labelled_row_city, labelled_row_topic; reflexivity).
  rewrite filter_map_comm, length_map.
  rewrite (filter_ext _ answered) by apply labelled_row_gender.
  reflexivity.
Qed.

Lemma label_and_count_run (df : frame) :
  "SD01" ∈ columns df -> "P206" ∈ columns df -> "P306" ∈ columns df ->
  label_and_count df
  = Ok (Frame (labelled_columns (columns df))
              (map labelled_row (List.filter answered (rows df))),
        Cascade (count_rows answered (rows df))
                (count_rows (fun r => answered r && passes_city r) (rows df))
                (count_rows (fun r => answered r && passes_topic r) (rows df))
                (count_rows (fun r => answered r
                                      && (passes_city r && passes_topic r))
                            (rows df))).
Proof.
  intros Hs Hc Ht. unfold label_and_count.
  rewrite add_labels_run by assumption. cbn [rbind].
  apply count_cascade_run; unfold labelled_columns;
    rewrite !elem_of_add_column; auto.
Qed.

Lemma count_rows_chain (a c t : gmap string cell -> bool)
    (rs : list (gmap string cell)) :
  (count_rows (fun r => a r && (c r && t r)) rs
   <= count_rows (fun r => a r && c r) rs)%nat
  /\ (count_rows (fun r => a r && (c r && t r)) rs
      <= count_rows (fun r => a r && t r) rs)%nat
  /\ (count_rows (fun r => a r && c r) rs <= count_rows a rs)%nat
  /\ (count_rows (fun r => a r && t r) rs <= count_rows a rs)%nat
  /\ (count_rows (fun r => a r && c r) rs
      + count_rows (fun r => a r && t r) rs
      <= count_rows a rs
         + count_rows (fun r => a r && (c r && t r)) rs)%nat.
Proof.
  unfold count_rows. induction rs as [|r rs IH]; simpl; [lia|].
  destruct (a r), (c r), (t r); simpl; lia.
Qed.

Lemma labelled_row_other (r : gmap string cell) (c : string) :
  c <> "Gender" -> c <> "City_Check" -> c <> "Topic_Check" ->
  get_cell (labelled_row r) c = get_cell r c.
Proof.
  intros Hg Hc Ht. unfold labelled_row.
  rewrite !get_cell_insert_ne by congruence. reflexivity.
Qed.

(** X25.  Step 3 of the charts script, on a table with the columns SD01,
    P206 and P306, read off the codes: the rows kept are those whose SD01
    equals 1 or 2, in their order, each with the three label columns set
    and every other cell as loaded; the total is their number, and the
    city, topic and both-checks counts are the numbers of kept rows with
    P206 equal to 3, with P306 equal to 1, and with both. *)
Theorem cascade_counts_from_codes (df : frame) :
  "SD01" ∈ columns df -> "P206" ∈ columns df -> "P306" ∈ columns df ->
  exists out c,
    label_and_count df = Ok (out, c)
    /\ columns out = labelled_columns (columns df)
    /\ rows out = map labelled_row (List.filter answered (rows df))
    /\ (forall r x, x <> "Gender" -> x <> "City_Check" ->
          x <> "Topic_Check" -> get_cell (labelled_row r) x = get_cell r x)
    /\ total c = count_rows answered (rows df)
    /\ n_pass_city c
       = count_rows (fun r => answered r && passes_city r) (rows df)
    /\ n_pass_topic c
       = count_rows (fun r => answered r && passes_topic r) (rows df)
    /\ n_pass_both c
       = count_rows (fun r => answered r && (passes_city r && passes_topic r))
           (rows df).
Proof.
  intros Hs Hc Ht. eexists _, _.
  split; [apply label_and_count_run; assumption|].
  cbn [columns rows total n_pass_city n_pass_topic n_pass_both].
  split; [reflexivity|]. split; [reflexivity|].
  split; [apply labelled_row_other|].
  repeat split.
Qed.

Lemma cascade_counts_from_codes_witness :
  exists out c,
    label_and_count example_complete = Ok (out, c)
    /\ columns out = labelled_columns (columns example_complete)
    /\ rows out
       = map labelled_row (List.filter answered (rows example_complete))
    /\ (forall r x, x <> "Gender" -> x <> "City_Check" ->
          x <> "Topic_Check" -> get_cell (labelled_row r) x = get_cell r x)
    /\ total c = count_rows answered (rows example_complete)
    /\ n_pass_city c
       = count_rows (fun r => answered r && passes_city r)
           (rows example_complete)
    /\ n_pass_topic c
       = count_rows (fun r => answered r && passes_topic r)
           (rows example_complete)
    /\ n_pass_both c
       = count_rows (fun r => answered r && (passes_city r && passes_topic r))
           (rows example_complete).
Proof.
  apply (cascade_counts_from_codes example_complete); by_compute.
Defined.

(** X26.  The counts of the cascade are consistent on every table with
    the columns SD01, P206 and P306: the total is the number of rows
    kept; the both-checks count is at most each single-check count, and
    each of those at most the total; the two single-check counts together
    exceed the total by at most the both-checks count; and the heights of
    the failure blocks of the flow diagram of step 6 are never negative
    and add up, with the final block, to the total. *)
Theorem cascade_counts_consistent (df : frame) :
  "SD01" ∈ columns df -> "P206" ∈ columns df -> "P306" ∈ columns df ->
  exists out c,
    label_and_count df = Ok (out, c)
    /\ length (rows out) = total c
    /\ (n_pass_both c <= n_pass_city c <= total c)%nat
    /\ (n_pass_both c <= n_pass_topic c <= total c)%nat
    /\ (n_pass_city c + n_pass_topic c <= total c + n_pass_both c)%nat
    /\ 0 <= city_fail c
    /\ 0 <= topic_fail c
    /\ Z.of_nat (total c)
       = city_fail c + topic_fail c + Z.of_nat (n_pass_both c).
Proof.
  intros Hs Hc Ht. eexists _, _.
  split; [apply label_and_count_run; assumption|].
  unfold city_fail, topic_fail.
  cbn [columns rows total n_pass_city n_pass_topic n_pass_both].
  destruct (count_rows_chain answered passes_city passes_topic (rows df))
    as (H1 & H2 & H3 & H4 & H5).
  split; [rewrite length_map; reflexivity|].
  repeat split; lia.
Qed.

Lemma cascade_counts_consistent_witness :
  exists out c,
    label_and_count example_complete = Ok (out, c)
    /\ length (rows out) = total c
    /\ (n_pass_both c <= n_pass_city c <= total c)%nat
    /\ (n_pass_both c <= n_pass_topic c <= total c)%nat
    /\ (n_pass_city c + n_pass_topic c <= total c + n_pass_both c)%nat
    /\ 0 <= city_fail c
    /\ 0 <= topic_fail c
    /\ Z.of_nat (total c)
       = city_fail c + topic_fail c + Z.of_nat (n_pass_both c).
Proof.
  apply (cascade_counts_consistent example_complete); by_compute.
Defined.

(** X27.  Step 3 of the charts script fails with [KeyError] when the
    loaded table lacks SD01, P206 or P306; the key named is one of the
    three that is not a column. *)
Theorem label_and_count_missing_column (df : frame) (c : string) :
  c ∈ ["SD01"; "P206"; "P306"] -> c ∉ columns df ->
  exists c',
    label_and_count df = Raise (KeyError c')
    /\ c' ∈ ["SD01"; "P206"; "P306"]
    /\ (c' ∉ columns df).
Proof.
  intros Hc Hn. unfold label_and_count, add_labels.
  destruct (decide ("SD01" ∈ columns df)) as [Hs|Hs].
  - rewrite getitem_present by exact Hs. cbn [rbind]. cbv zeta.
    destruct (decide ("P206" ∈ columns df)) as [Hp|Hp].
    + rewrite (getitem_present _ "P206")
        by (cbn [columns setitem]; apply elem_of_add_column; auto).
      cbn [rbind].
      assert (Ht : "P306" ∉ columns df).
      { elem_cases Hc; [contradiction..|exact Hn]. }
      rewrite (getitem_absent _ "P306").
      * exists "P306". split; [reflexivity|]. split; [by_compute|exact Ht].
      * cbn [columns setitem]. rewrite !elem_of_add_column.
        intros [[H|H]|H]; [contradiction|discriminate..].
    + rewrite (getitem_absent _ "P206").
      * exists "P206". split; [reflexivity|]. split; [by_compute|exact Hp].
      * cbn [columns setitem]. rewrite elem_of_add_column.
        intros [H|H]; [contradiction|discriminate].
  - rewrite getitem_absent by exact Hs.
    exists "SD01". split; [reflexivity|]. split; [by_compute|exact Hs].
Qed.

Lemma label_and_count_missing_column_witness :
  exists c',
    label_and_count example_no_city = Raise (KeyError c')
    /\ c' ∈ ["SD01"; "P206"; "P306"]
    /\ (c' ∉ columns example_no_city).
Proof.
  apply (label_and_count_missing_column example_no_city "P206"); by_compute.
Defined.
End VisualizationFacts.

(** ** Steps 12 to 14 together *)

Lemma post_info_row_cell (post_col : string) (r : gmap string cell)
    (c : string) :
  c <> "Caption_Length" -> c <> "Hashtags" ->
  get_cell (post_info_row post_col r) c = get_cell r c.
Proof.
  intros H1 H2. unfold get_cell. rewrite post_info_row_other by assumption.
  reflexivity.
Qed.

Lemma enhance_q2_run (w : world) (df : frame) :
  files w !! cleaned_q2_file = Some df -> "P201" ∈ columns df ->
  enhance_q2 w
  = (Ok (post_info_frame df "P201"),
     World (<[post1_input_file := post_info_frame df "P201"]> (files w))
           (stdout w ++ "Processing Cleaned_Q2.csv..."
              :: post_info_log df "P201" "Cleaned_Q2_withPostInfo.csv")).
Proof.
  intros Hf Hp. unfold enhance_q2, bind at 1 2, print, read_csv.
  cbn [files stdout]. unfold cleaned_q2_file in Hf. rewrite Hf.
  rewrite add_post_info_run by (apply post_col_in_post_info; exact Hp).
  cbn [files stdout]. rewrite <- app_assoc. reflexivity.
Qed.

(** X28.  Steps 12 and 14 compose: on a cleaned Q2 file with the nine
    survey columns step 14 selects, step 12 writes the file that step 14
    reads, and step 14 then writes the canonical Post 1 file with one row
    per cleaned row in the same order.  In it a row whose P201 code is a
    key of the coding scheme has the caption length and hashtag count of
    that key, and a row whose code is no key has both missing.  The
    cleaned file itself is left as it was. *)
Theorem enhance_then_finalize_post1 (w : world) (df : frame) :
  files w !! cleaned_q2_file = Some df ->
  (forall c, c ∈ cleaned_q2_columns -> c ∈ columns df) ->
  exists enhanced w1 out w2,
    enhance_q2 w = (Ok enhanced, w1)
    /\ files w1 !! post1_input_file = Some enhanced
    /\ finalize_post1 w1 = (Ok tt, w2)
    /\ files w2 !! post1_final_file = Some out
    /\ files w2 !! cleaned_q2_file = Some df
    /\ columns out = final_columns
    /\ length (rows out) = length (rows df)
    /\ forall i r,
         rows df !! i = Some r ->
         exists r',
           rows out !! i = Some r'
           /\ get_cell r' "RowID" = StrV ("Post1_" ++ pretty i)
           /\ get_cell r' "Image Drawn" = get_cell r "P201"
           /\ get_cell r' "Like Possibility" = get_cell r "P203"
           /\ (forall k p,
                 coding_scheme !! k = Some p ->
                 cell_eq_int (get_cell r "P201") k = true ->
                 cell_eq_int (get_cell r' "Caption_Length") (fst p) = true
                 /\ cell_eq_int (get_cell r' "Hashtags") (snd p) = true)
           /\ (cell_isin (get_cell r "P201") coding_scheme_keys = false ->
               isna (get_cell r' "Caption_Length") = true
               /\ isna (get_cell r' "Hashtags") = true).
Proof.
  intros Hf Hcols.
  assert (Hp : "P201" ∈ columns df) by (apply Hcols; by_compute).
  pose proof (enhance_q2_run w df Hf Hp) as Hrun.
  set (w1 := World (<[post1_input_file := post_info_frame df "P201"]> (files w))
                   (stdout w ++ "Processing Cleaned_Q2.csv..."
                      :: post_info_log df "P201" "Cleaned_Q2_withPostInfo.csv"))
    in Hrun.
  assert (Hin : files w1 !! post1_input_file = Some (post_info_frame df "P201")).
  { unfold w1. cbn [files]. apply lookup_insert_eq. }
  destruct (finalize_post_run post1_input_file post1_selection post1_renaming
              1 "Post1_" "Cleaned_Q2_Final_Post1.csv" w1 _ Hin)
    as (w2 & Hfin & Hw2).
  { intros c Hc. cbn [columns post_info_frame].
    rewrite !elem_of_add_column.
    unfold post1_selection in Hc.
    elem_cases Hc; auto; left; left; apply Hcols; by_compute. }
  { intros c Hc. unfold final_columns in Hc. elem_cases Hc; by_compute. }
  exists (post_info_frame df "P201"), w1,
    (Frame final_columns
       (finalized_rows post1_selection post1_renaming 1 "Post1_"
          (rows (post_info_frame df "P201")))), w2.
  split; [exact Hrun|]. split; [exact Hin|]. split; [exact Hfin|].
  split; [rewrite Hw2; apply lookup_insert_eq|].
  split.
  { rewrite Hw2. rewrite lookup_insert_ne by discriminate.
    unfold w1. cbn [files]. rewrite lookup_insert_ne by discriminate.
    exact Hf. }
  split; [reflexivity|]. cbn [rows post_info_frame].
  split.
  { unfold finalized_rows.
    rewrite length_map, length_assign_rows, !length_map. reflexivity. }
  intros i r Hr. eexists. split.
  { apply finalized_rows_lookup.
    change (map ?f ?l) with (f <$> l). rewrite list_lookup_fmap, Hr.
    reflexivity. }
  destruct (finalized_row_keys post1_selection post1_renaming 1 "Post1_" i
              (post_info_row "P201" r)) as (Hid & _ & _).
  split; [exact Hid|].
  pose (field := fun src => finalized_row_field post1_selection
                              post1_renaming 1 "Post1_" i
                              (post_info_row "P201" r) src).
  assert (Hcap : get_cell (finalized_row post1_selection post1_renaming 1
                             "Post1_" i (post_info_row "P201" r))
                          "Caption_Length"
                 = get_cell (post_info_row "P201" r) "Caption_Length")
    by (apply (field "Caption_Length"); solve_field).
  assert (Hhash : get_cell (finalized_row post1_selection post1_renaming 1
                              "Post1_" i (post_info_row "P201" r))
                           "Hashtags"
                  = get_cell (post_info_row "P201" r) "Hashtags")
    by (apply (field "Hashtags"); solve_field).
  split.
  { rewrite <- (post_info_row_cell "P201" r "P201") by discriminate.
    apply (field "P201"); solve_field. }
  split.
  { rewrite <- (post_info_row_cell "P201" r "P203") by discriminate.
    apply (field "P203"); solve_field. }
  rewrite Hcap, Hhash. split.
  - intros k p Hk Hx.
    rewrite <- (get_cell_init_row r "P201") in Hx by discriminate.
    destruct (post_info_row_key "P201" r k p Hk Hx) as [-> ->].
    cbn [cell_eq_int]. rewrite !Z.eqb_refl. auto.
  - intros Hx.
    rewrite <- (get_cell_init_row r "P201") in Hx by discriminate.
    unfold get_cell at 1 2.
    rewrite post_info_row_caption, post_info_row_hashtags, Hx. auto.
Qed.

Lemma enhance_then_finalize_post1_witness :
  exists enhanced w1 out w2,
    enhance_q2 example_world_cleaned = (Ok enhanced, w1)
    /\ files w1 !! post1_input_file = Some enhanced
    /\ finalize_post1 w1 = (Ok tt, w2)
    /\ files w2 !! post1_final_file = Some out
    /\ files w2 !! cleaned_q2_file = Some example_cleaned_q2
    /\ columns out = final_columns
    /\ length (rows out) = length (rows example_cleaned_q2)
    /\ forall i r,
         rows example_cleaned_q2 !! i = Some r ->
         exists r',
           rows out !! i = Some r'
           /\ get_cell r' "RowID" = StrV ("Post1_" ++ pretty i)
           /\ get_cell r' "Image Drawn" = get_cell r "P201"
           /\ get_cell r' "Like Possibility" = get_cell r "P203"
           /\ (forall k p,
                 coding_scheme !! k = Some p ->
                 cell_eq_int (get_cell r "P201") k = true ->
                 cell_eq_int (get_cell r' "Caption_Length") (fst p) = true
                 /\ cell_eq_int (get_cell r' "Hashtags") (snd p) = true)
           /\ (cell_isin (get_cell r "P201") coding_scheme_keys = false ->
               isna (get_cell r' "Caption_Length") = true
               /\ isna (get_cell r' "Hashtags") = true).
Proof.
  apply (enhance_then_finalize_post1 example_world_cleaned example_cleaned_q2).
  - reflexivity.
  - intros c Hc. unfold cleaned_q2_columns in Hc. elem_cases Hc; by_compute.
Defined.

(** X29.  When the cleaned files do not exist, steps 12 and 13 each fail
    with [FileNotFoundError] naming the missing path, after printing
    their first log line and before writing any file. *)
Theorem enhance_missing_file (w : world) :
  files w !! cleaned_q2_file = None ->
  files w !! cleaned_q3_file = None ->
  enhance_q2 w
  = (Raise (FileNotFoundError cleaned_q2_file),
     World (files w) (stdout w ++ ["Processing Cleaned_Q2.csv..."]))
  /\ enhance_q3 w
     = (Raise (FileNotFoundError cleaned_q3_file),
        World (files w) (stdout w ++ ["Processing Cleaned_Q3.csv..."])).
Proof.
  intros H2 H3. unfold enhance_q2, enhance_q3, bind, print, read_csv.
  cbn [files stdout]. unfold cleaned_q2_file in H2. unfold cleaned_q3_file in H3.
  rewrite H2, H3. split; reflexivity.
Qed.

Lemma enhance_missing_file_witness :
  enhance_q2 example_world_empty
  = (Raise (FileNotFoundError cleaned_q2_file),
     World (files example_world_empty)
           (stdout example_world_empty ++ ["Processing Cleaned_Q2.csv..."]))
  /\ enhance_q3 example_world_empty
     = (Raise (FileNotFoundError cleaned_q3_file),
        World (files example_world_empty)
              (stdout example_world_empty ++ ["Processing Cleaned_Q3.csv..."])).
Proof.
  apply (enhance_missing_file example_world_empty); reflexivity.
Defined.
